(** * Insurance-claim classifier: preprocessing, registries and evaluation

  A shallow embedding of the Python sources

    - [src/scaler_factory.py]     (module [ScalerFactory]),
    - [src/sampling_strategy.py]  (module [SamplingStrategy]),
    - [src/models.py]             (module [Models]),
    - [src/preprocessor.py]       (modules [Pandas] and [Preprocessor]),

  followed by the properties of them that the specification states, and
  by further properties of the same functions read off the code.

  Conventions.

    - A Python [str] is a [string] of ASCII characters.
    - A function that can raise returns a [result].
    - A Python [dict] is an insertion-ordered association list ([PyDict]):
      the error messages of the factories print the keys in insertion
      order.  The class attributes that hold the registries are passed
      explicitly.
    - A table is its row count and its columns in order; a cell is a
      Python scalar.  Tables have distinct column labels ([well_formed]).
    - Objects live in a store ([heap]) and are passed by reference, so that
      copying, in-place change and allocation are what they are in Python.
    - Third-party code (binary64 arithmetic and parsing, the category
      order of pandas, the samplers of imbalanced-learn, the generator of
      numpy) is an interface; scikit-learn's encoder and metrics and the
      pandas operations used are modelled on the values.
    - A table does not record the dtype of its columns.  The one place
      where the dtype decides between returning and raising, the cast to
      int64 of a column holding a number outside int64, is part of the
      interface as well. *)

From Stdlib Require Import String Ascii List ZArith Bool Lia Arith.
From Stdlib Require Import QArith.
From Stdlib Require Import DecimalString.
Import ListNotations.

Local Open Scope list_scope.
Local Open Scope string_scope.

(** ** Exceptions and results *)

Inductive exn : Type :=
| ValueError (msg : string)
| KeyError (key : string)
| TypeError (msg : string)
| OverflowError (msg : string).

Inductive result (A : Type) : Type :=
| Ok (a : A)
| Raise (e : exn).

Arguments Ok {A} a.
Arguments Raise {A} e.

Definition is_ValueError (e : exn) : bool :=
match e with ValueError _ => true | _ => false end.

Definition returns {A : Type} (r : result A) : Prop :=
exists a, r = Ok a.

Definition raises {A : Type} (r : result A) : Prop :=
exists e, r = Raise e.

(** ** Python strings *)

Module PyStr.

(** [c.lower()] for one ASCII character. *)
Definition lower_ascii (c : ascii) : ascii :=
  let n := nat_of_ascii c in
  if andb (65 <=? n)%nat (n <=? 90)%nat then ascii_of_nat (n + 32) else c.

(** [s.lower()] *)
Fixpoint lower (s : string) : string :=
  match s with
  | EmptyString => EmptyString
  | String c s' => String (lower_ascii c) (lower s')
  end.

(** [sep.join(xs)] *)
Definition join (sep : string) (xs : list string) : string :=
  String.concat sep xs.

(** [str(n)] for an integer. *)
Definition of_Z (z : Z) : string :=
  NilZero.string_of_int (Z.to_int z).

(** Truthiness of a string: [bool(s)]. *)
Definition truthy (s : string) : bool :=
  match s with EmptyString => false | _ => true end.

(** [s.startswith(p)] *)
Fixpoint startswith (p s : string) : bool :=
  match p, s with
  | EmptyString, _ => true
  | String a p', String b s' => if Ascii.eqb a b then startswith p' s' else false
  | String _ _, EmptyString => false
  end.

End PyStr.

(** ** Python dictionaries with string keys (insertion ordered) *)

Module PyDict.

Section Dict.
Context {V : Type}.

Definition dict : Type := list (string * V).

(** [d.get(k)] *)
Fixpoint get (k : string) (d : dict) : option V :=
  match d with
  | [] => None
  | (k', v) :: d' => if String.eqb k' k then Some v else get k d'
  end.

(** [k in d] *)
Definition contains (k : string) (d : dict) : bool :=
  match get k d with Some _ => true | None => false end.

(** [d[k] = v]: an existing key keeps its position, a new key goes
    last. *)
Fixpoint set (k : string) (v : V) (d : dict) : dict :=
  match d with
  | [] => [(k, v)]
  | (k', v') :: d' =>
      if String.eqb k' k then (k, v) :: d' else (k', v') :: set k v d'
  end.

(** [d.keys()] *)
Definition keys (d : dict) : list string := map fst d.

End Dict.

Arguments dict V : clear implicits.

End PyDict.

(** ** src/scaler_factory.py *)

Module ScalerFactory.

(** The classes a registry entry can hold: the pass-through scaler of
    this module, the three scikit-learn scalers, or a class supplied by
    the caller of [register_scaler]. *)
Inductive scaler_class : Type :=
| NoScaler
| StandardScaler
| MinMaxScaler
| RobustScaler
| CustomScaler (qualname : string).

(** [scaler_class()]: an unfitted instance. *)
Inductive scaler : Type :=
| new (cls : scaler_class).

(** The two class attributes of [ScalerFactory]. *)
Record state : Type := mkState {
  _scaler_registry : PyDict.dict scaler_class;
  _descriptions : PyDict.dict string
}.

Definition initial : state :=
  {| _scaler_registry :=
       [ ("none", NoScaler);
         ("standard", StandardScaler);
         ("minmax", MinMaxScaler);
         ("robust", RobustScaler) ];
     _descriptions :=
       [ ("none", "No scaling (pass-through)");
         ("standard", "StandardScaler: Z-score normalization (mean=0, std=1)");
         ("minmax", "MinMaxScaler: Scale features to [0, 1] range");
         ("robust", "RobustScaler: Scale using median and IQR (robust to outliers)") ] |}.

Definition unknown_scaler_message (scaler_type : string) (st : state) : string :=
  let available := PyStr.join ", " (PyDict.keys (_scaler_registry st)) in
  "Unknown scaler type: '" ++ scaler_type ++ "'. "
    ++ "Available scalers: " ++ available.

Definition create_scaler (st : state) (scaler_type : string) : result scaler :=
  let scaler_type := PyStr.lower scaler_type in
  if negb (PyDict.contains scaler_type (_scaler_registry st)) then
    Raise (ValueError (unknown_scaler_message scaler_type st))
  else
    match PyDict.get scaler_type (_scaler_registry st) with
    | Some scaler_class => Ok (new scaler_class)
    | None => Raise (KeyError scaler_type)
    end.

Definition get_description (st : state) (scaler_type : string) : string :=
  match PyDict.get scaler_type (_descriptions st) with
  | Some d => d
  | None => "Unknown scaler"
  end.

(** [description or name] *)
Definition description_or (description name : string) : string :=
  if PyStr.truthy description then description else name.

Definition register_scaler (st : state) (name : string)
    (scaler_class : scaler_class) (description : string) : state :=
  {| _scaler_registry := PyDict.set name scaler_class (_scaler_registry st);
     _descriptions := PyDict.set name (description_or description name) (_descriptions st) |}.

Definition list_available_scalers (st : state) : list string :=
  PyDict.keys (_scaler_registry st).

(** The states the class attributes can be in: the initial one and what
    [register_scaler] makes of it. *)
Inductive reachable : state -> Prop :=
| reach_initial : reachable initial
| reach_register st name cls description :
    reachable st -> reachable (register_scaler st name cls description).

End ScalerFactory.

(** ** src/sampling_strategy.py *)

Module SamplingStrategy.

(** The [sampling_strategy] argument of imbalanced-learn: a name such as
    ['minority'] or ['all'], or a ratio. *)
Inductive sampling_strategy_arg : Type :=
| by_name (s : string)
| by_ratio (q : Q).

(** The three imbalanced-learn samplers the strategies wrap. *)
Inductive sampler : Type :=
| RandomOverSampler
| SMOTE
| ADASYN.

(** The classes a registry entry can hold. *)
Inductive strategy_class : Type :=
| NoSamplingStrategy
| RandomOversamplingStrategy
| SMOTEStrategy
| ADASYNStrategy
| CustomStrategy (qualname : string).

(** Instances: what [__init__] stored in [self]. *)
Inductive strategy : Type :=
| NoSampling
| RandomOversampling (sampling_strategy : sampling_strategy_arg) (random_state : option Z)
| SMOTEOversampling (sampling_strategy : sampling_strategy_arg) (random_state : option Z)
| ADASYNOversampling (sampling_strategy : sampling_strategy_arg) (random_state : option Z)
| CustomInstance (qualname : string) (kwargs : option (sampling_strategy_arg * option Z)).

(** Calling a class, without arguments ([None]) or with the two keyword
    arguments [sampling_strategy] and [random_state].  The three
    oversampling classes default to ['minority'] and [None];
    [NoSamplingStrategy] defines no [__init__] and so accepts no
    argument. *)
Definition instantiate (cls : strategy_class)
    (kwargs : option (sampling_strategy_arg * option Z)) : result strategy :=
  let args := match kwargs with
              | Some a => a
              | None => (by_name "minority", None)
              end in
  match cls with
  | NoSamplingStrategy =>
      match kwargs with
      | None => Ok NoSampling
      | Some _ => Raise (TypeError "NoSamplingStrategy() takes no arguments")
      end
  | RandomOversamplingStrategy => Ok (RandomOversampling (fst args) (snd args))
  | SMOTEStrategy => Ok (SMOTEOversampling (fst args) (snd args))
  | ADASYNStrategy => Ok (ADASYNOversampling (fst args) (snd args))
  | CustomStrategy q => Ok (CustomInstance q kwargs)
  end.

(** The class attribute of [SamplingStrategyFactory]. *)
Definition registry : Type := PyDict.dict strategy_class.

Definition initial : registry :=
  [ ("none", NoSamplingStrategy);
    ("random", RandomOversamplingStrategy);
    ("smote", SMOTEStrategy);
    ("adasyn", ADASYNStrategy) ].

Definition unknown_method_message (method : string) (reg : registry) : string :=
  let available := PyStr.join ", " (PyDict.keys reg) in
  "Unknown sampling method: '" ++ method ++ "'. "
    ++ "Available methods: " ++ available.

Definition create_strategy (reg : registry) (method : string)
    (sampling_strategy : sampling_strategy_arg) (random_state : option Z)
    : result strategy :=
  let method := PyStr.lower method in
  if negb (PyDict.contains method reg) then
    Raise (ValueError (unknown_method_message method reg))
  else
    match PyDict.get method reg with
    | Some strategy_class =>
        if String.eqb method "none" then instantiate strategy_class None
        else instantiate strategy_class (Some (sampling_strategy, random_state))
    | None => Raise (KeyError method)
    end.

Definition register_strategy (reg : registry) (name : string)
    (strategy_class : strategy_class) : registry :=
  PyDict.set name strategy_class reg.

Definition list_available_strategies (reg : registry) : list string :=
  PyDict.keys reg.

(** *** Resampling

    The strategies of this file only pass their two stored parameters to
    an imbalanced-learn sampler built anew at every call.  The samplers
    themselves are third-party code: they are taken as a function
    [fit_resample] of the sampler's parameters, the data, and the state
    of the numpy generator they draw from, returning the outcome and the
    generator's state afterwards.  [check_random_state] is scikit-learn's:
    [None] stands for numpy's process-wide generator, an integer seeds a
    generator of its own. *)

Section Resample.

Variables Features Target RandomState : Type.

(** [numpy.random.RandomState(seed)] *)
Variable seeded : Z -> RandomState.

Variable fit_resample :
  sampler -> sampling_strategy_arg -> Features -> Target ->
  RandomState -> result (Features * Target) * RandomState.

(** The [resample] method of a class registered by the caller. *)
Variable custom_resample :
  string -> option (sampling_strategy_arg * option Z) -> Features -> Target ->
  RandomState -> result (Features * Target) * RandomState.

(** A computation that may draw from numpy's process-wide generator. *)
Definition Rand (A : Type) : Type := RandomState -> A * RandomState.

(** [sampler = cls(sampling_strategy=..., random_state=...);
    sampler.fit_resample(X, y)] *)
Definition sample_with (cls : sampler) (sampling_strategy : sampling_strategy_arg)
    (random_state : option Z) (X : Features) (y : Target)
    : Rand (result (Features * Target)) :=
  fun global =>
    match random_state with
    | None => fit_resample cls sampling_strategy X y global
    | Some seed =>
        (fst (fit_resample cls sampling_strategy X y (seeded seed)), global)
    end.

Definition resample (self : strategy) (X : Features) (y : Target)
    : Rand (result (Features * Target)) :=
  match self with
  | NoSampling => fun global => (Ok (X, y), global)
  | RandomOversampling ss rs => sample_with RandomOverSampler ss rs X y
  | SMOTEOversampling ss rs => sample_with SMOTE ss rs X y
  | ADASYNOversampling ss rs => sample_with ADASYN ss rs X y
  | CustomInstance q kwargs => custom_resample q kwargs X y
  end.

End Resample.

Arguments sample_with {Features Target RandomState} seeded fit_resample
  cls sampling_strategy random_state X y _.
Arguments resample {Features Target RandomState} seeded fit_resample
  custom_resample self X y _.

End SamplingStrategy.

(** ** src/models.py *)

Module Models.

(** A metric value: a number, or Python's [float('nan')]. *)
Inductive metric : Type :=
| NaN
| Num (q : Q).

Definition is_num (m : metric) : bool :=
  match m with Num _ => true | NaN => false end.

(** The dictionary [evaluate] returns. *)
Record metrics : Type := mkMetrics {
  Model : string;
  Accuracy : metric;
  Precision : metric;
  Recall : metric;
  F1_Score : metric;
  ROC_AUC : metric;
  FNR : metric
}.

(** Labels are the binary outcomes the preprocessor produces: [false] is
    class 0 and [true] is class 1. *)
Definition label : Type := bool.

Definition ratio (num den : nat) : Q :=
  (inject_Z (Z.of_nat num) / inject_Z (Z.of_nat den))%Q.

Definition same_length {A B : Type} (a : list A) (b : list B) : bool :=
  (length a =? length b)%nat.

Definition inconsistent_samples : exn :=
  ValueError "Found input variables with inconsistent numbers of samples".

(** The sorted distinct labels occurring in either vector. *)
Definition unique_labels (y_true y_pred : list label) : list label :=
  let all := (y_true ++ y_pred)%list in
  ((if existsb negb all then [false] else [])
     ++ (if existsb (fun b => b) all then [true] else []))%list.

(** Number of samples of class [t] predicted as [p]. *)
Definition count_pairs (t p : label) (y_true y_pred : list label) : nat :=
  length (filter (fun tp => andb (Bool.eqb (fst tp) t) (Bool.eqb (snd tp) p))
            (combine y_true y_pred)).

(** [sklearn.metrics.confusion_matrix]: one row per true label and one
    column per predicted label, over the labels that occur. *)
Definition confusion_matrix (y_true y_pred : list label) : result (list (list nat)) :=
  if negb (same_length y_true y_pred) then Raise inconsistent_samples
  else
    let labels := unique_labels y_true y_pred in
    Ok (map (fun t => map (fun p => count_pairs t p y_true y_pred) labels) labels).

(** [cm.ravel()] *)
Definition ravel (cm : list (list nat)) : list nat := concat cm.

(** [TN, FP, FN, TP = ...]: unpacking into four names. *)
Definition unpack4 (xs : list nat) : result (nat * nat * nat * nat) :=
  match xs with
  | [a; b; c; d] => Ok (a, b, c, d)
  | _ => Raise (ValueError "wrong number of values to unpack (expected 4)")
  end.

Definition positives (y : list label) : nat := length (filter (fun b => b) y).
Definition negatives (y : list label) : nat := length (filter negb y).

(** Twice the number of (positive, negative) pairs the scores rank
    correctly, a tie counting for half a pair. *)
Definition ranked_pairs2 (y_true : list label) (y_score : list Q) : nat :=
  let samples := combine y_true y_score in
  let pos := filter (fun s => fst s) samples in
  let neg := filter (fun s => negb (fst s)) samples in
  list_sum
    (map (fun p =>
            list_sum
              (map (fun n =>
                      match (snd p ?= snd n)%Q with
                      | Gt => 2 | Eq => 1 | Lt => 0
                      end)%nat neg)) pos).

(** [sklearn.metrics.roc_auc_score] for binary labels: the area under the
    ROC curve, which is the share of correctly ranked pairs; undefined,
    and an error, when [y_true] holds a single class. *)
Definition roc_auc_score (y_true : list label) (y_score : list Q) : result Q :=
  if negb (same_length y_true y_score) then Raise inconsistent_samples
  else if orb (positives y_true =? 0)%nat (negatives y_true =? 0)%nat then
    Raise (ValueError
      "Only one class present in y_true. ROC AUC score is not defined in that case.")
  else
    Ok (ratio (ranked_pairs2 y_true y_score)
              (2 * positives y_true * negatives y_true)).

Definition score_of_label (b : label) : Q := if b then 1%Q else 0%Q.

Definition accuracy_score (y_true y_pred : list label) : result Q :=
  if negb (same_length y_true y_pred) then Raise inconsistent_samples
  else
    Ok (ratio (count_pairs true true y_true y_pred
               + count_pairs false false y_true y_pred)
              (length y_true)).

(** [precision_score(y_true, y_pred, zero_division=0)] *)
Definition precision_score (y_true y_pred : list label) : result Q :=
  if negb (same_length y_true y_pred) then Raise inconsistent_samples
  else
    let tp := count_pairs true true y_true y_pred in
    let fp := count_pairs false true y_true y_pred in
    Ok (if (tp + fp =? 0)%nat then 0%Q else ratio tp (tp + fp)).

(** [recall_score(y_true, y_pred)]: an undefined recall is reported as 0
    with a warning ([zero_division="warn"]). *)
Definition recall_score (y_true y_pred : list label) : result Q :=
  if negb (same_length y_true y_pred) then Raise inconsistent_samples
  else
    let tp := count_pairs true true y_true y_pred in
    let fn := count_pairs true false y_true y_pred in
    Ok (if (tp + fn =? 0)%nat then 0%Q else ratio tp (tp + fn)).

(** [f1_score(y_true, y_pred)], likewise 0 when undefined. *)
Definition f1_score (y_true y_pred : list label) : result Q :=
  if negb (same_length y_true y_pred) then Raise inconsistent_samples
  else
    let tp := count_pairs true true y_true y_pred in
    let fp := count_pairs false true y_true y_pred in
    let fn := count_pairs true false y_true y_pred in
    Ok (if (2 * tp + fp + fn =? 0)%nat then 0%Q
        else ratio (2 * tp) (2 * tp + fp + fn)).

Definition bind {A B : Type} (r : result A) (k : A -> result B) : result B :=
  match r with
  | Ok a => k a
  | Raise e => Raise e
  end.

(** [try: body except Exception: handler] *)
Definition try_except {A : Type} (body : result A) (handler : A) : A :=
  match body with
  | Ok a => a
  | Raise _ => handler
  end.

Definition placeholder (model_name : string) : metrics :=
  {| Model := model_name;
     Accuracy := NaN; Precision := NaN; Recall := NaN;
     F1_Score := NaN; ROC_AUC := NaN; FNR := NaN |}.

Definition evaluate (y_true y_pred : list label) (model_name : string)
    (y_score : option (list Q)) : metrics :=
  try_except
    (bind (confusion_matrix y_true y_pred) (fun cm =>
     bind (unpack4 (ravel cm)) (fun '(TN, FP, FN, TP) =>
     let roc_auc :=
       try_except
         (bind (match y_score with
                | Some y_score => roc_auc_score y_true y_score
                | None => roc_auc_score y_true (map score_of_label y_pred)
                end) (fun auc => Ok (Num auc)))
         NaN in
     bind (accuracy_score y_true y_pred) (fun accuracy =>
     bind (precision_score y_true y_pred) (fun precision =>
     bind (recall_score y_true y_pred) (fun recall =>
     bind (f1_score y_true y_pred) (fun f1 =>
     Ok {| Model := model_name;
           Accuracy := Num accuracy;
           Precision := Num precision;
           Recall := Num recall;
           F1_Score := Num f1;
           ROC_AUC := roc_auc;
           FNR := if (0 <? FN + TP)%nat then Num (ratio FN (FN + TP))
                  else Num 0%Q |})))))))
    (placeholder model_name).

End Models.

(** ** Stateful computations that may raise *)

Module State.

(** A computation over a state [S]: it returns or raises, and leaves a
    state behind either way. *)
Definition St (S A : Type) : Type := S -> result A * S.

Definition ret {S A : Type} (a : A) : St S A := fun s => (Ok a, s).

Definition raise {S A : Type} (e : exn) : St S A := fun s => (Raise e, s).

Definition lift {S A : Type} (r : result A) : St S A := fun s => (r, s).

Definition bind {S A B : Type} (m : St S A) (k : A -> St S B) : St S B :=
  fun s =>
    match m s with
    | (Ok a, s') => k a s'
    | (Raise e, s') => (Raise e, s')
    end.

(** [for x in xs: body] *)
Fixpoint for_each {S A : Type} (xs : list A) (body : A -> St S unit) : St S unit :=
  match xs with
  | [] => ret tt
  | x :: xs' => bind (body x) (fun _ => for_each xs' body)
  end.

Declare Scope py_scope.
Delimit Scope py_scope with py.

Notation "x <- m ;; k" := (bind m (fun x => k))
  (at level 61, m at next level, right associativity) : py_scope.
Notation "m ;; k" := (bind m (fun _ => k))
  (at level 61, right associativity) : py_scope.

End State.

(** ** The part of pandas and scikit-learn that the preprocessor uses *)

Module Pandas.

(** A cell of a table: a Python scalar.  [CNaN] is the missing-value
    marker [float('nan')]; [CFloat] carries every other double. *)
Inductive cell (F : Type) : Type :=
| CNone
| CNaN
| CBool (b : bool)
| CInt (z : Z)
| CFloat (f : F)
| CStr (s : string).

Arguments CNone {F}.
Arguments CNaN {F}.
Arguments CBool {F} b.
Arguments CInt {F} z.
Arguments CFloat {F} f.
Arguments CStr {F} s.

(** Binary64 arithmetic, the numeric parsers of Python and pandas, the
    order pandas gives to the categories of a column, and numpy's cast to
    int64 of a column that holds a number outside int64 are third-party
    code whose details no property below depends on.  They are an
    interface. *)
Class Runtime : Type := {
  (** the doubles other than NaN *)
  f64 : Type;
  (** [float(n)] for an integer *)
  f64_of_Z : Z -> f64;
  (** the number a text denotes for [pandas.to_numeric], if any *)
  f64_of_str : string -> option f64;
  (** [repr(x)] *)
  f64_repr : f64 -> string;
  (** [int(x)], undefined on the infinities *)
  f64_trunc : f64 -> option Z;
  (** [x == y] on doubles, and between a double and an integer *)
  f64_eqb : f64 -> f64 -> bool;
  f64_eqZ : f64 -> Z -> bool;
  (** [int(s)] for a text, if it denotes an integer *)
  int_of_str : string -> option Z;
  (** [pandas.Categorical(values).categories]: the distinct non-null
      values of a column, in category order *)
  categories_of : list (cell f64) -> list (cell f64);
  (** [s.astype(int)] for a column that holds an integer or a double
      outside the range of int64.  What numpy does then goes by the dtype
      of the column, which a table here does not record: the cast of a
      uint64 column wraps around and that of a float64 column gives
      whatever the machine's conversion gives, both without an error; the
      cast of an object column raises [OverflowError]. *)
  astype_int_wide : list (cell f64) -> result (list Z)
}.

(** A runtime in which every double is integral, texts are plain decimal
    numerals, the categories of a column of texts are sorted, and a column
    is given the dtype pandas infers from its values; the examples are
    evaluated with it. *)
Definition decimal_of_str (s : string) : option Z :=
  option_map Z.of_int (NilZero.int_of_string s).

Fixpoint first_occurrences (seen xs : list (cell Z)) : list (cell Z) :=
  match xs with
  | [] => []
  | x :: xs' =>
      let fresh :=
        match x with
        | CNone | CNaN => false
        | CBool b => negb (existsb (fun y => match y with CBool c => Bool.eqb b c | _ => false end) seen)
        | CInt z => negb (existsb (fun y => match y with CInt c => Z.eqb z c | _ => false end) seen)
        | CFloat z => negb (existsb (fun y => match y with CFloat c => Z.eqb z c | _ => false end) seen)
        | CStr s => negb (existsb (fun y => match y with CStr c => String.eqb s c | _ => false end) seen)
        end in
      if fresh then x :: first_occurrences (x :: seen) xs'
      else first_occurrences seen xs'
  end.

Fixpoint insert_by (leb : cell Z -> cell Z -> bool) (x : cell Z) (xs : list (cell Z))
    : list (cell Z) :=
  match xs with
  | [] => [x]
  | y :: ys => if leb x y then x :: y :: ys else y :: insert_by leb x ys
  end.

Definition text_leb (a b : cell Z) : bool :=
  match a, b with
  | CStr x, CStr y => String.leb x y
  | _, _ => true
  end.

Definition is_text (a : cell Z) : bool :=
  match a with CStr _ => true | _ => false end.

(** Distinct non-null values, sorted when all of them are texts. *)
Definition sorted_categories (xs : list (cell Z)) : list (cell Z) :=
  let levels := first_occurrences [] xs in
  if forallb is_text levels then fold_right (insert_by text_leb) [] levels
  else levels.

(** Two's-complement wrap-around into the range of int64. *)
Definition wrap_int64 (z : Z) : Z := ((z + 2 ^ 63) mod 2 ^ 64 - 2 ^ 63)%Z.

Definition is_uint64 (a : cell Z) : bool :=
  match a with
  | CInt z => andb (0 <=? z)%Z (z <? 2 ^ 64)%Z
  | _ => false
  end.

Definition is_double (a : cell Z) : bool :=
  match a with CFloat _ => true | _ => false end.

(** The cast to int64 of a column that holds a number outside int64.  A
    column of Python integers from 0 to 2^64 - 1 is a uint64 column: the
    cast wraps around.  A column of doubles is a float64 column: the cast
    gives the least int64 for a double out of range (the conversion of
    x86-64).  Any other such column is an object column: the cast
    raises. *)
Definition cast_wide (xs : list (cell Z)) : result (list Z) :=
  if forallb is_uint64 xs then
    Ok (map (fun a => match a with CInt z => wrap_int64 z | _ => 0%Z end) xs)
  else if forallb is_double xs then
    Ok (map (fun a =>
               match a with
               | CFloat z =>
                   if andb (- 2 ^ 63 <=? z)%Z (z <? 2 ^ 63)%Z then z
                   else (- 2 ^ 63)%Z
               | _ => 0%Z
               end) xs)
  else Raise (OverflowError "Python int too large to convert to C long").

Definition integral_runtime : Runtime :=
  {| f64 := Z;
     f64_of_Z := fun z => z;
     f64_of_str := decimal_of_str;
     f64_repr := fun z => PyStr.of_Z z ++ ".0";
     f64_trunc := fun z => Some z;
     f64_eqb := Z.eqb;
     f64_eqZ := Z.eqb;
     int_of_str := decimal_of_str;
     categories_of := sorted_categories;
     astype_int_wide := cast_wide |}.

Section Frames.

Context {R : Runtime}.

Definition value : Type := cell f64.

(** A [Series] (its values; the index is positional). *)
Definition series : Type := list value.

(** A [DataFrame]: the length of its index and its columns in order. *)
Record DataFrame : Type := mkDataFrame {
  nrows : nat;
  columns : list (string * series)
}.

Definition column_names (df : DataFrame) : list string :=
  map fst (columns df).

Definition mem (x : string) (xs : list string) : bool :=
  existsb (String.eqb x) xs.

Fixpoint distinct (xs : list string) : bool :=
  match xs with
  | [] => true
  | x :: xs' => andb (negb (mem x xs')) (distinct xs')
  end.

(** Every column has one value per row. *)
Definition aligned (df : DataFrame) : Prop :=
  Forall (fun c => length (snd c) = nrows df) (columns df).

Definition alignedb (df : DataFrame) : bool :=
  forallb (fun c => (length (snd c) =? nrows df)%nat) (columns df).

(** The tables this development speaks about: column labels are distinct
    texts and every column has one value per row. *)
Definition well_formed (df : DataFrame) : Prop :=
  distinct (column_names df) = true /\ alignedb df = true.

(** *** Scalars *)

Definition isna (v : value) : bool :=
  match v with CNone | CNaN => true | _ => false end.

(** [a == b] in Python. *)
Definition py_eq (a b : value) : bool :=
  let int_of_bool (x : bool) : Z := if x then 1%Z else 0%Z in
  match a, b with
  | CNone, CNone => true
  | CBool x, CBool y => Bool.eqb x y
  | CBool x, CInt z | CInt z, CBool x => Z.eqb (int_of_bool x) z
  | CBool x, CFloat f | CFloat f, CBool x => f64_eqZ f (int_of_bool x)
  | CInt x, CInt y => Z.eqb x y
  | CInt z, CFloat f | CFloat f, CInt z => f64_eqZ f z
  | CFloat x, CFloat y => f64_eqb x y
  | CStr x, CStr y => String.eqb x y
  | _, _ => false
  end.

(** [str(v)] *)
Definition py_str (v : value) : string :=
  match v with
  | CNone => "None"
  | CNaN => "nan"
  | CBool true => "True"
  | CBool false => "False"
  | CInt z => PyStr.of_Z z
  | CFloat f => f64_repr f
  | CStr s => s
  end.

Definition int64_min : Z := (- 2 ^ 63)%Z.
Definition int64_max : Z := (2 ^ 63 - 1)%Z.

(** A Python integer stored into an element of an int64 array: numpy
    refuses an integer outside the range.  The cast of an object column
    does this to each of its elements; the cast of a uint64 or float64
    column does not go through here (see [Series_astype_int]). *)
Definition in_int64 (z : Z) : result Z :=
  if andb (int64_min <=? z)%Z (z <=? int64_max)%Z then Ok z
  else Raise (OverflowError "Python int too large to convert to C long").

(** One value under [astype(int)], as long as the column holds no number
    outside int64 (where the conversion is the same whatever the dtype of
    the column) and, beyond that, on an object column: [int(v)], stored
    into an int64 array. *)
Definition to_int (v : value) : result Z :=
  match v with
  | CNone =>
      Raise (TypeError "int() argument must be a string, a bytes-like object or a real number, not 'NoneType'")
  | CNaN => Raise (ValueError "cannot convert float NaN to integer")
  | CBool b => Ok (if b then 1%Z else 0%Z)
  | CInt z => in_int64 z
  | CFloat f =>
      match f64_trunc f with
      | Some z => in_int64 z
      | None => Raise (OverflowError "cannot convert float infinity to integer")
      end
  | CStr s =>
      match int_of_str s with
      | Some z => in_int64 z
      | None => Raise (ValueError ("invalid literal for int() with base 10: '" ++ s ++ "'"))
      end
  end.

(** One value under [astype(float)]. *)
Definition to_float (v : value) : result value :=
  match v with
  | CNone =>
      Raise (TypeError "float() argument must be a string or a real number, not 'NoneType'")
  | CNaN => Ok CNaN
  | CBool b => Ok (CFloat (f64_of_Z (if b then 1%Z else 0%Z)))
  | CInt z => Ok (CFloat (f64_of_Z z))
  | CFloat f => Ok (CFloat f)
  | CStr s =>
      match f64_of_str s with
      | Some f => Ok (CFloat f)
      | None => Raise (ValueError ("could not convert string to float: '" ++ s ++ "'"))
      end
  end.

(** One value under [pandas.to_numeric(..., errors='coerce')]: numbers
    stay, a text becomes the number it denotes, anything else the
    missing-value marker. *)
Definition coerce_numeric (v : value) : value :=
  match v with
  | CNone | CNaN => CNaN
  | CBool b => CBool b
  | CInt z => CInt z
  | CFloat f => CFloat f
  | CStr s =>
      match f64_of_str s with
      | Some f => CFloat f
      | None => CNaN
      end
  end.

(** *** Series *)

Fixpoint traverse {A B : Type} (f : A -> result B) (xs : list A) : result (list B) :=
  match xs with
  | [] => Ok []
  | x :: xs' =>
      match f x with
      | Raise e => Raise e
      | Ok y =>
          match traverse f xs' with
          | Raise e => Raise e
          | Ok ys => Ok (y :: ys)
          end
      end
  end.

Fixpoint dict_lookup (k : value) (d : list (value * value)) : option value :=
  match d with
  | [] => None
  | (k', v) :: d' => if py_eq k' k then Some v else dict_lookup k d'
  end.

(** [s.map(d)] for a dictionary [d]: a value that is no key of [d] maps
    to the missing-value marker. *)
Definition Series_map (d : list (value * value)) (s : series) : series :=
  map (fun v => match dict_lookup v d with Some r => r | None => CNaN end) s.

(** [s.fillna(v)] *)
Definition Series_fillna (v : value) (s : series) : series :=
  map (fun x => if isna x then v else x) s.

(** [pandas.to_numeric(s, errors='coerce')] *)
Definition to_numeric_coerce (s : series) : series := map coerce_numeric s.

(** [s.astype(float)] *)
Definition Series_astype_float (s : series) : result series := traverse to_float s.

(** [s.astype(str)] *)
Definition Series_astype_str (s : series) : series := map (fun v => CStr (py_str v)) s.

(** The value is an integer or a double outside the range of int64. *)
Definition overflows (v : value) : bool :=
  let outside (z : Z) : bool :=
    match in_int64 z with Ok _ => false | Raise _ => true end in
  match v with
  | CInt z => outside z
  | CFloat f =>
      match f64_trunc f with
      | Some z => outside z
      | None => false
      end
  | _ => false
  end.

(** [s.astype(int)]: the values are converted one by one, unless one of
    them is a number outside int64; then the cast is numpy's for the dtype
    of the column, which may wrap around and return. *)
Definition Series_astype_int (s : series) : result (list Z) :=
  if existsb overflows s then astype_int_wide s else traverse to_int s.

(** *** DataFrame methods, as computations on the frame they belong to *)

Definition L : Type -> Type := State.St DataFrame.

Fixpoint find_column (c : string) (cols : list (string * series)) : option series :=
  match cols with
  | [] => None
  | (c', s) :: cols' => if String.eqb c' c then Some s else find_column c cols'
  end.

(** An existing column is replaced where it stands, a new one goes last. *)
Fixpoint set_column (c : string) (s : series) (cols : list (string * series))
    : list (string * series) :=
  match cols with
  | [] => [(c, s)]
  | (c', s') :: cols' =>
      if String.eqb c' c then (c, s) :: cols' else (c', s') :: set_column c s cols'
  end.

Definition remove_columns (labels : list string) (cols : list (string * series))
    : list (string * series) :=
  filter (fun kv => negb (mem (fst kv) labels)) cols.

(** [df.columns] *)
Definition get_columns : L (list string) :=
  fun df => (Ok (column_names df), df).

(** [df[c]] *)
Definition getitem (c : string) : L series :=
  fun df =>
    match find_column c (columns df) with
    | Some s => (Ok s, df)
    | None => (Raise (KeyError c), df)
    end.

(** [df[c] = s], for [s] computed from a column of [df]. *)
Definition setitem (c : string) (s : series) : L unit :=
  fun df => (Ok tt, {| nrows := nrows df; columns := set_column c s (columns df) |}).

(** [df[c] = a] for a two-dimensional array [a], given by its columns. *)
Definition setitem_array (c : string) (a : list series) : L unit :=
  match a with
  | [s] => setitem c s
  | _ => State.raise (ValueError "Cannot set a DataFrame with multiple columns to the single column")
  end.

(** [df.drop(columns=labels)]: the frame without these columns; a label
    that is no column is an error. *)
Definition drop_frame (labels : list string) (df : DataFrame) : result DataFrame :=
  match filter (fun l => negb (mem l (column_names df))) labels with
  | [] => Ok {| nrows := nrows df; columns := remove_columns labels (columns df) |}
  | missing :: _ => Raise (KeyError missing)
  end.

(** [df.drop(columns=labels, inplace=True)] *)
Definition drop_inplace (labels : list string) : L unit :=
  fun df =>
    match drop_frame labels df with
    | Ok df' => (Ok tt, df')
    | Raise e => (Raise e, df)
    end.

(** [df[labels]] for a list of labels: these columns, in the order of
    [labels]. *)
Definition select_frame (labels : list string) (df : DataFrame) : result DataFrame :=
  match traverse (fun l => match find_column l (columns df) with
                           | Some s => Ok (l, s)
                           | None => Raise (KeyError l)
                           end) labels with
  | Ok cols => Ok {| nrows := nrows df; columns := cols |}
  | Raise e => Raise e
  end.

Definition select (labels : list string) : L DataFrame :=
  fun df => (select_frame labels df, df).

(** *** [sklearn.preprocessing.OrdinalEncoder] with given categories and
    the default [handle_unknown='error'] *)

Record OrdinalEncoder : Type := mkOrdinalEncoder {
  categories : list (list string)
}.

Fixpoint index_of (s : string) (cats : list string) : option nat :=
  match cats with
  | [] => None
  | c :: cats' =>
      if String.eqb c s then Some O else option_map S (index_of s cats')
  end.

(** The code of one value: the rank of its category, as a double.  The
    error names the value that has no category (scikit-learn lists all
    such values of the column in one message). *)
Definition encode_value (cats : list string) (v : value) : result value :=
  match v with
  | CStr s =>
      match index_of s cats with
      | Some i => Ok (CFloat (f64_of_Z (Z.of_nat i)))
      | None => Raise (ValueError ("Found unknown categories ['" ++ s ++ "'] in column 0 during fit"))
      end
  | _ => Raise (ValueError ("Found unknown categories [" ++ py_str v ++ "] in column 0 during fit"))
  end.

(** [enc.fit_transform(X)]: the columns of the encoded array.  An input
    without rows is refused, then a list of categories that does not match
    the columns, then a value outside its column's categories. *)
Definition fit_transform (enc : OrdinalEncoder) (X : DataFrame) : result (list series) :=
  if (nrows X =? 0)%nat then
    Raise (ValueError "Found array with 0 sample(s) (shape=(0,)) while a minimum of 1 is required.")
  else if negb (length (categories enc) =? length (columns X))%nat then
    Raise (ValueError "Shape mismatch: if categories is an array, it has to be of shape (n_features,).")
  else
    traverse (fun cc => traverse (encode_value (fst cc)) (snd (snd cc)))
      (combine (categories enc) (columns X)).

(** *** [pandas.get_dummies] *)

Definition get_empty_frame (n : nat) : DataFrame :=
  {| nrows := n; columns := [] |}.

(** The indicator columns of one column. *)
Definition get_dummies_1d (data : series) (prefix prefix_sep : string)
    (drop_first : bool) : DataFrame :=
  let levels := categories_of data in
  if (length levels =? 0)%nat then get_empty_frame (length data)
  else if andb drop_first (length levels =? 1)%nat then get_empty_frame (length data)
  else
    let levels := if drop_first then tl levels else levels in
    {| nrows := length data;
       columns :=
         map (fun level =>
                (prefix ++ prefix_sep ++ py_str level,
                 map (fun v => CBool (py_eq v level)) data))
             levels |}.

(** [pandas.concat(frames, axis=1)] for frames over one index. *)
Definition concat_columns (frames : list DataFrame) : result DataFrame :=
  match frames with
  | [] => Raise (ValueError "No objects to concatenate")
  | first :: _ =>
      Ok {| nrows := nrows first; columns := concat (map columns frames) |}
  end.

(** [pandas.get_dummies(data, columns=cols, drop_first=drop_first)]: the
    columns that are not encoded come first, unless every column is
    encoded; then the indicator columns of each encoded column. *)
Definition get_dummies_frame (data : DataFrame) (cols : list string)
    (drop_first : bool) : result DataFrame :=
  match select_frame cols data with
  | Raise e => Raise e
  | Ok data_to_encode =>
      match
        (if (length (columns data_to_encode) =? length (columns data))%nat
         then Ok []
         else match drop_frame cols data with
              | Ok rest => Ok [rest]
              | Raise e => Raise e
              end)
      with
      | Raise e => Raise e
      | Ok with_dummies =>
          concat_columns
            (with_dummies ++
             map (fun col => get_dummies_1d (snd col) (fst col) "_" drop_first)
                 (columns data_to_encode))%list
      end
  end.

(** *** The store of objects *)

Inductive object : Type :=
| ODataFrame (df : DataFrame)
| OSeries (s : series).

(** A reference to an object: its address in the store. *)
Definition ref : Type := nat.

Definition heap : Type := list object.

Definition M : Type -> Type := State.St heap.

Fixpoint update {A : Type} (n : nat) (x : A) (l : list A) : list A :=
  match l, n with
  | [], _ => []
  | _ :: l', O => x :: l'
  | y :: l', S n' => y :: update n' x l'
  end.

(** A new object. *)
Definition alloc (o : object) : M ref :=
  fun h => (Ok (length h), (h ++ [o])%list).

(** [r.method(...)]: the method runs on the frame [r] refers to and
    leaves that frame as the method left it. *)
Definition on {A : Type} (r : ref) (method : L A) : M A :=
  fun h =>
    match nth_error h r with
    | Some (ODataFrame df) =>
        let (a, df') := method df in (a, update r (ODataFrame df') h)
    | _ => (Raise (TypeError "not a DataFrame"), h)
    end.

(** [df.copy()] *)
Definition DataFrame_copy (df : ref) : M ref :=
  State.bind (on df (fun d => (Ok d, d))) (fun d => alloc (ODataFrame d)).

(** [data.drop(columns=labels)]: a new frame. *)
Definition DataFrame_drop (data : ref) (labels : list string) : M ref :=
  State.bind (on data (fun d => (drop_frame labels d, d)))
    (fun d => alloc (ODataFrame d)).

(** [pandas.get_dummies(data, columns=cols, drop_first=...)]: a new
    frame. *)
Definition get_dummies (data : ref) (cols : list string) (drop_first : bool) : M ref :=
  State.bind (on data (fun d => (get_dummies_frame d cols drop_first, d)))
    (fun d => alloc (ODataFrame d)).

(** [s.astype(int)] as a new [Series]. *)
Definition astype_int (s : series) : M ref :=
  State.bind (State.lift (Series_astype_int s))
    (fun zs => alloc (OSeries (map CInt zs))).

End Frames.

End Pandas.

(** ** src/preprocessor.py *)

Module Preprocessor.

Import State Pandas.
Local Open Scope py_scope.

Section Process.

Context {R : Runtime}.

Definition boolean_cols : list string :=
  [ "is_parking_camera"; "is_tpms"; "is_adjustable_steering"; "is_esc";
    "is_parking_sensors"; "is_front_fog_lights"; "is_rear_window_wiper";
    "is_rear_window_washer"; "is_rear_window_defogger"; "is_brake_assist";
    "is_power_door_locks"; "is_power_steering"; "is_central_locking";
    "is_driver_seat_height_adjustable"; "is_day_night_rear_view_mirror";
    "is_ecw"; "is_speed_alert" ].

Definition float_cols : list string :=
  [ "length"; "width"; "height"; "gross_weight"; "airbags"; "population_density" ].

Definition ncap_categories : list string := [ "0"; "1"; "2"; "3"; "4"; "5" ].

Definition categorical_cols : list string :=
  [ "transmission_type"; "cylinder"; "gear_box"; "rear_brakes_type";
    "steering_type"; "fuel_type"; "make"; "segment"; "model";
    "engine_type"; "max_torque"; "max_power"; "area_cluster"; "displacement" ].

Definition target_col : string := "is_claim".

(** [{'Yes': True, 'No': False}] *)
Definition yes_no : list (value * value) :=
  [ (CStr "Yes", CBool true); (CStr "No", CBool false) ].

Definition missing_target : exn :=
  ValueError ("Target column '" ++ target_col ++ "' missing from dataset").

(** 1. Drop identifiers *)
Definition drop_identifiers : L unit :=
  cols <- get_columns ;;
  if mem "policy_id" cols then drop_inplace [ "policy_id" ] else ret tt.

(** 2. Boolean conversion *)
Definition boolean_conversion : L unit :=
  cols <- get_columns ;;
  let existing_bool_cols := filter (fun col => mem col cols) boolean_cols in
  for_each existing_bool_cols (fun col =>
    s <- getitem col ;;
    setitem col (Series_fillna (CBool false) (Series_map yes_no s))).

(** 3. Float conversion *)
Definition float_conversion : L unit :=
  for_each float_cols (fun col =>
    cols <- get_columns ;;
    if mem col cols then
      s <- getitem col ;;
      s' <- lift (Series_astype_float (to_numeric_coerce s)) ;;
      setitem col s'
    else ret tt).

(** 4. Ordinal encoding of the NCAP rating (only if present) *)
Definition ordinal_encoding : L unit :=
  cols <- get_columns ;;
  if mem "ncap_rating" cols then
    s <- getitem "ncap_rating" ;;
    setitem "ncap_rating" (Series_astype_str s) ;;
    let enc := {| categories := [ ncap_categories ] |} in
    X <- select [ "ncap_rating" ] ;;
    codes <- lift (fit_transform enc X) ;;
    setitem_array "NCAP_Rating" codes ;;
    drop_inplace [ "ncap_rating" ]
  else ret tt.

(** 5. One-hot encoding: [data] is bound to a new frame. *)
Definition one_hot_encoding (data : ref) : M ref :=
  cols <- on data get_columns ;;
  get_dummies data (filter (fun c => mem c cols) categorical_cols) true.

(** 6. Separate the target variable *)
Definition separate_target (data : ref) : M (ref * ref) :=
  cols <- on data get_columns ;;
  if negb (mem target_col cols) then raise missing_target
  else
    X <- DataFrame_drop data [ target_col ] ;;
    s <- on data (getitem target_col) ;;
    y <- astype_int s ;;
    ret (X, y).

(** [InsurancePreprocessor.process]: it works on a copy of its argument;
    steps 1 to 4 change that copy in place. *)
Definition process (df : ref) : M (ref * ref) :=
  data <- DataFrame_copy df ;;
  on data drop_identifiers ;;
  on data boolean_conversion ;;
  on data float_conversion ;;
  on data ordinal_encoding ;;
  data <- one_hot_encoding data ;;
  separate_target data.

(** *** What [process] computes, as a function of the input table *)

(** Steps 1 to 4 on the copy. *)
Definition in_place_steps : L unit :=
  drop_identifiers ;; boolean_conversion ;; float_conversion ;; ordinal_encoding.

Definition encoded_columns (d : DataFrame) : list string :=
  filter (fun c => mem c (column_names d)) categorical_cols.

(** Step 6 on the frame step 5 made. *)
Definition split_target (d : DataFrame) : result (DataFrame * series) :=
  if negb (mem target_col (column_names d)) then Raise missing_target
  else
    match drop_frame [ target_col ] d with
    | Raise e => Raise e
    | Ok X =>
        match fst (getitem target_col d) with
        | Raise e => Raise e
        | Ok s =>
            match Series_astype_int s with
            | Raise e => Raise e
            | Ok zs => Ok (X, map CInt zs)
            end
        end
    end.

Definition process_frame (df : DataFrame) : result (DataFrame * series) :=
  match in_place_steps df with
  | (Raise e, _) => Raise e
  | (Ok _, d4) =>
      match get_dummies_frame d4 (encoded_columns d4) true with
      | Raise e => Raise e
      | Ok d5 => split_target d5
      end
  end.

(** *** Conditions on the input table *)

(** The text form of a value is one of the declared NCAP categories. *)
Definition known_rating (v : value) : bool := mem (py_str v) ncap_categories.

(** The ordinal step can encode the table: it has no [ncap_rating]
    column, or it has rows and every rating is a declared category. *)
Definition ratings_encodable (df : DataFrame) : bool :=
  match find_column "ncap_rating" (columns df) with
  | None => true
  | Some s => andb (negb (nrows df =? 0)%nat) (forallb known_rating s)
  end.

Definition castable (v : value) : bool :=
  match to_int v with Ok _ => true | Raise _ => false end.

(** Every label converts to an integer. *)
Definition labels_castable (df : DataFrame) : bool :=
  match find_column target_col (columns df) with
  | None => false
  | Some s => forallb castable s
  end.

(** No label is a number outside the range of int64. *)
Definition labels_within_int64 (df : DataFrame) : bool :=
  match find_column target_col (columns df) with
  | None => true
  | Some s => negb (existsb overflows s)
  end.

(** A value that denotes one of the two outcomes. *)
Definition binary_label (v : value) : bool :=
  match to_int v with
  | Ok z => orb (Z.eqb z 0) (Z.eqb z 1)
  | Raise _ => false
  end.

(** The mapping of step 2 on one value. *)
Definition is_yes (v : value) : value :=
  match v with
  | CStr s => CBool (String.eqb s "Yes")
  | _ => CBool false
  end.

(** The mapping of step 3 on one value. *)
Definition as_float (v : value) : value :=
  match coerce_numeric v with
  | CBool b => CFloat (f64_of_Z (if b then 1%Z else 0%Z))
  | CInt z => CFloat (f64_of_Z z)
  | w => w
  end.

(** A label that step 5 can give to an indicator column: an encoded
    column's label, an underscore, and a category. *)
Definition indicator_label (c : string) : bool :=
  existsb (fun col => PyStr.startswith (col ++ "_") c) categorical_cols.

(** The table has a column besides the identifier. *)
Definition has_features (df : DataFrame) : bool :=
  existsb (fun c => negb (String.eqb c "policy_id")) (column_names df).

(** The labels no step writes to or removes: a column under such a label
    reaches step 6 as it came in. *)
Definition passes_through (c : string) : bool :=
  negb (orb (String.eqb c "policy_id")
       (orb (mem c boolean_cols)
       (orb (mem c float_cols)
       (orb (String.eqb c "ncap_rating")
       (orb (String.eqb c "NCAP_Rating")
       (orb (mem c categorical_cols) (indicator_label c))))))).

(** [code] is the code step 4 gives to the rating [v]: the rank of the
    text form of [v] among the declared categories, as a double. *)
Definition is_rank (v code : value) : Prop :=
  exists i : nat,
    index_of (py_str v) ncap_categories = Some i
    /\ code = CFloat (f64_of_Z (Z.of_nat i)).

(** *** Tables used in the examples *)

(** No label column, and a rating outside the declared categories. *)
Definition unlabelled_unknown_rating : DataFrame :=
  {| nrows := 1; columns := [ ("ncap_rating", [ CStr "9" ]) ] |}.


(** A label column that holds a value other than 0 and 1. *)
Definition label_two : DataFrame :=
  {| nrows := 1; columns := [ ("is_claim", [ CInt 2 ]) ] |}.

(** A label column that holds a null. *)
Definition label_null : DataFrame :=
  {| nrows := 1; columns := [ ("is_claim", [ CNone ]) ] |}.

(** A label column that holds 2^63, the least integer above int64. *)
Definition label_wide : DataFrame :=
  {| nrows := 1; columns := [ ("is_claim", [ CInt (2 ^ 63) ]) ] |}.

End Process.

(** The table of the end-to-end example of the specification. *)
Definition example_table : @DataFrame integral_runtime :=
  {| nrows := 2;
     columns :=
       [ ("policy_id", [ CStr "123"; CStr "456" ]);
         ("is_parking_camera", [ CStr "Yes"; CStr "No" ]);
         ("is_claim", [ CInt 1; CInt 0 ]);
         ("length", [ CStr "4000"; CStr "4200" ]);
         ("ncap_rating", [ CStr "3"; CStr "5" ]);
         ("transmission_type", [ CStr "Manual"; CStr "Automatic" ]) ] |}.

(** The same table without its label column. *)
Definition example_without_label : @DataFrame integral_runtime :=
  {| nrows := 2;
     columns :=
       [ ("policy_id", [ CStr "123"; CStr "456" ]);
         ("is_parking_camera", [ CStr "Yes"; CStr "No" ]);
         ("length", [ CStr "4000"; CStr "4200" ]);
         ("ncap_rating", [ CStr "3"; CStr "5" ]);
         ("transmission_type", [ CStr "Manual"; CStr "Automatic" ]) ] |}.

End Preprocessor.

(** * Properties *)

(** ** Dictionaries *)

Section DictFacts.

Context {V : Type}.
Implicit Types (d : PyDict.dict V) (k : string) (v : V).

Lemma dict_get_None_iff k d :
  PyDict.get k d = None <-> ~ In k (PyDict.keys d).
Proof.
  induction d as [| [k' v'] d IH]; simpl.
  - tauto.
  - destruct (String.eqb_spec k' k) as [-> | Hne].
    + split; [discriminate | intros H; exfalso; apply H; now left].
    + rewrite IH. tauto.
Qed.

Lemma dict_contains_iff k d :
  PyDict.contains k d = true <-> In k (PyDict.keys d).
Proof.
  unfold PyDict.contains.
  destruct (PyDict.get k d) as [v |] eqn:E.
  - split; [intros _ | reflexivity].
    destruct (in_dec string_dec k (PyDict.keys d)) as [Hin | Hout]; [exact Hin |].
    apply dict_get_None_iff in Hout. congruence.
  - apply dict_get_None_iff in E. split; [discriminate | tauto].
Qed.

Lemma dict_contains_false_iff k d :
  PyDict.contains k d = false <-> ~ In k (PyDict.keys d).
Proof.
  rewrite <- dict_contains_iff. destruct (PyDict.contains k d); split; congruence.
Qed.

Lemma dict_get_set_same k v d :
  PyDict.get k (PyDict.set k v d) = Some v.
Proof.
  induction d as [| [k' v'] d IH]; simpl.
  - now rewrite String.eqb_refl.
  - destruct (String.eqb k' k) eqn:E; simpl.
    + now rewrite String.eqb_refl.
    + now rewrite E.
Qed.

Lemma dict_get_set_other k k' v d :
  k <> k' -> PyDict.get k' (PyDict.set k v d) = PyDict.get k' d.
Proof.
  intros Hne. induction d as [| [k0 v0] d IH]; simpl.
  - apply String.eqb_neq in Hne. now rewrite Hne.
  - destruct (String.eqb_spec k0 k) as [-> | Hk]; simpl.
    + apply String.eqb_neq in Hne. now rewrite Hne.
    + now rewrite IH.
Qed.

(** Assignment keeps the keys of a present key and appends a new one. *)
Lemma dict_keys_set k v d :
  PyDict.keys (PyDict.set k v d) =
  if PyDict.contains k d then PyDict.keys d else (PyDict.keys d ++ [k])%list.
Proof.
  unfold PyDict.contains, PyDict.keys.
  induction d as [| [k' v'] d IH]; simpl.
  - reflexivity.
  - destruct (String.eqb_spec k' k) as [-> | Hk]; simpl.
    + reflexivity.
    + rewrite IH. now destruct (PyDict.get k d).
Qed.

Lemma dict_keys_set_In k v d :
  In k (PyDict.keys (PyDict.set k v d)).
Proof.
  rewrite dict_keys_set.
  destruct (PyDict.contains k d) eqn:E.
  - now apply dict_contains_iff.
  - apply in_or_app. right. now left.
Qed.

End DictFacts.

(** Two dictionaries that received the same assignments have the same
    keys. *)
Lemma dict_keys_set_sync {V W : Type} (k : string) (v : V) (w : W)
    (d : PyDict.dict V) (e : PyDict.dict W) :
  PyDict.keys d = PyDict.keys e ->
  PyDict.keys (PyDict.set k v d) = PyDict.keys (PyDict.set k w e).
Proof.
  intros H. rewrite !dict_keys_set.
  assert (PyDict.contains k d = PyDict.contains k e) as ->.
  { destruct (PyDict.contains k e) eqn:E.
    - apply dict_contains_iff. rewrite H. now apply dict_contains_iff.
    - apply dict_contains_false_iff. rewrite H. now apply dict_contains_false_iff. }
  now rewrite H.
Qed.

(** ** The scaler registry *)

Section ScalerFactoryFacts.

Import ScalerFactory.

(** Both class attributes always hold the same keys, in the same order. *)
Lemma reachable_keys_sync st :
  reachable st ->
  PyDict.keys (_scaler_registry st) = PyDict.keys (_descriptions st).
Proof.
  induction 1 as [| st name cls description _ IH]; simpl.
  - reflexivity.
  - now apply dict_keys_set_sync.
Qed.

Lemma create_scaler_registered st name cls :
  PyDict.get (PyStr.lower name) (_scaler_registry st) = Some cls ->
  create_scaler st name = Ok (new cls).
Proof.
  intros H. unfold create_scaler, PyDict.contains. now rewrite H.
Qed.

Lemma create_scaler_unregistered st name :
  ~ In (PyStr.lower name) (list_available_scalers st) ->
  create_scaler st name =
  Raise (ValueError (unknown_scaler_message (PyStr.lower name) st)).
Proof.
  intros H. apply dict_contains_false_iff in H.
  unfold create_scaler. now rewrite H.
Qed.

(** A registered name is listed. *)
Lemma register_scaler_listed st name cls description :
  In name (list_available_scalers (register_scaler st name cls description)).
Proof. apply dict_keys_set_In. Qed.

(** A name registered in lower case can be created, and an instance of
    the class registered last is what [create_scaler] returns. *)
Lemma register_scaler_creatable st name cls description :
  PyStr.lower name = name ->
  create_scaler (register_scaler st name cls description) name = Ok (new cls).
Proof.
  intros H. apply create_scaler_registered. rewrite H. simpl.
  apply dict_get_set_same.
Qed.

(** Registering a name that is not in lower case changes nothing about
    what [create_scaler] finds under that name: the lookup goes to the
    lower-cased key. *)
Lemma register_scaler_not_lower st name cls description :
  PyStr.lower name <> name ->
  PyDict.get (PyStr.lower name)
    (_scaler_registry (register_scaler st name cls description)) =
  PyDict.get (PyStr.lower name) (_scaler_registry st).
Proof.
  intros H. simpl. apply dict_get_set_other. congruence.
Qed.

(** C4, at the input on which the code departs from it: after
    [register_scaler("Custom", CustomScaler, "Custom Description")] the
    name is listed, yet [create_scaler("Custom")] raises the unknown-scaler
    error, because it looks up the lower-cased key ["custom"], which the
    registration did not write. *)
Theorem register_scaler_mixed_case_unreachable :
  let st := register_scaler initial "Custom" (CustomScaler "CustomScaler")
              "Custom Description" in
  In "Custom" (list_available_scalers st)
  /\ create_scaler st "Custom" =
     Raise (ValueError
       "Unknown scaler type: 'custom'. Available scalers: none, standard, minmax, robust, Custom").
Proof.
  split.
  - apply register_scaler_listed.
  - reflexivity.
Qed.

(** C10: [get_description] is a total function (it cannot raise).  In
    every state of the registry it returns the stored description of a
    registered name and the text "Unknown scaler" for any other name.  Its
    lookup does not lower-case the name: whenever the lower-cased form of a
    name is registered and the name itself is not, [create_scaler] returns
    an instance while [get_description] answers "Unknown scaler"; the name
    ["STANDARD"] is such a name in the initial registry. *)
Theorem get_description_case_sensitive :
  forall st, reachable st ->
    (forall name, In name (list_available_scalers st) ->
       exists d, PyDict.get name (_descriptions st) = Some d
                 /\ get_description st name = d)
    /\ (forall name, ~ In name (list_available_scalers st) ->
          get_description st name = "Unknown scaler")
    /\ (forall name,
          In (PyStr.lower name) (list_available_scalers st) ->
          ~ In name (list_available_scalers st) ->
          returns (create_scaler st name)
          /\ get_description st name = "Unknown scaler")
    /\ (In (PyStr.lower "STANDARD") (list_available_scalers initial)
        /\ create_scaler initial "STANDARD" = Ok (new StandardScaler)
        /\ get_description initial "STANDARD" = "Unknown scaler").
Proof.
  intros st Hst.
  pose proof (reachable_keys_sync st Hst) as Hsync.
  assert (Hunknown : forall name, ~ In name (list_available_scalers st) ->
                       get_description st name = "Unknown scaler").
  { intros name Hout. unfold get_description, list_available_scalers in *.
    rewrite Hsync in Hout. apply dict_get_None_iff in Hout. now rewrite Hout. }
  repeat split.
  - intros name Hin. unfold get_description, list_available_scalers in *.
    rewrite Hsync in Hin.
    destruct (PyDict.get name (_descriptions st)) as [d |] eqn:E.
    + now exists d.
    + apply dict_get_None_iff in E. contradiction.
  - exact Hunknown.
  - unfold list_available_scalers in H.
    destruct (PyDict.get (PyStr.lower name) (_scaler_registry st)) as [cls |] eqn:E.
    + exists (new cls). now apply create_scaler_registered.
    + apply dict_get_None_iff in E. contradiction.
  - now apply Hunknown.
  - simpl. tauto.
Qed.

(** The case-sensitivity of [get_description] after the registration of the
    test suite, [register_scaler("custom", CustomScaler, "Custom Description")]. *)
Lemma get_description_case_sensitive_witness :
  let st := register_scaler initial "custom" (CustomScaler "CustomScaler")
              "Custom Description" in
  get_description st "custom" = "Custom Description"
  /\ get_description st "CUSTOM" = "Unknown scaler"
  /\ returns (create_scaler st "CUSTOM").
Proof.
  intros st.
  destruct (get_description_case_sensitive st
              (reach_register initial "custom" (CustomScaler "CustomScaler")
                 "Custom Description" reach_initial))
    as (Hreg & Hunreg & Hcase & _).
  split; [reflexivity |].
  assert (Hout : ~ In "CUSTOM" (list_available_scalers st)).
  { vm_compute. intros H. repeat (destruct H as [H | H]; [discriminate |]). exact H. }
  split.
  - apply Hunreg, Hout.
  - apply Hcase; [| exact Hout]. vm_compute. tauto.
Defined.

End ScalerFactoryFacts.

(** ** The resampling registry *)

Section SamplingStrategyFacts.

Import SamplingStrategy.

Lemma create_strategy_unregistered reg method ss rs :
  ~ In (PyStr.lower method) (list_available_strategies reg) ->
  create_strategy reg method ss rs =
  Raise (ValueError (unknown_method_message (PyStr.lower method) reg)).
Proof.
  intros H. apply dict_contains_false_iff in H.
  unfold create_strategy. now rewrite H.
Qed.

(** C5: a name whose lower-cased form is no key of the registry makes
    [create_scaler], respectively [create_strategy], raise a [ValueError]
    whose message quotes the requested name, as it was looked up (in lower
    case), and lists the registered names in order; nothing is returned in
    that case. *)
Theorem unknown_name_raises :
  forall (st : ScalerFactory.state) (reg : registry) (name : string)
         (ss : sampling_strategy_arg) (rs : option Z),
    (~ In (PyStr.lower name) (ScalerFactory.list_available_scalers st) ->
     ScalerFactory.create_scaler st name =
     Raise (ValueError
       ("Unknown scaler type: '" ++ PyStr.lower name
        ++ "'. Available scalers: "
        ++ PyStr.join ", " (ScalerFactory.list_available_scalers st))))
    /\ (~ In (PyStr.lower name) (list_available_strategies reg) ->
        create_strategy reg name ss rs =
        Raise (ValueError
          ("Unknown sampling method: '" ++ PyStr.lower name
           ++ "'. Available methods: "
           ++ PyStr.join ", " (list_available_strategies reg)))).
Proof.
  intros st reg name ss rs. split; intros H.
  - rewrite (create_scaler_unregistered st name H). reflexivity.
  - rewrite (create_strategy_unregistered reg name ss rs H). reflexivity.
Qed.

End SamplingStrategyFacts.

Section ResamplingFacts.

Import SamplingStrategy.

(** Both factories on the unregistered name "Bogus", in their initial
    state. *)
Lemma unknown_name_raises_witness :
  ScalerFactory.create_scaler ScalerFactory.initial "Bogus" =
    Raise (ValueError
      "Unknown scaler type: 'bogus'. Available scalers: none, standard, minmax, robust")
  /\ create_strategy initial "Bogus" (by_name "minority") None =
    Raise (ValueError
      "Unknown sampling method: 'bogus'. Available methods: none, random, smote, adasyn").
Proof.
  destruct (unknown_name_raises ScalerFactory.initial initial "Bogus"
              (by_name "minority") None) as [Hscaler Hstrategy].
  split.
  - apply Hscaler. vm_compute.
    intros H. repeat (destruct H as [H | H]; [discriminate |]). exact H.
  - apply Hstrategy. vm_compute.
    intros H. repeat (destruct H as [H | H]; [discriminate |]). exact H.
Defined.

Section WithSamplers.

Variables Features Target RandomState : Type.
Variable seeded : Z -> RandomState.
Variable fit_resample :
  sampler -> sampling_strategy_arg -> Features -> Target ->
  RandomState -> result (Features * Target) * RandomState.
Variable custom_resample :
  string -> option (sampling_strategy_arg * option Z) -> Features -> Target ->
  RandomState -> result (Features * Target) * RandomState.


(** With a seed, a sampler neither reads nor advances the process-wide
    generator. *)
Lemma sample_with_seed cls ss seed X y global :
  sample_with seeded fit_resample cls ss (Some seed) X y global =
  (fst (fit_resample cls ss X y (seeded seed)), global).
Proof. reflexivity. Qed.

(** C6: a strategy created for one of the methods 'random', 'smote' and
    'adasyn' with an integer [random_state] returns the same output at
    every call on the same data, whatever the state of the process-wide
    generator; in particular two calls in a row return identical (X', y'),
    and the process-wide generator is left as it was. *)
Theorem resample_reproducible :
  forall (method : string) (ss : sampling_strategy_arg) (seed : Z)
         (X : Features) (y : Target),
    In (PyStr.lower method) [ "random"; "smote"; "adasyn" ] ->
    exists self,
      create_strategy initial method ss (Some seed) = Ok self
      /\ (forall global global',
            fst (resample seeded fit_resample custom_resample self X y global) =
            fst (resample seeded fit_resample custom_resample self X y global'))
      /\ (forall global,
            let first :=
              resample seeded fit_resample custom_resample self X y global in
            let second :=
              resample seeded fit_resample custom_resample self X y (snd first) in
            fst second = fst first /\ snd first = global).
Proof.
  intros method ss seed X y Hin.
  unfold create_strategy.
  destruct Hin as [H | [H | [H | []]]]; rewrite <- H; simpl;
    eexists; (split; [reflexivity |]); split; intros; simpl; auto.
Qed.

End WithSamplers.

(** A SMOTE strategy with seed 11 over a sampler whose output shows the
    state of the generator it drew from: the process-wide generator does
    not show. *)
Lemma resample_reproducible_witness :
  let fit := fun (_ : sampler) (_ : sampling_strategy_arg) (X : list Z) (y : list bool)
                 (g : nat) => (Ok (Z.of_nat g :: X, y), S g) in
  let custom := fun (_ : string) (_ : option (sampling_strategy_arg * option Z))
                    (X : list Z) (y : list bool) (g : nat) => (Ok (X, y), g) in
  exists self,
    create_strategy initial "SMOTE" (by_name "minority") (Some 11%Z) = Ok self
    /\ fst (resample Z.to_nat fit custom self [1%Z] [true] 0%nat)
       = fst (resample Z.to_nat fit custom self [1%Z] [true] 5%nat).
Proof.
  intros fit custom.
  destruct (resample_reproducible (list Z) (list bool) nat Z.to_nat fit custom
              "SMOTE" (by_name "minority") 11%Z [1%Z] [true])
    as (self & Hcreate & Hsame & _).
  - vm_compute. tauto.
  - exists self. split; [exact Hcreate | apply Hsame].
Defined.

(** Without a seed the output follows the process-wide generator: the
    reproducibility above is owed to the seed. *)
Lemma resample_unseeded_follows_generator :
  let fit := fun (_ : sampler) (_ : sampling_strategy_arg) (X : list Z) (y : list bool)
                 (g : nat) => (Ok (Z.of_nat g :: X, y), S g) in
  let custom := fun (_ : string) (_ : option (sampling_strategy_arg * option Z))
                    (X : list Z) (y : list bool) (g : nat) => (Ok (X, y), g) in
  let self := RandomOversampling (by_name "minority") None in
  let first := resample Z.to_nat fit custom self [1%Z] [true] 0%nat in
  let second := resample Z.to_nat fit custom self [1%Z] [true] (snd first) in
  fst first = Ok ([0%Z; 1%Z], [true]) /\ fst second = Ok ([1%Z; 1%Z], [true]).
Proof. split; reflexivity. Qed.

End ResamplingFacts.

(** ** Evaluation *)

Section ModelsFacts.

Import Models.

Lemma count_pairs_le_positives p y_true y_pred :
  (count_pairs true p y_true y_pred <= positives y_true)%nat.
Proof.
  unfold count_pairs, positives.
  revert y_pred. induction y_true as [| t y_true IH]; intros [| q y_pred]; simpl;
    try lia.
  specialize (IH y_pred).
  destruct t; simpl; [destruct (Bool.eqb q p); simpl |]; lia.
Qed.

Lemma unique_labels_two y_true y_pred :
  length (unique_labels y_true y_pred) = 2%nat <->
  existsb negb (y_true ++ y_pred) = true
  /\ existsb (fun b => b) (y_true ++ y_pred) = true.
Proof.
  unfold unique_labels.
  destruct (existsb negb (y_true ++ y_pred)), (existsb (fun b => b) (y_true ++ y_pred));
    simpl; split; intros H; try discriminate; try tauto;
    destruct H; discriminate.
Qed.

(** With a 2x2 confusion matrix the dictionary is built by line 52 of the
    source. *)
Lemma evaluate_two_by_two y_true y_pred model_name y_score :
  same_length y_true y_pred = true ->
  length (unique_labels y_true y_pred) = 2%nat ->
  let FN := count_pairs true false y_true y_pred in
  let TP := count_pairs true true y_true y_pred in
  exists accuracy precision recall f1,
    evaluate y_true y_pred model_name y_score =
    {| Model := model_name;
       Accuracy := Num accuracy;
       Precision := Num precision;
       Recall := Num recall;
       F1_Score := Num f1;
       ROC_AUC :=
         try_except
           (bind (match y_score with
                  | Some y_score => roc_auc_score y_true y_score
                  | None => roc_auc_score y_true (map score_of_label y_pred)
                  end) (fun auc => Ok (Num auc)))
           NaN;
       FNR := if (0 <? FN + TP)%nat then Num (ratio FN (FN + TP)) else Num 0%Q |}.
Proof.
  intros Hlen Htwo FN TP. apply unique_labels_two in Htwo as [Hneg Hpos].
  unfold evaluate, confusion_matrix, accuracy_score, precision_score,
    recall_score, f1_score, unique_labels.
  rewrite Hlen, Hneg, Hpos. simpl.
  do 4 eexists. reflexivity.
Qed.

(** Otherwise the outer handler returns the placeholder. *)
Lemma evaluate_degenerate y_true y_pred model_name y_score :
  same_length y_true y_pred = false
  \/ length (unique_labels y_true y_pred) <> 2%nat ->
  evaluate y_true y_pred model_name y_score = placeholder model_name.
Proof.
  intros H. unfold evaluate, confusion_matrix.
  destruct (same_length y_true y_pred) eqn:Hlen; simpl; [| reflexivity].
  destruct H as [H | H]; [discriminate |].
  unfold unique_labels in *.
  destruct (existsb negb (y_true ++ y_pred)), (existsb (fun b => b) (y_true ++ y_pred));
    simpl in *; try reflexivity.
  now contradiction H.
Qed.

Lemma roc_auc_single_class y_true scores :
  positives y_true = 0%nat \/ negatives y_true = 0%nat ->
  raises (roc_auc_score y_true scores).
Proof.
  intros H. unfold roc_auc_score.
  destruct (same_length y_true scores); simpl; [| eexists; reflexivity].
  destruct H as [-> | ->]; simpl.
  - eexists; reflexivity.
  - rewrite Bool.orb_true_r. eexists; reflexivity.
Qed.

(** C3, as the code has it: when [y_true] and [y_pred] have equal length
    and hold both classes between them, the confusion matrix is 2x2 and
    Accuracy, Precision, Recall, F1 and FNR are numbers; an undefined
    ROC-AUC ([y_true] holds a single class) is NaN; an undefined
    false-negative rate (no positive in [y_true], so FN + TP = 0) is the
    number 0, not NaN.  In every other case the confusion matrix is not
    2x2 and all six metrics are NaN. *)
Theorem evaluate_undefined_metrics :
  forall (y_true y_pred : list label) (model_name : string)
         (y_score : option (list Q)),
    let m := evaluate y_true y_pred model_name y_score in
    (same_length y_true y_pred = true ->
     length (unique_labels y_true y_pred) = 2%nat ->
       is_num (Accuracy m) = true /\ is_num (Precision m) = true
       /\ is_num (Recall m) = true /\ is_num (F1_Score m) = true
       /\ is_num (FNR m) = true
       /\ (positives y_true = 0%nat \/ negatives y_true = 0%nat -> ROC_AUC m = NaN)
       /\ (positives y_true = 0%nat -> FNR m = Num 0%Q))
    /\ (same_length y_true y_pred = false
        \/ length (unique_labels y_true y_pred) <> 2%nat ->
        m = placeholder model_name).
Proof.
  intros y_true y_pred model_name y_score m. split.
  - intros Hlen Htwo.
    destruct (evaluate_two_by_two y_true y_pred model_name y_score Hlen Htwo)
      as (accuracy & precision & recall & f1 & E).
    subst m. rewrite E. simpl. repeat split.
    + now destruct (0 <? _)%nat.
    + intros Hsingle.
      assert (Hr : forall scores, raises (roc_auc_score y_true scores))
        by (intros; now apply roc_auc_single_class).
      destruct y_score as [scores |].
      * destruct (Hr scores) as [e ->]. reflexivity.
      * destruct (Hr (map score_of_label y_pred)) as [e ->]. reflexivity.
    + intros Hpos.
      pose proof (count_pairs_le_positives false y_true y_pred).
      pose proof (count_pairs_le_positives true y_true y_pred).
      replace (count_pairs true false y_true y_pred
               + count_pairs true true y_true y_pred)%nat with 0%nat by lia.
      reflexivity.
  - intros H. subst m. now apply evaluate_degenerate.
Qed.

(** [y_true = [0, 0]] and [y_pred = [0, 1]]: the accuracy is a number, the
    ROC-AUC is NaN and the false-negative rate is 0. *)
Lemma evaluate_undefined_metrics_witness :
  let m := evaluate [false; false] [false; true] "model" None in
  is_num (Accuracy m) = true /\ ROC_AUC m = NaN /\ FNR m = Num 0%Q.
Proof.
  intros m.
  destruct (evaluate_undefined_metrics [false; false] [false; true] "model" None)
    as [Hdefined _].
  destruct Hdefined as (Hacc & _ & _ & _ & _ & Hroc & Hfnr); [reflexivity .. |].
  split; [exact Hacc |]. split; [apply Hroc | apply Hfnr]; [left |]; reflexivity.
Defined.

(** C3 as stated fails on two counts.  With [y_true = [0, 0]] and
    [y_pred = [0, 1]] the false-negative rate is undefined (FN + TP = 0)
    and reported as 0 rather than NaN.  With [y_true = y_pred = [0, 0]]
    the accuracy is defined (every prediction is right), yet it is reported
    as NaN together with all other metrics. *)
Lemma evaluate_undefined_fnr_is_zero :
  (count_pairs true false [false; false] [false; true]
   + count_pairs true true [false; false] [false; true] = 0)%nat
  /\ FNR (evaluate [false; false] [false; true] "model" None) = Num 0%Q
  /\ FNR (evaluate [false; false] [false; true] "model" None) <> NaN
  /\ accuracy_score [false; false] [false; false] = Ok (ratio 2 2)
  /\ Accuracy (evaluate [false; false] [false; false] "model" None) = NaN.
Proof.
  repeat split; try reflexivity. discriminate.
Qed.

End ModelsFacts.

(** ** Tables *)

Section FrameFacts.

Import Pandas.

Context {R : Runtime}.

Implicit Types (c : string) (s : series) (cols : list (string * series))
  (d : DataFrame).

Lemma mem_true_iff x (xs : list string) : mem x xs = true <-> In x xs.
Proof.
  unfold mem. rewrite existsb_exists. split.
  - intros (y & Hy & E). apply String.eqb_eq in E. now subst.
  - intros H. exists x. split; [exact H | apply String.eqb_refl].
Qed.

Lemma mem_false_iff x (xs : list string) : mem x xs = false <-> ~ In x xs.
Proof.
  rewrite <- mem_true_iff. destruct (mem x xs); split; congruence.
Qed.

Lemma distinct_NoDup (xs : list string) : distinct xs = true -> NoDup xs.
Proof.
  induction xs as [| x xs IH]; simpl; intros H; constructor.
  - apply andb_prop in H as [H _]. apply negb_true_iff in H.
    now apply mem_false_iff.
  - apply andb_prop in H as [_ H]. auto.
Qed.

Lemma find_column_None c cols :
  find_column c cols = None <-> mem c (map fst cols) = false.
Proof.
  induction cols as [| [c' s'] cols IH]; simpl.
  - tauto.
  - destruct (String.eqb_spec c' c) as [-> | Hne].
    + rewrite String.eqb_refl. simpl. split; discriminate.
    + assert (String.eqb c c' = false) as -> by (apply String.eqb_neq; congruence).
      exact IH.
Qed.

Lemma find_column_mem c cols :
  mem c (map fst cols) = true <-> exists s, find_column c cols = Some s.
Proof.
  destruct (find_column c cols) as [s |] eqn:E.
  - split; [intros _; now exists s |]. intros _.
    destruct (mem c (map fst cols)) eqn:M; [reflexivity |].
    apply find_column_None in M. congruence.
  - apply find_column_None in E. rewrite E.
    split; [discriminate | intros [s Hs]; discriminate].
Qed.

Lemma find_column_In c s cols :
  find_column c cols = Some s -> In (c, s) cols.
Proof.
  induction cols as [| [c' s'] cols IH]; simpl; [discriminate |].
  destruct (String.eqb_spec c' c) as [-> | _].
  - intros [= ->]. now left.
  - intros H. right. auto.
Qed.

Lemma find_column_app c cols cols' :
  find_column c (cols ++ cols') =
  match find_column c cols with
  | Some s => Some s
  | None => find_column c cols'
  end.
Proof.
  induction cols as [| [c' s'] cols IH]; simpl; [reflexivity |].
  now destruct (String.eqb c' c).
Qed.

Lemma find_set_column c c' s cols :
  find_column c' (set_column c s cols) =
  if String.eqb c c' then Some s else find_column c' cols.
Proof.
  induction cols as [| [c0 s0] cols IH]; simpl.
  - reflexivity.
  - destruct (String.eqb_spec c0 c) as [-> | Hne]; simpl.
    + now destruct (String.eqb c c').
    + rewrite IH. destruct (String.eqb_spec c c') as [-> | _]; [| reflexivity].
      apply String.eqb_neq in Hne. now rewrite Hne.
Qed.

Lemma In_set_column x c s cols :
  In x (set_column c s cols) -> x = (c, s) \/ In x cols.
Proof.
  induction cols as [| [c0 s0] cols IH]; simpl.
  - intros [<- | []]. now left.
  - destruct (String.eqb c0 c); simpl.
    + intros [<- | H]; auto.
    + intros [<- | H]; auto. destruct (IH H); auto.
Qed.

Lemma set_column_not_nil c s cols : set_column c s cols <> [].
Proof.
  destruct cols as [| [c0 s0] cols]; simpl; [discriminate |].
  destruct (String.eqb c0 c); discriminate.
Qed.

Lemma find_remove_columns c labels cols :
  find_column c (remove_columns labels cols) =
  if mem c labels then None else find_column c cols.
Proof.
  unfold remove_columns.
  induction cols as [| [c0 s0] cols IH]; simpl.
  - now destruct (mem c labels).
  - destruct (mem c0 labels) eqn:M0; simpl.
    + rewrite IH. destruct (String.eqb_spec c0 c) as [-> | _]; [| reflexivity].
      now rewrite M0.
    + rewrite IH. destruct (String.eqb_spec c0 c) as [-> | _]; [| reflexivity].
      now rewrite M0.
Qed.

Lemma In_remove_columns x labels cols :
  In x (remove_columns labels cols) -> In x cols.
Proof. unfold remove_columns. intros H. now apply filter_In in H. Qed.

Lemma remove_columns_absent labels cols :
  (forall l, In l labels -> mem l (map fst cols) = false) ->
  remove_columns labels cols = cols.
Proof.
  intros H. unfold remove_columns.
  induction cols as [| [c0 s0] cols IH]; simpl; [reflexivity |].
  destruct (mem c0 labels) eqn:M; simpl.
  - apply mem_true_iff in M. specialize (H c0 M). simpl in H.
    now rewrite String.eqb_refl in H.
  - f_equal. apply IH. intros l Hl. specialize (H l Hl). simpl in H.
    now apply orb_false_elim in H.
Qed.

Lemma traverse_length {A B : Type} (f : A -> result B) xs ys :
  traverse f xs = Ok ys -> length ys = length xs.
Proof.
  revert ys. induction xs as [| x xs IH]; simpl; intros ys.
  - now intros [= <-].
  - destruct (f x); [| discriminate].
    destruct (traverse f xs); [| discriminate].
    intros [= <-]. simpl. f_equal. now apply IH.
Qed.

Lemma traverse_total {A B : Type} (f : A -> result B) (g : A -> B) xs :
  (forall x, In x xs -> f x = Ok (g x)) ->
  traverse f xs = Ok (map g xs).
Proof.
  induction xs as [| x xs IH]; simpl; intros H; [reflexivity |].
  rewrite (H x) by now left. rewrite IH; auto.
Qed.

Lemma traverse_raises {A B : Type} (f : A -> result B) (P : exn -> Prop) xs :
  (forall x e, f x = Raise e -> P e) ->
  (exists x, In x xs /\ raises (f x)) ->
  exists e, traverse f xs = Raise e /\ P e.
Proof.
  intros HP. induction xs as [| x xs IH]; intros (x0 & Hin & Hx0).
  - destruct Hin.
  - simpl. destruct (f x) as [y | e] eqn:E.
    + destruct Hin as [-> | Hin].
      * destruct Hx0 as [e He]. congruence.
      * destruct IH as (e & -> & He); [now exists x0 |]. now exists e.
    + exists e. split; [reflexivity | eauto].
Qed.

(** Alignment, column by column. *)
Lemma aligned_In d :
  aligned d <-> forall c s, In (c, s) (columns d) -> length s = nrows d.
Proof.
  unfold aligned. rewrite Forall_forall. split.
  - intros H c s Hin. exact (H (c, s) Hin).
  - intros H [c s] Hin. exact (H c s Hin).
Qed.

Lemma alignedb_aligned d : alignedb d = true <-> aligned d.
Proof.
  unfold alignedb, aligned. rewrite forallb_forall, Forall_forall.
  split; intros H x Hx; specialize (H x Hx); now apply Nat.eqb_eq.
Qed.

Lemma well_formed_aligned d : well_formed d -> aligned d.
Proof. intros [_ H]. now apply alignedb_aligned. Qed.

End FrameFacts.

(** ** The preprocessor, step by step *)

Section StepFacts.

Import State Pandas Preprocessor.

Context {R : Runtime}.

Implicit Types (c : string) (s : series) (d : DataFrame).

Lemma frame_eta d : {| nrows := nrows d; columns := columns d |} = d.
Proof. now destruct d. Qed.

(** Step 1 removes the identifier column, if there is one, and nothing
    else. *)
Lemma drop_identifiers_run d :
  drop_identifiers d =
  (Ok tt, {| nrows := nrows d;
             columns := remove_columns [ "policy_id" ] (columns d) |}).
Proof.
  unfold drop_identifiers, bind, get_columns.
  destruct (mem "policy_id" (column_names d)) eqn:M.
  - unfold drop_inplace, drop_frame. simpl filter. rewrite M. reflexivity.
  - unfold ret. rewrite remove_columns_absent; [now rewrite frame_eta |].
    intros l [<- | []]. exact M.
Qed.

(** The two calls of step 2 on one column. *)
Lemma boolean_map_fillna s :
  Series_fillna (CBool false) (Series_map yes_no s) = map is_yes s.
Proof.
  unfold Series_fillna, Series_map. rewrite map_map. apply map_ext.
  intros [| | b | z | f | x]; try reflexivity.
  cbv [dict_lookup yes_no py_eq is_yes isna].
  rewrite (String.eqb_sym x "Yes").
  destruct (String.eqb "Yes" x); [reflexivity |].
  now destruct (String.eqb "No" x).
Qed.

Lemma is_yes_true v : is_yes v = CBool true <-> v = CStr "Yes".
Proof.
  destruct v as [| | b | z | f | x]; cbv [is_yes]; split; try discriminate.
  - intros [= H]. apply String.eqb_eq in H. now subst.
  - intros [= ->]. reflexivity.
Qed.

Lemma is_yes_bool v : is_yes v = CBool true \/ is_yes v = CBool false.
Proof.
  destruct v as [| | b | z | f | x]; cbv [is_yes]; auto.
  destruct (String.eqb x "Yes"); auto.
Qed.

Lemma boolean_loop (cs : list string) : forall d,
  NoDup cs ->
  (forall c, In c cs -> mem c (column_names d) = true) ->
  exists d',
    for_each cs (fun col =>
      (s <- getitem col ;;
       setitem col (Series_fillna (CBool false) (Series_map yes_no s)))%py) d
    = (Ok tt, d')
    /\ nrows d' = nrows d
    /\ (forall c, find_column c (columns d') =
                  if mem c cs then option_map (map is_yes) (find_column c (columns d))
                  else find_column c (columns d))
    /\ (aligned d -> aligned d')
    /\ (columns d <> [] -> columns d' <> []).
Proof.
  induction cs as [| a cs IH]; intros d Hnd Hin.
  - exists d. simpl. unfold ret. repeat split; auto.
  - inversion Hnd as [| ? ? Ha Hnd']; subst.
    destruct (proj1 (find_column_mem a (columns d))) as [s Hs];
      [apply Hin; now left |].
    set (d1 := {| nrows := nrows d;
                  columns := set_column a (map is_yes s) (columns d) |}).
    destruct (IH d1 Hnd') as (d' & Hrun & Hrows & Hfind & Hal & Hne).
    { intros c Hc. unfold column_names. apply find_column_mem. simpl.
      rewrite find_set_column. destruct (String.eqb a c); [eauto |].
      apply find_column_mem. apply Hin. now right. }
    exists d'. split; [| split; [| split; [| split]]].
    + simpl. unfold bind at 1. unfold bind at 1. unfold getitem at 1.
      rewrite Hs. unfold setitem at 1. rewrite boolean_map_fillna.
      exact Hrun.
    + exact Hrows.
    + intros c. rewrite Hfind. simpl. rewrite find_set_column.
      destruct (String.eqb_spec c a) as [-> | Hca]; simpl.
      * rewrite String.eqb_refl.
        apply mem_false_iff in Ha. rewrite Ha. now rewrite Hs.
      * assert (String.eqb a c = false) as -> by (apply String.eqb_neq; congruence).
        reflexivity.
    + intros Hd. apply Hal. apply aligned_In. simpl. intros c s' Hc.
      apply In_set_column in Hc as [[= -> ->] | Hc].
      * rewrite length_map. apply (proj1 (aligned_In d) Hd a).
        now apply find_column_In.
      * now apply (proj1 (aligned_In d) Hd c).
    + intros _. apply Hne. simpl. apply set_column_not_nil.
Qed.


Lemma mem_filter (p : string -> bool) c (xs : list string) :
  mem c (filter p xs) = andb (mem c xs) (p c).
Proof.
  destruct (mem c (filter p xs)) eqn:E.
  - apply mem_true_iff, filter_In in E as [Hin Hp].
    apply mem_true_iff in Hin. now rewrite Hin, Hp.
  - destruct (mem c xs) eqn:M; [| reflexivity].
    destruct (p c) eqn:P; [| reflexivity].
    apply mem_false_iff in E. exfalso. apply E.
    apply filter_In. split; [now apply mem_true_iff | exact P].
Qed.

Lemma boolean_cols_NoDup : NoDup boolean_cols.
Proof. apply distinct_NoDup. reflexivity. Qed.

(** Step 2 never raises: it maps every boolean column that is present and
    leaves the rest of the table alone. *)
Lemma boolean_conversion_run d :
  exists d',
    boolean_conversion d = (Ok tt, d')
    /\ nrows d' = nrows d
    /\ (forall c, find_column c (columns d') =
                  if mem c boolean_cols
                  then option_map (map is_yes) (find_column c (columns d))
                  else find_column c (columns d))
    /\ (aligned d -> aligned d')
    /\ (columns d <> [] -> columns d' <> []).
Proof.
  unfold boolean_conversion, bind at 1, get_columns.
  destruct (boolean_loop
              (filter (fun col => mem col (column_names d)) boolean_cols) d)
    as (d' & Hrun & Hrows & Hfind & Hal & Hne).
  - apply NoDup_filter, boolean_cols_NoDup.
  - intros c Hc. now apply filter_In in Hc.
  - exists d'. repeat split; auto.
    intros c. rewrite Hfind, mem_filter.
    destruct (mem c boolean_cols); [| reflexivity]. simpl.
    destruct (mem c (column_names d)) eqn:M; [reflexivity |].
    apply find_column_None in M. now rewrite M.
Qed.

Lemma to_float_coerce v : to_float (coerce_numeric v) = Ok (as_float v).
Proof.
  destruct v as [| | b | z | f | x]; try reflexivity.
  unfold as_float, coerce_numeric. now destruct (f64_of_str x).
Qed.

Lemma astype_float_coerce s :
  Series_astype_float (to_numeric_coerce s) = Ok (map as_float s).
Proof.
  unfold Series_astype_float, to_numeric_coerce.
  induction s as [| v s IH]; simpl; [reflexivity |].
  now rewrite to_float_coerce, IH.
Qed.

Lemma float_loop (cs : list string) : forall d,
  exists d',
    for_each cs (fun col =>
      (cols <- get_columns ;;
       if mem col cols then
         s <- getitem col ;;
         s' <- lift (Series_astype_float (to_numeric_coerce s)) ;;
         setitem col s'
       else ret tt)%py) d
    = (Ok tt, d')
    /\ nrows d' = nrows d
    /\ (forall c, mem c cs = false ->
                  find_column c (columns d') = find_column c (columns d))
    /\ (aligned d -> aligned d')
    /\ (columns d <> [] -> columns d' <> []).
Proof.
  induction cs as [| a cs IH]; intros d.
  - exists d. simpl. unfold ret. repeat split; auto.
  - simpl. unfold bind at 1. unfold bind at 1. unfold get_columns at 1.
    destruct (mem a (column_names d)) eqn:M.
    + destruct (proj1 (find_column_mem a (columns d)) M) as [s Hs].
      unfold bind at 1. unfold getitem at 1. rewrite Hs.
      unfold bind at 1. unfold lift at 1. rewrite astype_float_coerce.
      unfold setitem at 1.
      set (d1 := {| nrows := nrows d;
                    columns := set_column a (map as_float s) (columns d) |}).
      destruct (IH d1) as (d' & Hrun & Hrows & Hfind & Hal & Hne).
      exists d'. split; [exact Hrun |]. split; [exact Hrows |]. split; [| split].
      * intros c Hc. apply orb_false_elim in Hc as [Hca Hc].
        rewrite (Hfind c Hc). simpl. rewrite find_set_column.
        now rewrite String.eqb_sym, Hca.
      * intros Hd. apply Hal. apply aligned_In. simpl. intros c s' Hc.
        apply In_set_column in Hc as [[= -> ->] | Hc].
        -- rewrite length_map. apply (proj1 (aligned_In d) Hd a).
           now apply find_column_In.
        -- now apply (proj1 (aligned_In d) Hd c).
      * intros _. apply Hne. simpl. apply set_column_not_nil.
    + unfold ret at 1.
      destruct (IH d) as (d' & Hrun & Hrows & Hfind & Hal & Hne).
      exists d'. repeat split; auto.
      intros c Hc. apply orb_false_elim in Hc as [_ Hc]. auto.
Qed.

(** Step 3 never raises. *)
Lemma float_conversion_run d :
  exists d',
    float_conversion d = (Ok tt, d')
    /\ nrows d' = nrows d
    /\ (forall c, mem c float_cols = false ->
                  find_column c (columns d') = find_column c (columns d))
    /\ (aligned d -> aligned d')
    /\ (columns d <> [] -> columns d' <> []).
Proof. apply float_loop. Qed.


Lemma index_of_None x (cats : list string) :
  index_of x cats = None <-> mem x cats = false.
Proof.
  induction cats as [| c cats IH]; simpl; [tauto |].
  rewrite (String.eqb_sym x c).
  destruct (String.eqb c x); simpl; [split; discriminate |].
  destruct (index_of x cats); simpl.
  - split; [discriminate |]. intros H. apply IH in H. discriminate.
  - split; [intros _; now apply IH | reflexivity].
Qed.

(** The encoder accepts a column exactly when the text form of each of
    its values is a declared category; what it raises otherwise is a
    [ValueError] of its own. *)
Lemma encode_ratings s :
  match traverse (encode_value ncap_categories) (Series_astype_str s) with
  | Ok codes => forallb known_rating s = true /\ length codes = length s
  | Raise e => forallb known_rating s = false
               /\ is_ValueError e = true /\ e <> missing_target
  end.
Proof.
  induction s as [| v s IH]; [simpl; auto |].
  change (Series_astype_str (v :: s))
    with (CStr (py_str v) :: Series_astype_str s).
  cbn [traverse encode_value forallb].
  destruct (index_of (py_str v) ncap_categories) as [i |] eqn:E.
  - assert (known_rating v = true) as ->.
    { unfold known_rating.
      destruct (mem (py_str v) ncap_categories) eqn:M; [reflexivity |].
      apply index_of_None in M. congruence. }
    cbn [andb].
    destruct (traverse (encode_value ncap_categories) (Series_astype_str s)).
    + destruct IH as [IH1 IH2]. split; [exact IH1 | simpl; congruence].
    + exact IH.
  - apply index_of_None in E. fold (known_rating v) in E. rewrite E.
    split; [reflexivity |]. split; [reflexivity |].
    unfold missing_target, target_col. intros H. discriminate H.
Qed.

(** Step 4 on a table without the rating column does nothing. *)
Lemma ordinal_encoding_absent d :
  find_column "ncap_rating" (columns d) = None ->
  ordinal_encoding d = (Ok tt, d).
Proof.
  intros H. apply find_column_None in H.
  unfold ordinal_encoding, bind at 1, get_columns, column_names.
  now rewrite H.
Qed.

(** Step 4 on a table with the rating column: the column is replaced by
    its text form, then encoded. *)
Lemma ordinal_encoding_present d s :
  find_column "ncap_rating" (columns d) = Some s ->
  let as_text := {| nrows := nrows d;
                    columns := set_column "ncap_rating" (Series_astype_str s) (columns d) |} in
  ordinal_encoding d =
  if (nrows d =? 0)%nat then
    (Raise (ValueError "Found array with 0 sample(s) (shape=(0,)) while a minimum of 1 is required."),
     as_text)
  else
    match traverse (encode_value ncap_categories) (Series_astype_str s) with
    | Raise e => (Raise e, as_text)
    | Ok codes =>
        (Ok tt,
         {| nrows := nrows d;
            columns := remove_columns [ "ncap_rating" ]
                         (set_column "NCAP_Rating" codes (columns as_text)) |})
    end.
Proof.
  intros Hs as_text.
  assert (M : mem "ncap_rating" (map fst (columns d)) = true)
    by (apply find_column_mem; eauto).
  unfold ordinal_encoding, bind at 1, get_columns, column_names. rewrite M.
  unfold bind at 1, getitem at 1. rewrite Hs.
  unfold bind at 1, setitem at 1. fold as_text.
  unfold bind at 1, select at 1, select_frame.
  cbn [traverse]. unfold as_text at 1. cbn [columns].
  rewrite find_set_column, String.eqb_refl.
  unfold bind at 1, lift at 1, fit_transform. cbn [nrows columns categories].
  change (nrows as_text) with (nrows d).
  destruct (nrows d =? 0)%nat; [reflexivity |].
  cbn [length Nat.eqb negb combine traverse fst snd].
  destruct (traverse (encode_value ncap_categories) (Series_astype_str s))
    as [codes | e]; [| reflexivity].
  unfold bind at 1, setitem_array, setitem at 1.
  unfold drop_inplace, drop_frame, column_names. cbn [filter columns nrows].
  assert (mem "ncap_rating"
            (map fst (set_column "NCAP_Rating" codes (columns as_text))) = true) as ->.
  { apply find_column_mem. rewrite find_set_column. simpl String.eqb. cbv iota.
    unfold as_text. cbn [columns]. rewrite find_set_column, String.eqb_refl. eauto. }
  reflexivity.
Qed.


(** Step 4 returns when the ratings are encodable; it touches only the
    rating column and its encoded form. *)
Lemma ordinal_encoding_ok d :
  ratings_encodable d = true ->
  exists d',
    ordinal_encoding d = (Ok tt, d')
    /\ nrows d' = nrows d
    /\ (forall c, String.eqb c "ncap_rating" = false ->
                  String.eqb c "NCAP_Rating" = false ->
                  find_column c (columns d') = find_column c (columns d))
    /\ (aligned d -> aligned d')
    /\ (columns d <> [] -> columns d' <> []).
Proof.
  unfold ratings_encodable.
  destruct (find_column "ncap_rating" (columns d)) as [s |] eqn:Hs.
  - intros H. apply andb_prop in H as [Hn Hk]. apply negb_true_iff in Hn.
    pose proof (ordinal_encoding_present d s Hs) as Hrun. cbv zeta in Hrun.
    rewrite Hn in Hrun.
    pose proof (encode_ratings s) as He.
    destruct (traverse (encode_value ncap_categories) (Series_astype_str s))
      as [codes | e]; [| destruct He; congruence].
    destruct He as [_ Hlen].
    eexists. split; [exact Hrun |]. cbn [nrows columns].
    split; [reflexivity |]. split; [| split].
    + intros c H1 H2. rewrite find_remove_columns. unfold mem. cbn [existsb].
      rewrite H1. cbn [orb]. rewrite !find_set_column.
      rewrite (String.eqb_sym "NCAP_Rating" c), H2.
      now rewrite (String.eqb_sym "ncap_rating" c), H1.
    + intros Hd. apply aligned_In. cbn [nrows columns]. intros c s' Hc.
      apply In_remove_columns in Hc.
      apply In_set_column in Hc as [[= -> ->] | Hc].
      * rewrite Hlen. apply (proj1 (aligned_In d) Hd "ncap_rating").
        now apply find_column_In.
      * apply In_set_column in Hc as [[= -> ->] | Hc].
        -- unfold Series_astype_str. rewrite length_map.
           apply (proj1 (aligned_In d) Hd "ncap_rating").
           now apply find_column_In.
        -- now apply (proj1 (aligned_In d) Hd c).
    + intros _ Hnil.
      assert (Hfind : find_column "NCAP_Rating"
                (remove_columns [ "ncap_rating" ]
                   (set_column "NCAP_Rating" codes
                      (set_column "ncap_rating" (Series_astype_str s) (columns d))))
              = Some codes).
      { rewrite find_remove_columns. cbn. now rewrite find_set_column, String.eqb_refl. }
      rewrite Hnil in Hfind. discriminate.
  - intros _. exists d. rewrite ordinal_encoding_absent by exact Hs. auto.
Qed.

(** Otherwise step 4 raises, and what it raises is the encoder's own
    [ValueError]. *)
Lemma ordinal_encoding_raises d :
  ratings_encodable d = false ->
  exists e d',
    ordinal_encoding d = (Raise e, d')
    /\ is_ValueError e = true /\ e <> missing_target.
Proof.
  unfold ratings_encodable.
  destruct (find_column "ncap_rating" (columns d)) as [s |] eqn:Hs; [| discriminate].
  intros H. pose proof (ordinal_encoding_present d s Hs) as Hrun. cbv zeta in Hrun.
  destruct (nrows d =? 0)%nat.
  - do 2 eexists. split; [exact Hrun |]. split; [reflexivity |].
    unfold missing_target, target_col. intros E. discriminate E.
  - cbn [negb andb] in H.
    pose proof (encode_ratings s) as He.
    destruct (traverse (encode_value ncap_categories) (Series_astype_str s))
      as [codes | e]; [destruct He; congruence |].
    destruct He as (_ & He1 & He2). eauto.
Qed.

Lemma boolean_cols_apart c :
  In c boolean_cols ->
  String.eqb c "policy_id" = false /\ mem c float_cols = false
  /\ String.eqb c "ncap_rating" = false /\ String.eqb c "NCAP_Rating" = false
  /\ mem c categorical_cols = false /\ indicator_label c = false
  /\ String.eqb c target_col = false.
Proof.
  intros H.
  assert (Hall : forallb (fun c =>
            andb (negb (String.eqb c "policy_id"))
           (andb (negb (mem c float_cols))
           (andb (negb (String.eqb c "ncap_rating"))
           (andb (negb (String.eqb c "NCAP_Rating"))
           (andb (negb (mem c categorical_cols))
           (andb (negb (indicator_label c))
                 (negb (String.eqb c target_col)))))))) boolean_cols = true)
    by (vm_compute; reflexivity).
  rewrite forallb_forall in Hall. specialize (Hall c H).
  repeat (apply andb_prop in Hall as [?H Hall]).
  repeat split; now apply negb_true_iff.
Qed.

Lemma has_features_after_drop d :
  has_features d = true -> remove_columns [ "policy_id" ] (columns d) <> [].
Proof.
  unfold has_features, column_names. intros H.
  apply existsb_exists in H as (c & Hc & Hne).
  apply in_map_iff in Hc as ([c' s] & <- & Hin).
  intros Hnil.
  assert (In (c', s) (remove_columns [ "policy_id" ] (columns d))) as Hin'.
  { apply filter_In. split; [exact Hin |]. cbn [fst].
    unfold mem. cbn [existsb]. now rewrite orb_false_r. }
  rewrite Hnil in Hin'. destruct Hin'.
Qed.

(** Steps 1 to 3 always run to their end; step 4 then decides. *)
Lemma in_place_steps_run d :
  exists d3,
    in_place_steps d = ordinal_encoding d3
    /\ nrows d3 = nrows d
    /\ (forall c, String.eqb c "policy_id" = false ->
                  mem c boolean_cols = false -> mem c float_cols = false ->
                  find_column c (columns d3) = find_column c (columns d))
    /\ (forall c, In c boolean_cols ->
                  find_column c (columns d3) =
                  option_map (map is_yes) (find_column c (columns d)))
    /\ (aligned d -> aligned d3)
    /\ (has_features d = true -> columns d3 <> []).
Proof.
  set (d1 := {| nrows := nrows d;
                columns := remove_columns [ "policy_id" ] (columns d) |}).
  destruct (boolean_conversion_run d1) as (d2 & Hrun2 & Hrows2 & Hfind2 & Hal2 & Hne2).
  destruct (float_conversion_run d2) as (d3 & Hrun3 & Hrows3 & Hfind3 & Hal3 & Hne3).
  assert (Hfind1 : forall c, String.eqb c "policy_id" = false ->
            find_column c (columns d1) = find_column c (columns d)).
  { intros c Hc. unfold d1. cbn [columns]. rewrite find_remove_columns.
    unfold mem. cbn [existsb]. now rewrite Hc. }
  exists d3. split; [| split; [| split; [| split; [| split]]]].
  - unfold in_place_steps, bind. rewrite drop_identifiers_run. fold d1.
    now rewrite Hrun2, Hrun3.
  - rewrite Hrows3, Hrows2. reflexivity.
  - intros c H1 H2 H3. rewrite (Hfind3 c H3), Hfind2, H2. now apply Hfind1.
  - intros c Hc. destruct (boolean_cols_apart c Hc) as (H1 & H2 & _).
    rewrite (Hfind3 c H2), Hfind2.
    apply mem_true_iff in Hc. rewrite Hc. now rewrite Hfind1.
  - intros Hd. apply Hal3, Hal2. apply aligned_In. unfold d1. cbn [nrows columns].
    intros c s Hc. apply In_remove_columns in Hc.
    now apply (proj1 (aligned_In d) Hd c).
  - intros H. apply Hne3, Hne2. unfold d1. cbn [columns].
    now apply has_features_after_drop.
Qed.


Lemma select_frame_present (labels : list string) d :
  (forall l, In l labels -> mem l (column_names d) = true) ->
  exists enc,
    select_frame labels d = Ok {| nrows := nrows d; columns := enc |}
    /\ map fst enc = labels
    /\ (forall l s, In (l, s) enc -> find_column l (columns d) = Some s).
Proof.
  unfold select_frame. induction labels as [| l labels IH]; intros H.
  - exists []. simpl. repeat split. intros l s [].
  - destruct IH as (enc & Hsel & Hnames & Hfind); [intros; apply H; now right |].
    destruct (proj1 (find_column_mem l (columns d))) as [s Hs]; [apply H; now left |].
    exists ((l, s) :: enc). cbn [traverse]. rewrite Hs.
    destruct (traverse _ labels) as [cols |]; [| discriminate].
    injection Hsel as <-. repeat split.
    + simpl. now rewrite Hnames.
    + intros l' s' [[= <- <-] | Hin]; auto.
Qed.

Lemma drop_frame_present (labels : list string) d :
  (forall l, In l labels -> mem l (column_names d) = true) ->
  drop_frame labels d =
  Ok {| nrows := nrows d; columns := remove_columns labels (columns d) |}.
Proof.
  intros H. unfold drop_frame.
  assert (filter (fun l => negb (mem l (column_names d))) labels = []) as ->;
    [| reflexivity].
  induction labels as [| l labels IH]; simpl; [reflexivity |].
  rewrite (H l) by now left. simpl. apply IH. intros; apply H; now right.
Qed.

Lemma startswith_app (p q x : string) :
  PyStr.startswith (p ++ q) (p ++ q ++ x) = true.
Proof.
  induction p as [| a p IH]; simpl.
  - induction q as [| b q IHq]; simpl; [reflexivity |].
    now rewrite Ascii.eqb_refl.
  - now rewrite Ascii.eqb_refl.
Qed.

Lemma find_column_not_in c (cols : list (string * series)) :
  (forall n s, In (n, s) cols -> n <> c) -> find_column c cols = None.
Proof.
  intros H. apply find_column_None. apply mem_false_iff. intros Hin.
  apply in_map_iff in Hin as ([n s] & Hn & Hin). simpl in Hn. subst n.
  now apply (H c s).
Qed.

Lemma dummies_nrows (data : series) prefix sep drop_first :
  nrows (get_dummies_1d data prefix sep drop_first) = length data.
Proof.
  unfold get_dummies_1d.
  destruct (length (categories_of data) =? 0)%nat; [reflexivity |].
  now destruct (andb drop_first (length (categories_of data) =? 1)%nat).
Qed.

(** An indicator column is labelled by its column, an underscore and a
    category, and has one value per value of the column. *)
Lemma dummies_columns (data : series) prefix drop_first n s :
  In (n, s) (columns (get_dummies_1d data prefix "_" drop_first)) ->
  PyStr.startswith (prefix ++ "_") n = true /\ length s = length data.
Proof.
  unfold get_dummies_1d.
  destruct (length (categories_of data) =? 0)%nat; [intros [] |].
  destruct (andb drop_first (length (categories_of data) =? 1)%nat); [intros [] |].
  cbn [columns]. intros H. apply in_map_iff in H as (level & [= <- <-] & _).
  split; [exact (startswith_app prefix "_" (py_str level)) | apply length_map].
Qed.

Lemma categorical_cols_NoDup : NoDup categorical_cols.
Proof. apply distinct_NoDup. reflexivity. Qed.

Lemma get_dummies_empty d :
  columns d = [] ->
  get_dummies_frame d (encoded_columns d) true =
  Raise (ValueError "No objects to concatenate").
Proof.
  intros H. unfold encoded_columns, column_names, get_dummies_frame.
  rewrite H. reflexivity.
Qed.

(** Step 5 on a table with a column: the columns that are not encoded
    keep their label and content, and the frame stays aligned. *)
Lemma get_dummies_run d :
  columns d <> [] ->
  exists d5,
    get_dummies_frame d (encoded_columns d) true = Ok d5
    /\ (forall c, mem c categorical_cols = false -> indicator_label c = false ->
                  find_column c (columns d5) = find_column c (columns d))
    /\ (aligned d -> nrows d5 = nrows d /\ aligned d5).
Proof.
  intros Hne.
  assert (Hpresent : forall l, In l (encoded_columns d) -> mem l (column_names d) = true)
    by (intros l Hl; now apply filter_In in Hl).
  assert (Hcat : forall l, In l (encoded_columns d) -> In l categorical_cols)
    by (intros l Hl; now apply filter_In in Hl).
  destruct (select_frame_present _ d Hpresent) as (enc & Hsel & Hnames & Hfind).
  unfold get_dummies_frame. rewrite Hsel. cbn [columns].
  remember (map (fun col => get_dummies_1d (snd col) (fst col) "_" true) enc)
    as dummies eqn:Ed.
  assert (Hdum : forall n s, In (n, s) (concat (map columns dummies)) ->
            indicator_label n = true /\ (aligned d -> length s = nrows d)).
  { intros n s Hin. apply in_concat in Hin as (cols & Hcols & Hin).
    apply in_map_iff in Hcols as (f & <- & Hf). rewrite Ed in Hf.
    apply in_map_iff in Hf as ([l data] & <- & Hl). cbn [fst snd] in Hin.
    apply dummies_columns in Hin as [Hstart Hlen]. split.
    - apply existsb_exists. exists l. split; [| exact Hstart].
      apply Hcat. rewrite <- Hnames. apply in_map_iff. now exists (l, data).
    - intros Hd. rewrite Hlen. apply (proj1 (aligned_In d) Hd l).
      apply find_column_In. now apply Hfind. }
  assert (Hdumfind : forall c, indicator_label c = false ->
            find_column c (concat (map columns dummies)) = None).
  { intros c Hc. apply find_column_not_in. intros n s Hin ->.
    apply Hdum in Hin as [Hin _]. congruence. }
  destruct (length enc =? length (columns d))%nat eqn:Hshape.
  - (* every column is encoded *)
    apply Nat.eqb_eq in Hshape.
    destruct enc as [| [l data] enc'];
      [destruct (columns d); [contradiction | discriminate] |].
    cbn [map fst snd] in Ed.
    destruct dummies as [| f fs]; [discriminate |]. injection Ed as Ef Efs.
    assert (Hf : nrows f = length data) by (rewrite Ef; apply dummies_nrows).
    assert (Hdata : find_column l (columns d) = Some data)
      by (apply Hfind; now left).
    cbn [app concat_columns].
    eexists. split; [reflexivity |]. cbn [nrows columns]. split.
    + intros c Hc1 Hc2. rewrite (Hdumfind c Hc2). symmetry.
      apply find_column_None. apply mem_false_iff. intros Hin.
      assert (Hincl : incl (column_names d) (encoded_columns d)).
      { apply NoDup_length_incl.
        - apply NoDup_filter, categorical_cols_NoDup.
        - unfold column_names. rewrite length_map, <- Hshape, <- Hnames, length_map.
          apply Nat.le_refl.
        - intros x Hx. apply mem_true_iff. now apply Hpresent. }
      apply Hincl, Hcat, mem_true_iff in Hin. congruence.
    + intros Hd.
      assert (Hrows : nrows f = nrows d).
      { rewrite Hf. apply (proj1 (aligned_In d) Hd l). now apply find_column_In. }
      split; [exact Hrows |].
      apply aligned_In. cbn [nrows columns]. intros c s Hin.
      apply Hdum in Hin as [_ Hin]. now rewrite (Hin Hd), Hrows.
  - (* the other columns come first *)
    rewrite (drop_frame_present _ d Hpresent). cbn [app concat_columns map concat].
    eexists. split; [reflexivity |]. cbn [nrows columns]. split.
    + intros c Hc1 Hc2. rewrite find_column_app, find_remove_columns.
      assert (mem c (encoded_columns d) = false) as ->.
      { apply mem_false_iff. intros Hin. apply Hcat, mem_true_iff in Hin. congruence. }
      rewrite (Hdumfind c Hc2). now destruct (find_column c (columns d)).
    + intros Hd. split; [reflexivity |].
      apply aligned_In. cbn [nrows columns]. intros c s Hin.
      apply in_app_or in Hin as [Hin | Hin].
      * apply In_remove_columns in Hin. now apply (proj1 (aligned_In d) Hd c).
      * apply Hdum in Hin as [_ Hin]. now apply Hin.
Qed.

(** Step 6 on the frame step 5 made. *)
Lemma split_target_run d :
  split_target d =
  match find_column target_col (columns d) with
  | None => Raise missing_target
  | Some s =>
      match Series_astype_int s with
      | Ok zs =>
          Ok ({| nrows := nrows d;
                 columns := remove_columns [ target_col ] (columns d) |},
              map CInt zs)
      | Raise e => Raise e
      end
  end.
Proof.
  unfold split_target.
  destruct (find_column target_col (columns d)) as [s |] eqn:Hs.
  - assert (M : mem target_col (column_names d) = true)
      by (apply find_column_mem; eauto).
    rewrite M. cbn [negb]. rewrite drop_frame_present.
    + unfold getitem. rewrite Hs. reflexivity.
    + intros l [<- | []]. exact M.
  - apply find_column_None in Hs. unfold column_names. now rewrite Hs.
Qed.


Lemma ratings_encodable_after d d3 :
  nrows d3 = nrows d ->
  find_column "ncap_rating" (columns d3) = find_column "ncap_rating" (columns d) ->
  ratings_encodable d3 = ratings_encodable d.
Proof. intros H1 H2. unfold ratings_encodable. now rewrite H1, H2. Qed.

(** With encodable ratings steps 1 to 5 return a frame in which every
    column that passes through is as it came in and every boolean column
    is mapped. *)
Lemma steps_1_to_5 t :
  ratings_encodable t = true ->
  exists d4,
    in_place_steps t = (Ok tt, d4)
    /\ (has_features t = true -> columns d4 <> [])
    /\ (forall c, passes_through c = true ->
                  find_column c (columns d4) = find_column c (columns t))
    /\ (columns d4 <> [] ->
        exists d5,
          get_dummies_frame d4 (encoded_columns d4) true = Ok d5
          /\ (forall c, passes_through c = true ->
                        find_column c (columns d5) = find_column c (columns t))
          /\ (forall c, In c boolean_cols ->
                        find_column c (columns d5) =
                        option_map (map is_yes) (find_column c (columns t)))
          /\ (aligned t -> nrows d5 = nrows t /\ aligned d5)).
Proof.
  intros Henc.
  destruct (in_place_steps_run t) as (d3 & Hrun & Hrows3 & Hfind3 & Hbool3 & Hal3 & Hne3).
  assert (Henc3 : ratings_encodable d3 = true).
  { rewrite (ratings_encodable_after t d3 Hrows3); [exact Henc |].
    now apply Hfind3. }
  destruct (ordinal_encoding_ok d3 Henc3) as (d4 & Hrun4 & Hrows4 & Hfind4 & Hal4 & Hne4).
  assert (Hpass : forall c, passes_through c = true ->
            find_column c (columns d4) = find_column c (columns t)).
  { intros c Hc. unfold passes_through in Hc. apply negb_true_iff in Hc.
    do 6 (apply orb_false_elim in Hc as [?H Hc]).
    rewrite Hfind4 by assumption. now apply Hfind3. }
  exists d4. split; [now rewrite Hrun |]. split; [auto |]. split; [exact Hpass |].
  intros Hne. destruct (get_dummies_run d4 Hne) as (d5 & Hrun5 & Hfind5 & Hal5).
  exists d5. split; [exact Hrun5 |]. split; [| split].
  - intros c Hc. rewrite <- (Hpass c Hc).
    unfold passes_through in Hc. apply negb_true_iff in Hc.
    do 6 (apply orb_false_elim in Hc as [?H Hc]). now apply Hfind5.
  - intros c Hc. destruct (boolean_cols_apart c Hc) as (H1 & H2 & H3 & H4 & H5 & H6 & _).
    rewrite (Hfind5 c H5 H6), (Hfind4 c H3 H4). now apply Hbool3.
  - intros Hd. destruct (Hal5 (Hal4 (Hal3 Hd))) as [Hr Ha].
    split; [| exact Ha]. now rewrite Hr, Hrows4, Hrows3.
Qed.

Lemma target_passes_through : passes_through target_col = true.
Proof. reflexivity. Qed.

(** A table with the label column and encodable ratings reaches step 6,
    where only the conversion of the labels can still fail. *)
Lemma process_frame_present t s :
  find_column target_col (columns t) = Some s ->
  ratings_encodable t = true ->
  exists d5,
    process_frame t =
    match Series_astype_int s with
    | Ok zs => Ok ({| nrows := nrows d5;
                      columns := remove_columns [ target_col ] (columns d5) |},
                   map CInt zs)
    | Raise e => Raise e
    end
    /\ (forall c, In c boolean_cols ->
                  find_column c (columns d5) =
                  option_map (map is_yes) (find_column c (columns t)))
    /\ (aligned t -> nrows d5 = nrows t /\ aligned d5).
Proof.
  intros Hs Henc.
  destruct (steps_1_to_5 t Henc) as (d4 & Hrun & _ & Hpass & Hstep5).
  destruct Hstep5 as (d5 & Hrun5 & Hpass5 & Hbool5 & Hal5).
  { intros Hnil. specialize (Hpass _ target_passes_through).
    rewrite Hnil, Hs in Hpass. discriminate. }
  exists d5. split; [| split; assumption].
  unfold process_frame. rewrite Hrun, Hrun5, split_target_run.
  now rewrite (Hpass5 _ target_passes_through), Hs.
Qed.

(** A table without the label column makes [process] raise a
    [ValueError]: the missing-column error, unless the encoder or the
    concatenation of step 5 refuses the table first. *)
Lemma process_frame_absent t :
  find_column target_col (columns t) = None ->
  exists e,
    process_frame t = Raise e
    /\ is_ValueError e = true
    /\ (ratings_encodable t = true -> has_features t = true -> e = missing_target).
Proof.
  intros Hs. unfold process_frame.
  destruct (ratings_encodable t) eqn:Henc.
  - destruct (steps_1_to_5 t Henc) as (d4 & Hrun & Hne & Hpass & Hstep5).
    rewrite Hrun.
    destruct (columns d4) as [| col cols] eqn:Hcols.
    + rewrite (get_dummies_empty d4 Hcols). eexists. split; [reflexivity |].
      split; [reflexivity |]. intros _ Hf. now destruct (Hne Hf).
    + destruct Hstep5 as (d5 & Hrun5 & Hpass5 & _); [discriminate |].
      rewrite Hrun5, split_target_run.
      rewrite (Hpass5 _ target_passes_through), Hs.
      exists missing_target. auto.
  - destruct (in_place_steps_run t) as (d3 & Hrun & Hrows3 & Hfind3 & _).
    assert (Henc3 : ratings_encodable d3 = false).
    { rewrite (ratings_encodable_after t d3 Hrows3); [exact Henc |].
      now apply Hfind3. }
    destruct (ordinal_encoding_raises d3 Henc3) as (e & d' & Hrun4 & He & _).
    rewrite Hrun, Hrun4. exists e. repeat split; auto. discriminate.
Qed.

(** Ratings that cannot be encoded make [process] raise the encoder's
    error, whatever else the table holds. *)
Lemma process_frame_unencodable t :
  ratings_encodable t = false ->
  exists e,
    process_frame t = Raise e /\ is_ValueError e = true /\ e <> missing_target.
Proof.
  intros Henc. unfold process_frame.
  destruct (in_place_steps_run t) as (d3 & Hrun & Hrows3 & Hfind3 & _).
  assert (Henc3 : ratings_encodable d3 = false).
  { rewrite (ratings_encodable_after t d3 Hrows3); [exact Henc |].
    now apply Hfind3. }
  destruct (ordinal_encoding_raises d3 Henc3) as (e & d' & Hrun4 & He).
  rewrite Hrun, Hrun4. now exists e.
Qed.


(** *** The store *)

Local Open Scope list_scope.

Lemma update_same {A : Type} (l : list A) n x :
  nth_error l n = Some x -> update n x l = l.
Proof.
  revert n. induction l as [| y l IH]; intros [| n]; simpl; try discriminate.
  - now intros [= ->].
  - intros H. now rewrite IH.
Qed.

Lemma update_last {A : Type} (l : list A) x y :
  update (length l) y (l ++ [x]) = l ++ [y].
Proof. induction l as [| z l IH]; simpl; [reflexivity | now rewrite IH]. Qed.

Lemma nth_error_last {A : Type} (l : list A) x :
  nth_error (l ++ [x]) (length l) = Some x.
Proof. induction l as [| z l IH]; simpl; auto. Qed.

(** A method call on the object allocated last. *)
Lemma on_last {A : Type} (method : L A) (h : heap) d :
  on (length h) method (h ++ [ODataFrame d]) =
  (fst (method d), h ++ [ODataFrame (snd (method d))]).
Proof.
  unfold on. rewrite nth_error_last. destruct (method d) as [a d'].
  now rewrite update_last.
Qed.

Lemma copy_run (h : heap) df t :
  nth_error h df = Some (ODataFrame t) ->
  DataFrame_copy df h = (Ok (length h), h ++ [ODataFrame t]).
Proof.
  intros H. unfold DataFrame_copy, bind, on, alloc. rewrite H.
  now rewrite (update_same h df _ H).
Qed.

(** [process] on a store: it allocates the copy, the frame of step 5 and,
    when it returns, the two results; the store it was given is a prefix
    of the store it leaves. *)
Lemma process_run (h : heap) df t :
  nth_error h df = Some (ODataFrame t) ->
  match process_frame t with
  | Ok (X, y) =>
      exists d4 d5,
        process df h =
        (Ok (length h + 2, length h + 3)%nat,
         h ++ [ ODataFrame d4; ODataFrame d5; ODataFrame X; OSeries y ])
  | Raise e => exists g, process df h = (Raise e, h ++ g)
  end.
Proof.
  intros Hdf. unfold process, process_frame, in_place_steps.
  unfold bind. rewrite (copy_run h df t Hdf). rewrite ?on_last.
  destruct (drop_identifiers t) as [[[] | e] d1]; cbn [fst snd];
    [| now exists [ODataFrame d1] ].
  rewrite ?on_last.
  destruct (boolean_conversion d1) as [[[] | e] d2]; cbn [fst snd];
    [| now exists [ODataFrame d2] ].
  rewrite ?on_last.
  destruct (float_conversion d2) as [[[] | e] d3]; cbn [fst snd];
    [| now exists [ODataFrame d3] ].
  rewrite ?on_last.
  destruct (ordinal_encoding d3) as [[[] | e] d4]; cbn [fst snd];
    [| now exists [ODataFrame d4] ].
  unfold one_hot_encoding, get_dummies, bind. rewrite on_last.
  cbn [get_columns fst snd]. rewrite on_last. cbn beta. cbn [fst snd].
  fold (encoded_columns d4).
  destruct (get_dummies_frame d4 (encoded_columns d4) true) as [d5 | e];
    [| now exists [ODataFrame d4] ].
  unfold separate_target, split_target, DataFrame_drop, astype_int, bind, alloc.
  rewrite on_last. cbn [get_columns fst snd].
  destruct (mem target_col (column_names d5)); cbn [negb];
    [| exists [ODataFrame d4; ODataFrame d5]; unfold raise;
       now rewrite <- app_assoc ].
  rewrite on_last. cbn beta. cbn [fst snd].
  destruct (drop_frame [target_col] d5) as [X | e];
    [| exists [ODataFrame d4; ODataFrame d5]; now rewrite <- app_assoc ].
  set (h3 := ((h ++ [ODataFrame d4]) ++ [ODataFrame d5]) ++ [ODataFrame X]).
  assert (Hon : on (length (h ++ [ODataFrame d4])) (getitem target_col) h3 =
                (fst (getitem target_col d5), h3)).
  { assert (Hnth : nth_error h3 (length (h ++ [ODataFrame d4])) = Some (ODataFrame d5)).
    { unfold h3. rewrite nth_error_app1 by (rewrite !length_app; simpl; lia).
      apply nth_error_last. }
    unfold on. rewrite Hnth. unfold getitem.
    destruct (find_column target_col (columns d5)); cbn [fst];
      now rewrite (update_same h3 _ _ Hnth). }
  rewrite Hon.
  destruct (fst (getitem target_col d5)) as [s | e];
    [| exists [ODataFrame d4; ODataFrame d5; ODataFrame X]; unfold h3;
       now rewrite <- !app_assoc ].
  unfold lift.
  destruct (Series_astype_int s) as [zs | e];
    [| exists [ODataFrame d4; ODataFrame d5; ODataFrame X]; unfold h3;
       now rewrite <- !app_assoc ].
  exists d4, d5. unfold ret, h3. f_equal.
  - f_equal. f_equal; rewrite !length_app; simpl; lia.
  - now rewrite <- !app_assoc.
Qed.


(** A value that converts is no number outside int64. *)
Lemma castable_within v : castable v = true -> overflows v = false.
Proof.
  unfold castable, overflows.
  destruct v as [| | b | z | f | x]; cbn [to_int]; try reflexivity.
  - now destruct (in_int64 z).
  - destruct (f64_trunc f) as [z |]; [| reflexivity]. now destruct (in_int64 z).
Qed.

Lemma castable_all_within s :
  forallb castable s = true -> existsb overflows s = false.
Proof.
  induction s as [| v s IH]; cbn [forallb existsb]; [reflexivity |].
  intros H. apply andb_prop in H as [Hv Hs].
  now rewrite (castable_within v Hv), (IH Hs).
Qed.

(** Without a number outside int64 the cast goes value by value. *)
Lemma astype_int_within s :
  existsb overflows s = false -> Series_astype_int s = traverse to_int s.
Proof. intros H. unfold Series_astype_int. now rewrite H. Qed.

Lemma traverse_to_int_castable s :
  forallb castable s = true <-> returns (traverse to_int s).
Proof.
  unfold returns.
  induction s as [| v s IH]; cbn [forallb traverse].
  - split; [eauto | reflexivity].
  - unfold castable at 1. destruct (to_int v) as [z | e]; cbn [andb].
    + rewrite IH. destruct (traverse to_int s) as [zs | e].
      * split; eauto.
      * split; intros [zs H]; discriminate.
    + split; [discriminate | intros [zs H]; discriminate].
Qed.

(** The cast returns when every value converts. *)
Lemma astype_int_castable s :
  forallb castable s = true -> returns (Series_astype_int s).
Proof.
  intros H. rewrite (astype_int_within s (castable_all_within s H)).
  now apply traverse_to_int_castable.
Qed.


Lemma astype_int_length s zs :
  forallb castable s = true ->
  Series_astype_int s = Ok zs -> length zs = length s.
Proof.
  intros H. rewrite (astype_int_within s (castable_all_within s H)).
  apply traverse_length.
Qed.

Lemma binary_label_castable v : binary_label v = true -> castable v = true.
Proof.
  unfold binary_label, castable. now destruct (to_int v).
Qed.

Lemma astype_int_binary s zs :
  Series_astype_int s = Ok zs ->
  forallb binary_label s = true ->
  Forall (fun z => z = 0%Z \/ z = 1%Z) zs.
Proof.
  intros Hzs Hbin.
  assert (Hcast : forallb castable s = true).
  { apply forallb_forall. intros v Hv. apply binary_label_castable.
    now apply (proj1 (forallb_forall binary_label s) Hbin). }
  rewrite (astype_int_within s (castable_all_within s Hcast)) in Hzs.
  revert Hzs Hbin. clear Hcast. revert zs.
  induction s as [| v s IH]; cbn [forallb traverse]; intros zs.
  - intros [= <-] _. constructor.
  - unfold binary_label at 1. destruct (to_int v) as [z | e]; [| discriminate].
    destruct (traverse to_int s) as [zs' | e]; [| discriminate].
    intros [= <-] H. apply andb_prop in H as [Hz H]. constructor; [| now apply IH].
    apply orb_prop in Hz as [Hz | Hz]; apply Z.eqb_eq in Hz; auto.
Qed.

Lemma nth_error_after (h g : heap) n :
  nth_error (h ++ g) (length h + n) = nth_error g n.
Proof.
  rewrite nth_error_app2 by lia. f_equal. lia.
Qed.

(** When the label column is there, the ratings are encodable and the
    labels convert, [process] returns two new objects: the frame of
    step 5 without the label column, and the converted labels. *)
Lemma process_returns (h : heap) df t s zs :
  nth_error h df = Some (ODataFrame t) ->
  find_column target_col (columns t) = Some s ->
  ratings_encodable t = true ->
  Series_astype_int s = Ok zs ->
  exists d5 o1 o2,
    process df h =
    (Ok (length h + 2, length h + 3)%nat,
     h ++ [ o1; o2;
            ODataFrame {| nrows := nrows d5;
                          columns := remove_columns [ target_col ] (columns d5) |};
            OSeries (map CInt zs) ])
    /\ (forall c, In c boolean_cols ->
                  find_column c (columns d5) =
                  option_map (map is_yes) (find_column c (columns t)))
    /\ (aligned t -> nrows d5 = nrows t /\ aligned d5).
Proof.
  intros Hdf Hs Henc Hzs.
  destruct (process_frame_present t s Hs Henc) as (d5 & Hframe & Hbool & Hal).
  rewrite Hzs in Hframe.
  pose proof (process_run h df t Hdf) as Hrun. rewrite Hframe in Hrun.
  destruct Hrun as (d4 & d5' & Hrun).
  exists d5, (ODataFrame d4), (ODataFrame d5'). auto.
Qed.

(** Conversely, [process] returns only then. *)
Lemma process_returns_inv (h : heap) df t :
  nth_error h df = Some (ODataFrame t) ->
  returns (fst (process df h)) ->
  ratings_encodable t = true
  /\ exists s, find_column target_col (columns t) = Some s
               /\ returns (Series_astype_int s).
Proof.
  intros Hdf [r Hr].
  pose proof (process_run h df t Hdf) as Hrun.
  assert (Hraise : forall e, process_frame t <> Raise e).
  { intros e He. rewrite He in Hrun. destruct Hrun as [g Hg].
    rewrite Hg in Hr. discriminate. }
  destruct (ratings_encodable t) eqn:Henc.
  - split; [reflexivity |].
    destruct (find_column target_col (columns t)) as [s |] eqn:Hs.
    + destruct (process_frame_present t s Hs Henc) as (d5 & Hframe & _).
      exists s. split; [reflexivity |].
      destruct (Series_astype_int s) as [zs | e]; [now exists zs |].
      now destruct (Hraise e).
    + destruct (process_frame_absent t Hs) as (e & He & _). now destruct (Hraise e).
  - destruct (process_frame_unencodable t Henc) as (e & He & _).
    now destruct (Hraise e).
Qed.

End StepFacts.

(** ** The preprocessor as a whole *)

Section PreprocessorClaims.

Local Open Scope list_scope.

Import State Pandas Preprocessor.

Context {R : Runtime}.

(** C1, as the code has it: on a well-formed table without the label
    column [process] raises a [ValueError].  It is the missing-column
    error, which names ['is_claim'], whenever the ratings are encodable and
    the table has a column besides [policy_id].  When the ratings are not
    encodable it is another error: the ordinal encoder raises in step 4,
    before step 6 looks for the label column. *)
Theorem process_without_label_raises :
  forall (h : heap) (df : ref) (t : DataFrame),
    nth_error h df = Some (ODataFrame t) ->
    well_formed t ->
    mem target_col (column_names t) = false ->
    exists e,
      fst (process df h) = Raise e
      /\ is_ValueError e = true
      /\ (ratings_encodable t = true -> has_features t = true ->
          e = ValueError "Target column 'is_claim' missing from dataset")
      /\ (ratings_encodable t = false ->
          e <> ValueError "Target column 'is_claim' missing from dataset").
Proof.
  intros h df t Hdf _ Hmem. apply find_column_None in Hmem.
  pose proof (process_run h df t Hdf) as Hrun.
  destruct (process_frame_absent t Hmem) as (e & He & Hval & Hmissing).
  rewrite He in Hrun. destruct Hrun as [g Hg].
  exists e. rewrite Hg. split; [reflexivity |]. split; [exact Hval |]. split.
  - exact Hmissing.
  - intros Henc.
    destruct (process_frame_unencodable t Henc) as (e' & He' & _ & Hne).
    assert (e = e') as -> by congruence. exact Hne.
Qed.


(** C7, as the code has it: for a well-formed table with the label
    column, encodable ratings and labels that convert to integers,
    [process] returns two objects (X, y): X has no ['is_claim'] column, has
    as many rows as the input, and every column of X has that many values;
    y holds the integer conversions of the labels, one per row, and these
    are all 0 or 1 when every label denotes 0 or 1. *)
Theorem process_splits_features_and_labels :
  forall (h : heap) (df : ref) (t : DataFrame),
    nth_error h df = Some (ODataFrame t) ->
    well_formed t ->
    mem target_col (column_names t) = true ->
    ratings_encodable t = true ->
    labels_castable t = true ->
    exists (X y : ref) (h' : heap) (features : DataFrame) (labels : series)
           (ints : list Z),
      process df h = (Ok (X, y), h')
      /\ nth_error h' X = Some (ODataFrame features)
      /\ nth_error h' y = Some (OSeries (map CInt ints))
      /\ mem target_col (column_names features) = false
      /\ aligned features
      /\ nrows features = nrows t
      /\ length ints = nrows t
      /\ find_column target_col (columns t) = Some labels
      /\ Series_astype_int labels = Ok ints
      /\ (forallb binary_label labels = true ->
          Forall (fun z => z = 0%Z \/ z = 1%Z) ints).
Proof.
  intros h df t Hdf Hwf Hmem Henc Hcast.
  apply find_column_mem in Hmem as [s Hs].
  unfold labels_castable in Hcast. rewrite Hs in Hcast.
  destruct (astype_int_castable s Hcast) as [zs Hzs].
  destruct (process_returns h df t s zs Hdf Hs Henc Hzs)
    as (d5 & o1 & o2 & Hrun & _ & Hal).
  destruct (Hal (well_formed_aligned t Hwf)) as [Hrows Hal5].
  eexists _, _, _, _, s, zs. split; [exact Hrun |].
  split; [rewrite nth_error_after; reflexivity |].
  split; [rewrite nth_error_after; reflexivity |].
  split; [| split; [| split; [| split; [| split; [| split]]]]].
  - unfold column_names. cbn [columns]. apply find_column_None.
    rewrite find_remove_columns. now cbn.
  - apply aligned_In. cbn [nrows columns]. intros c s' Hin.
    apply In_remove_columns in Hin. now apply (proj1 (aligned_In d5) Hal5 c).
  - exact Hrows.
  - rewrite (astype_int_length s zs Hcast Hzs).
    apply (proj1 (aligned_In t) (well_formed_aligned t Hwf) target_col).
    now apply find_column_In.
  - exact Hs.
  - exact Hzs.
  - now apply astype_int_binary.
Qed.

(** C8: whenever [process] returns (X, y) for a well-formed table, every
    boolean column of the input is a column of X whose values are [true]
    where the input holds the text "Yes" and [false] everywhere else:
    for "No", for nulls and for any other value.  Step 2, which does the
    mapping, never raises and maps every boolean column that is there. *)
Theorem process_boolean_columns :
  forall (h : heap) (df : ref) (t : DataFrame) (col : string) (s : series)
         (X y : ref) (h' : heap),
    nth_error h df = Some (ODataFrame t) ->
    well_formed t ->
    In col boolean_cols ->
    find_column col (columns t) = Some s ->
    process df h = (Ok (X, y), h') ->
    (exists features,
       nth_error h' X = Some (ODataFrame features)
       /\ find_column col (columns features) = Some (map is_yes s))
    /\ (forall v, is_yes v = CBool true <-> v = CStr "Yes")
    /\ (forall v, v <> CStr "Yes" -> is_yes v = CBool false)
    /\ (forall d, well_formed d ->
                  fst (boolean_conversion d) = Ok tt
                  /\ forall c s', In c boolean_cols ->
                       find_column c (columns d) = Some s' ->
                       find_column c (columns (snd (boolean_conversion d))) =
                       Some (map is_yes s')).
Proof.
  intros h df t col s X y h' Hdf _ Hcol Hs Hrun.
  split; [| split; [| split]]; cycle 3.
  - intros d _. destruct (boolean_conversion_run d) as (d' & E & _ & Hfind & _).
    rewrite E. split; [reflexivity |]. intros c s' Hc Hs'. cbn [snd].
    apply mem_true_iff in Hc. now rewrite Hfind, Hc, Hs'.
  - destruct (process_returns_inv h df t Hdf) as (Henc & s0 & Hs0 & zs & Hzs);
      [rewrite Hrun; now eexists |].
    destruct (process_returns h df t s0 zs Hdf Hs0 Henc Hzs)
      as (d5 & o1 & o2 & Hrun' & Hbool & _).
    rewrite Hrun in Hrun'. injection Hrun' as -> -> ->.
    eexists. split; [rewrite nth_error_after; reflexivity |].
    cbn [columns]. rewrite find_remove_columns.
    destruct (boolean_cols_apart col Hcol) as (_ & _ & _ & _ & _ & _ & Htarget).
    unfold mem. cbn [existsb]. rewrite Htarget. cbn [orb].
    now rewrite (Hbool col Hcol), Hs.
  - apply is_yes_true.
  - intros v Hv. destruct (is_yes_bool v) as [H | H]; [| exact H].
    apply is_yes_true in H. contradiction.
Qed.

(** C9: [process] leaves every object of the store it is called in as
    it was, its argument included, whether it returns or raises; the two
    references it returns are distinct and address objects that did not
    exist before the call. *)
Theorem process_leaves_input_unchanged :
  forall (h : heap) (df : ref),
    (forall r o, nth_error h r = Some o ->
                 nth_error (snd (process df h)) r = Some o)
    /\ (forall X y, fst (process df h) = Ok (X, y) ->
          (length h <= X)%nat /\ (length h <= y)%nat /\ X <> y
          /\ (exists features, nth_error (snd (process df h)) X = Some (ODataFrame features))
          /\ (exists labels, nth_error (snd (process df h)) y = Some (OSeries labels))).
Proof.
  intros h df.
  assert (Hcases :
    (exists g, snd (process df h) = h ++ g /\ raises (fst (process df h)))
    \/ (exists o1 o2 features labels,
          process df h =
          (Ok (length h + 2, length h + 3)%nat,
           h ++ [o1; o2; ODataFrame features; OSeries labels]))).
  { destruct (nth_error h df) as [[t | s] |] eqn:Hdf.
    - pose proof (process_run h df t Hdf) as Hrun.
      destruct (process_frame t) as [[X y] | e].
      + right. destruct Hrun as (d4 & d5 & ->). now eexists _, _, _, _.
      + left. destruct Hrun as (g & ->). exists g. split; [reflexivity | now exists e].
    - left. exists []. unfold process, bind, DataFrame_copy, bind, on.
      rewrite Hdf. rewrite app_nil_r. split; [reflexivity | eexists; reflexivity].
    - left. exists []. unfold process, bind, DataFrame_copy, bind, on.
      rewrite Hdf. rewrite app_nil_r. split; [reflexivity | eexists; reflexivity]. }
  destruct Hcases as [(g & Hg & e & He) | (o1 & o2 & features & labels & Hrun)].
  - split.
    + intros r o Hr. rewrite Hg. rewrite nth_error_app1; [exact Hr |].
      apply nth_error_Some. congruence.
    + intros X y HX. congruence.
  - rewrite Hrun. cbn [fst snd]. split.
    + intros r o Hr. rewrite nth_error_app1; [exact Hr |].
      apply nth_error_Some. congruence.
    + intros X y [= <- <-]. repeat split; try lia.
      * exists features. rewrite nth_error_after; reflexivity.
      * exists labels. rewrite nth_error_after; reflexivity.
Qed.

End PreprocessorClaims.

Section PreprocessorExamples.

Local Open Scope list_scope.

Import State Pandas Preprocessor.

(** The example of the specification without its label column: the
    missing-column error. *)
Lemma process_without_label_raises_witness :
  fst (@process integral_runtime O [ ODataFrame example_without_label ]) =
  Raise (ValueError "Target column 'is_claim' missing from dataset").
Proof.
  destruct (@process_without_label_raises integral_runtime
              [ ODataFrame example_without_label ] O example_without_label)
    as (e & He & _ & Hmissing & _).
  - reflexivity.
  - split; reflexivity.
  - reflexivity.
  - rewrite He. f_equal. apply Hmissing; reflexivity.
Defined.

(** C1 as stated fails: a table without the label column whose rating is
    "9" makes [process] raise the encoder's error, not the missing-column
    error. *)
Lemma process_without_label_other_error :
  exists msg : string,
    msg <> "Target column 'is_claim' missing from dataset"
    /\ forall R : Runtime,
         well_formed (@unlabelled_unknown_rating R)
         /\ mem target_col (column_names (@unlabelled_unknown_rating R)) = false
         /\ fst (process O [ ODataFrame (@unlabelled_unknown_rating R) ]) =
            Raise (ValueError msg).
Proof.
  exists "Found unknown categories ['9'] in column 0 during fit".
  split; [discriminate |]. intros R.
  split; [split; reflexivity |]. split; reflexivity.
Qed.


(** The label 2^63 is a number outside int64 and does not convert value
    by value.  Read as a uint64 column, as pandas reads it, its cast wraps
    around: [process] returns, with the label -2^63.  Where the cast of
    such a column raises (an object column), [process] raises. *)
Lemma process_wide_label :
  @labels_castable integral_runtime label_wide = false
  /\ @labels_within_int64 integral_runtime label_wide = false
  /\ fst (@process integral_runtime O [ ODataFrame label_wide ]) = Ok (3%nat, 4%nat)
  /\ nth_error (snd (@process integral_runtime O [ ODataFrame label_wide ])) 4 =
     Some (OSeries [ CInt (- 2 ^ 63) ])
  /\ forall R : Runtime,
       (forall s, astype_int_wide s =
                  Raise (OverflowError "Python int too large to convert to C long")) ->
       raises (fst (process O [ ODataFrame (@label_wide R) ])).
Proof.
  repeat split; try reflexivity.
  intros R Hwide.
  pose proof (process_run [ ODataFrame (@label_wide R) ] O label_wide eq_refl) as Hrun.
  assert (Hframe : process_frame (@label_wide R) =
                   Raise (OverflowError "Python int too large to convert to C long")).
  { destruct (process_frame_present (@label_wide R) [ CInt (2 ^ 63) ])
      as (d5 & -> & _); [reflexivity | reflexivity |].
    unfold Series_astype_int.
    change (existsb overflows [ @CInt f64 (2 ^ 63) ]) with true. cbv iota.
    now rewrite Hwide. }
  rewrite Hframe in Hrun. destruct Hrun as [g ->]. eexists. reflexivity.
Qed.


(** The example of the specification: X has two rows and no label column,
    y is [1, 0]. *)
Lemma process_splits_features_and_labels_witness :
  exists (X y : ref) (h' : heap) (features : DataFrame),
    @process integral_runtime O [ ODataFrame example_table ] = (Ok (X, y), h')
    /\ nth_error h' X = Some (ODataFrame features)
    /\ nth_error h' y = Some (OSeries [ CInt 1; CInt 0 ])
    /\ mem target_col (column_names features) = false
    /\ nrows features = 2%nat.
Proof.
  destruct (@process_splits_features_and_labels integral_runtime
              [ ODataFrame example_table ] O example_table)
    as (X & y & h' & features & labels & ints
        & Hrun & HX & Hy & Hmem & _ & Hrows & _ & Hlabels & Hints & _).
  - reflexivity.
  - split; reflexivity.
  - reflexivity.
  - reflexivity.
  - reflexivity.
  - exists X, y, h', features. repeat split; try assumption.
    injection Hlabels as <-. injection Hints as <-. exact Hy.
Defined.

(** C7 as stated fails: with the label 2 the returned y holds 2, which is
    neither 0 nor 1; with a null label [process] does not return at
    all. *)
Lemma process_label_outside_binary :
  (forall R : Runtime,
     well_formed (@label_two R)
     /\ fst (process O [ ODataFrame (@label_two R) ]) = Ok (3%nat, 4%nat)
     /\ nth_error (snd (process O [ ODataFrame (@label_two R) ])) 4 =
        Some (OSeries [ CInt 2 ]))
  /\ (forall R : Runtime,
        well_formed (@label_null R)
        /\ mem target_col (column_names (@label_null R)) = true
        /\ raises (fst (process O [ ODataFrame (@label_null R) ]))).
Proof.
  split; intros R.
  - split; [split; reflexivity |]. split; reflexivity.
  - split; [split; reflexivity |]. split; [reflexivity |].
    eexists. reflexivity.
Qed.

(** The example of the specification: [is_parking_camera] becomes
    [true, false]. *)
Lemma process_boolean_columns_witness :
  exists features,
    nth_error (snd (@process integral_runtime O [ ODataFrame example_table ])) 3 =
      Some (ODataFrame features)
    /\ find_column "is_parking_camera" (columns features) =
       Some [ CBool true; CBool false ].
Proof.
  destruct (@process_boolean_columns integral_runtime
              [ ODataFrame example_table ] O example_table
              "is_parking_camera" [ CStr "Yes"; CStr "No" ] 3%nat 4%nat
              (snd (@process integral_runtime O [ ODataFrame example_table ])))
    as [Hfeatures _].
  - reflexivity.
  - split; reflexivity.
  - simpl. tauto.
  - reflexivity.
  - reflexivity.
  - exact Hfeatures.
Defined.

(** The example of the specification is still at its address after the
    call. *)
Lemma process_leaves_input_unchanged_witness :
  nth_error (snd (@process integral_runtime O [ ODataFrame example_table ])) 0 =
  Some (ODataFrame example_table).
Proof.
  destruct (@process_leaves_input_unchanged integral_runtime
              [ ODataFrame example_table ] O) as [Hsame _].
  apply Hsame. reflexivity.
Defined.

End PreprocessorExamples.

(** ** The registries, continued *)

Section RegistryFacts.

Import ScalerFactory.

Lemma lower_ascii_idempotent c :
  PyStr.lower_ascii (PyStr.lower_ascii c) = PyStr.lower_ascii c.
Proof. destruct c as [[] [] [] [] [] [] [] []]; reflexivity. Qed.

Lemma lower_idempotent s : PyStr.lower (PyStr.lower s) = PyStr.lower s.
Proof.
  induction s as [| c s IH]; simpl; [reflexivity |].
  now rewrite lower_ascii_idempotent, IH.
Qed.

(** X1: after [register_scaler(name, cls, description)] the description
    of [name] is [description], or [name] itself when the description is
    empty; the description of every other name is what it was. *)
Theorem register_scaler_then_describe :
  forall st name cls description other,
    let st' := register_scaler st name cls description in
    (description <> "" -> get_description st' name = description)
    /\ (description = "" -> get_description st' name = name)
    /\ (other <> name -> get_description st' other = get_description st other).
Proof.
  intros st name cls description other st'. unfold get_description, st'. simpl.
  repeat split.
  - intros H. rewrite dict_get_set_same.
    destruct description; [congruence | reflexivity].
  - intros ->. now rewrite dict_get_set_same.
  - intros H. rewrite dict_get_set_other by congruence. reflexivity.
Qed.

(** X2: a class registered under a name is what [create_scaler] returns
    an instance of, for every request whose lower-cased form is that name;
    registering the name again replaces the class and leaves the listing
    as it is. *)
Theorem register_scaler_then_create :
  forall st name cls description request,
    PyStr.lower request = name ->
    let st' := register_scaler st name cls description in
    create_scaler st' request = Ok (new cls)
    /\ In name (list_available_scalers st')
    /\ forall cls' description',
         let st'' := register_scaler st' name cls' description' in
         create_scaler st'' request = Ok (new cls')
         /\ list_available_scalers st'' = list_available_scalers st'.
Proof.
  intros st name cls description request H st'.
  assert (Hcreate : forall s c d,
            create_scaler (register_scaler s name c d) request = Ok (new c)).
  { intros s c d. apply create_scaler_registered. rewrite H. simpl.
    apply dict_get_set_same. }
  split; [apply Hcreate |].
  split; [apply register_scaler_listed |].
  intros cls' description' st''. split; [apply Hcreate |].
  unfold st'', st', list_available_scalers. simpl. rewrite dict_keys_set.
  assert (PyDict.contains name (PyDict.set name cls (_scaler_registry st)) = true)
    as ->; [| reflexivity].
  apply dict_contains_iff, dict_keys_set_In.
Qed.

Lemma register_scaler_then_create_witness :
  let st := register_scaler initial "custom" (CustomScaler "CustomScaler") "" in
  create_scaler st "CUSTOM" = Ok (new (CustomScaler "CustomScaler"))
  /\ In "custom" (list_available_scalers st).
Proof.
  intros st.
  destruct (register_scaler_then_create initial "custom"
              (CustomScaler "CustomScaler") "" "CUSTOM" eq_refl) as (H1 & H2 & _).
  split; [exact H1 | exact H2].
Defined.

(** X3: [create_scaler] returns exactly when the lower-cased name is
    listed, and what it returns is an instance of the class stored under
    that key; the lookup that follows the membership test never fails. *)
Theorem create_scaler_returns_iff :
  forall st name,
    (returns (create_scaler st name) <->
     In (PyStr.lower name) (list_available_scalers st))
    /\ (forall cls,
          create_scaler st name = Ok (new cls) <->
          PyDict.get (PyStr.lower name) (_scaler_registry st) = Some cls)
    /\ create_scaler st name <> Raise (KeyError (PyStr.lower name)).
Proof.
  intros st name. unfold create_scaler, list_available_scalers.
  rewrite <- dict_contains_iff. unfold PyDict.contains.
  destruct (PyDict.get (PyStr.lower name) (_scaler_registry st)) as [c |]; simpl.
  - repeat split.
    + now exists (new c).
    + intros H. congruence.
    + intros H. congruence.
    + discriminate.
  - repeat split.
    + intros [a H]. discriminate.
    + discriminate.
    + discriminate.
    + discriminate.
    + discriminate.
Qed.

(** X4: a registration does not disturb the other names: whatever
    [create_scaler] returned for a request whose lower-cased form is not
    the registered name, it returns afterwards, and every listed name stays
    listed. *)
Theorem register_scaler_keeps_others :
  forall st name cls description request,
    PyStr.lower request <> name ->
    let st' := register_scaler st name cls description in
    (forall s, create_scaler st request = Ok s -> create_scaler st' request = Ok s)
    /\ (forall other, In other (list_available_scalers st) ->
          In other (list_available_scalers st')).
Proof.
  intros st name cls description request Hne st'. split.
  - intros s. unfold create_scaler, PyDict.contains, st'. simpl.
    rewrite dict_get_set_other by congruence.
    destruct (PyDict.get (PyStr.lower request) (_scaler_registry st)); simpl;
      [intros H; exact H | discriminate].
  - intros other. unfold list_available_scalers, st'. simpl.
    rewrite dict_keys_set.
    destruct (PyDict.contains name (_scaler_registry st)); intros H; [exact H |].
    apply in_or_app. now left.
Qed.

Lemma register_scaler_keeps_others_witness :
  let st := register_scaler initial "custom" (CustomScaler "CustomScaler") "" in
  create_scaler st "Robust" = Ok (new RobustScaler)
  /\ In "minmax" (list_available_scalers st).
Proof.
  intros st.
  assert (Hne : PyStr.lower "Robust" <> "custom") by discriminate.
  destruct (register_scaler_keeps_others initial "custom"
              (CustomScaler "CustomScaler") "" "Robust" Hne) as [H1 H2].
  split.
  - apply H1. reflexivity.
  - apply H2. vm_compute. tauto.
Defined.

Lemma NoDup_snoc {A : Type} (l : list A) (a : A) :
  NoDup l -> ~ In a l -> NoDup (l ++ [a])%list.
Proof.
  intros Hl Ha. induction Hl as [| x l Hx Hl IH]; simpl.
  - constructor; [intros [] | constructor].
  - constructor.
    + rewrite in_app_iff. simpl. intros [H | [H | []]]; [contradiction |].
      apply Ha. now left.
    + apply IH. intros H. apply Ha. now right.
Qed.

(** X5: whatever has been registered, the listing holds no name twice,
    starts with the four built-in names in their order, and every request
    for a built-in name, in any letter case, returns a scaler. *)
Theorem list_available_scalers_invariant :
  forall st, reachable st ->
    NoDup (list_available_scalers st)
    /\ (exists rest,
          list_available_scalers st =
          ([ "none"; "standard"; "minmax"; "robust" ] ++ rest)%list)
    /\ (forall name,
          In (PyStr.lower name) [ "none"; "standard"; "minmax"; "robust" ] ->
          returns (create_scaler st name)).
Proof.
  intros st Hst.
  assert (H : NoDup (list_available_scalers st)
              /\ exists rest, list_available_scalers st =
                   ([ "none"; "standard"; "minmax"; "robust" ] ++ rest)%list).
  { induction Hst as [| st name cls description _ [IHn [rest IHp]]].
    - split.
      + repeat constructor; simpl; intros H;
          repeat (destruct H as [H | H]; [discriminate |]); exact H.
      + now exists [].
    - unfold list_available_scalers in *. simpl. rewrite dict_keys_set.
      destruct (PyDict.contains name (_scaler_registry st)) eqn:E.
      + split; [exact IHn | now exists rest].
      + split.
        * apply NoDup_snoc; [exact IHn | now apply dict_contains_false_iff].
        * exists (rest ++ [name])%list. rewrite IHp. now rewrite <- app_assoc. }
  destruct H as [Hn [rest Hp]].
  split; [exact Hn |]. split; [now exists rest |].
  intros name Hin.
  assert (Hlisted : In (PyStr.lower name) (PyDict.keys (_scaler_registry st))).
  { unfold list_available_scalers in Hp. rewrite Hp. apply in_or_app. now left. }
  destruct (PyDict.get (PyStr.lower name) (_scaler_registry st)) as [cls |] eqn:E.
  - exists (new cls). now apply create_scaler_registered.
  - apply dict_get_None_iff in E. contradiction.
Qed.

Lemma list_available_scalers_invariant_witness :
  let st := register_scaler
              (register_scaler initial "custom" (CustomScaler "CustomScaler") "")
              "minmax" (CustomScaler "MyMinMax") "replaced" in
  NoDup (list_available_scalers st) /\ returns (create_scaler st "MinMax").
Proof.
  intros st.
  destruct (list_available_scalers_invariant st) as (H1 & _ & H3).
  - unfold st. do 2 apply reach_register. apply reach_initial.
  - split; [exact H1 |]. apply H3. vm_compute. tauto.
Defined.

Import SamplingStrategy.

(** X6: both factories look a name up in lower case, so that a name and
    its lower-cased form always give the same outcome, an error
    included. *)
Theorem create_ignores_letter_case :
  forall (st : ScalerFactory.state) (reg : registry) (name : string)
         (ss : sampling_strategy_arg) (rs : option Z),
    create_scaler st (PyStr.lower name) = create_scaler st name
    /\ create_strategy reg (PyStr.lower name) ss rs = create_strategy reg name ss rs.
Proof.
  intros st reg name ss rs.
  unfold create_scaler, create_strategy. now rewrite lower_idempotent.
Qed.

(** X8: a class registered under a name is instantiated for every
    request whose lower-cased form is that name, with the two arguments
    of the request, unless the name is "none": the class registered under
    "none" is called without arguments.  So a class that takes no argument
    (as [NoSamplingStrategy]) can only be created under "none", and an
    oversampling class registered under "none" ignores the arguments of the
    request. *)
Theorem register_strategy_then_create :
  forall reg name cls ss rs request,
    PyStr.lower request = name ->
    let reg' := register_strategy reg name cls in
    In name (list_available_strategies reg')
    /\ (name = "none" -> create_strategy reg' request ss rs = instantiate cls None)
    /\ (name <> "none" ->
        create_strategy reg' request ss rs = instantiate cls (Some (ss, rs)))
    /\ (name <> "none" -> cls = NoSamplingStrategy ->
        create_strategy reg' request ss rs =
        Raise (TypeError "NoSamplingStrategy() takes no arguments"))
    /\ (name = "none" -> cls = SMOTEStrategy ->
        create_strategy reg' request ss rs =
        Ok (SMOTEOversampling (by_name "minority") None)).
Proof.
  intros reg name cls ss rs request H reg'.
  assert (E : create_strategy reg' request ss rs =
              if String.eqb name "none" then instantiate cls None
              else instantiate cls (Some (ss, rs))).
  { unfold create_strategy, PyDict.contains, reg', register_strategy.
    rewrite H, dict_get_set_same. reflexivity. }
  split; [apply dict_keys_set_In |].
  rewrite E. repeat split.
  - intros ->. reflexivity.
  - intros Hn. apply String.eqb_neq in Hn. now rewrite Hn.
  - intros Hn ->. apply String.eqb_neq in Hn. now rewrite Hn.
  - intros -> ->. reflexivity.
Qed.

Lemma register_strategy_then_create_witness :
  let reg := register_strategy initial "plain" NoSamplingStrategy in
  In "plain" (list_available_strategies reg)
  /\ create_strategy reg "Plain" (by_name "minority") (Some 42%Z) =
     Raise (TypeError "NoSamplingStrategy() takes no arguments").
Proof.
  intros reg.
  destruct (register_strategy_then_create initial "plain" NoSamplingStrategy
              (by_name "minority") (Some 42%Z) "Plain" eq_refl)
    as (H1 & _ & _ & H4 & _).
  split; [exact H1 |]. apply H4; [discriminate | reflexivity].
Defined.

Section NoSampling.

Variables Features Target RandomState : Type.
Variable seeded : Z -> RandomState.
Variable fit_resample :
  sampler -> sampling_strategy_arg -> Features -> Target ->
  RandomState -> result (Features * Target) * RandomState.
Variable custom_resample :
  string -> option (sampling_strategy_arg * option Z) -> Features -> Target ->
  RandomState -> result (Features * Target) * RandomState.

(** X7: the method "none", in any letter case, gives a strategy
    whatever the other two arguments are, and its [resample] returns the
    data it was given, calls no sampler and leaves the process-wide
    generator as it was. *)
Theorem none_strategy_passes_through :
  forall (method : string) (ss : sampling_strategy_arg) (rs : option Z)
         (X : Features) (y : Target) (global : RandomState),
    PyStr.lower method = "none" ->
    exists self,
      create_strategy initial method ss rs = Ok self
      /\ resample seeded fit_resample custom_resample self X y global =
         (Ok (X, y), global).
Proof.
  intros method ss rs X y global H.
  exists NoSampling. unfold create_strategy. rewrite H. split; reflexivity.
Qed.

(** X19: for the methods "random", "smote" and "adasyn", in any letter
    case, the strategy the factory creates hands its two arguments
    unchanged to the imbalanced-learn sampler of that name, built anew at
    each call, and returns what the sampler returns, an error included;
    without a seed the sampler draws from the process-wide generator. *)
Theorem factory_forwards_parameters :
  forall (method : string) (ss : sampling_strategy_arg) (rs : option Z)
         (X : Features) (y : Target) (global : RandomState),
    In (PyStr.lower method) [ "random"; "smote"; "adasyn" ] ->
    exists self cls,
      create_strategy initial method ss rs = Ok self
      /\ (PyStr.lower method = "random" -> cls = RandomOverSampler)
      /\ (PyStr.lower method = "smote" -> cls = SMOTE)
      /\ (PyStr.lower method = "adasyn" -> cls = ADASYN)
      /\ resample seeded fit_resample custom_resample self X y global =
         sample_with seeded fit_resample cls ss rs X y global
      /\ (rs = None ->
          resample seeded fit_resample custom_resample self X y global =
          fit_resample cls ss X y global).
Proof.
  intros method ss rs X y global Hin.
  unfold create_strategy.
  destruct Hin as [H | [H | [H | []]]]; rewrite <- H; simpl.
  - exists (RandomOversampling ss rs), RandomOverSampler.
    repeat split; try discriminate. now intros ->.
  - exists (SMOTEOversampling ss rs), SMOTE.
    repeat split; try discriminate. now intros ->.
  - exists (ADASYNOversampling ss rs), ADASYN.
    repeat split; try discriminate. now intros ->.
Qed.

End NoSampling.

Lemma factory_forwards_parameters_witness :
  let fit := fun (cls : sampler) (_ : sampling_strategy_arg) (X : list Z) (y : list bool)
                 (g : nat) =>
               match cls with
               | ADASYN => (Raise (ValueError "No samples will be generated"), S g)
               | _ => (Ok (Z.of_nat g :: X, y), S g)
               end in
  let custom := fun (_ : string) (_ : option (sampling_strategy_arg * option Z))
                    (X : list Z) (y : list bool) (g : nat) => (Ok (X, y), g) in
  exists self,
    create_strategy initial "Adasyn" (by_name "minority") None = Ok self
    /\ resample Z.to_nat fit custom self [1%Z] [true] 5%nat =
       (Raise (ValueError "No samples will be generated"), 6%nat).
Proof.
  intros fit custom.
  destruct (factory_forwards_parameters (list Z) (list bool) nat Z.to_nat fit custom
              "Adasyn" (by_name "minority") None [1%Z] [true] 5%nat)
    as (self & cls & Hcreate & _ & _ & Hcls & _ & Hrun).
  - vm_compute. tauto.
  - exists self. split; [exact Hcreate |].
    rewrite (Hrun eq_refl), (Hcls eq_refl). reflexivity.
Defined.

Lemma none_strategy_passes_through_witness :
  let fit := fun (_ : sampler) (_ : sampling_strategy_arg) (X : list Z) (y : list bool)
                 (g : nat) => (Ok (Z.of_nat g :: X, y), S g) in
  let custom := fun (_ : string) (_ : option (sampling_strategy_arg * option Z))
                    (X : list Z) (y : list bool) (g : nat) => (Ok (X, y), g) in
  exists self,
    create_strategy initial "None" (by_ratio (1 # 2)) (Some 7%Z) = Ok self
    /\ resample Z.to_nat fit custom self [1%Z] [true] 5%nat = (Ok ([1%Z], [true]), 5%nat).
Proof.
  intros fit custom.
  exact (none_strategy_passes_through (list Z) (list bool) nat Z.to_nat fit custom
           "None" (by_ratio (1 # 2)) (Some 7%Z) [1%Z] [true] 5%nat eq_refl).
Defined.

End RegistryFacts.

(** ** Evaluation, continued *)

Section MetricFacts.

Import Models.

Local Open Scope nat_scope.

(** The dictionary of line 52, with the value of every metric. *)
Lemma evaluate_values y_true y_pred model_name y_score :
  same_length y_true y_pred = true ->
  length (unique_labels y_true y_pred) = 2 ->
  let TP := count_pairs true true y_true y_pred in
  let TN := count_pairs false false y_true y_pred in
  let FP := count_pairs false true y_true y_pred in
  let FN := count_pairs true false y_true y_pred in
  evaluate y_true y_pred model_name y_score =
  {| Model := model_name;
     Accuracy := Num (ratio (TP + TN) (length y_true));
     Precision := Num (if TP + FP =? 0 then 0%Q else ratio TP (TP + FP));
     Recall := Num (if TP + FN =? 0 then 0%Q else ratio TP (TP + FN));
     F1_Score := Num (if 2 * TP + FP + FN =? 0 then 0%Q
                      else ratio (2 * TP) (2 * TP + FP + FN));
     ROC_AUC :=
       try_except
         (bind (match y_score with
                | Some y_score => roc_auc_score y_true y_score
                | None => roc_auc_score y_true (map score_of_label y_pred)
                end) (fun auc => Ok (Num auc)))
         NaN;
     FNR := if 0 <? FN + TP then Num (ratio FN (FN + TP)) else Num 0%Q |}.
Proof.
  intros Hlen Htwo TP TN FP FN. apply unique_labels_two in Htwo as [Hneg Hpos].
  unfold evaluate, confusion_matrix, accuracy_score, precision_score,
    recall_score, f1_score, unique_labels.
  rewrite Hlen, Hneg, Hpos. reflexivity.
Qed.

Lemma ratio_unit a b : a <= b -> (0 <= ratio a b <= 1)%Q.
Proof.
  intros H. unfold ratio. destruct b as [| b].
  - replace a with 0 by lia. split; discriminate.
  - assert (Hb : (0 < inject_Z (Z.of_nat (S b)))%Q).
    { unfold Qlt. simpl. lia. }
    split.
    + apply Qle_shift_div_l; [exact Hb |]. rewrite Qmult_0_l.
      change 0%Q with (inject_Z 0). rewrite <- Zle_Qle. lia.
    + apply Qle_shift_div_r; [exact Hb |]. rewrite Qmult_1_l.
      rewrite <- Zle_Qle. lia.
Qed.

Lemma zero_unit : (0 <= 0 <= 1)%Q.
Proof. split; discriminate. Qed.

Lemma count_pairs_diagonal_le y_true y_pred :
  count_pairs true true y_true y_pred + count_pairs false false y_true y_pred
  <= length y_true.
Proof.
  unfold count_pairs.
  revert y_pred. induction y_true as [| t y_true IH]; intros [| q y_pred]; simpl;
    try lia.
  specialize (IH y_pred). destruct t, q; simpl; lia.
Qed.

Lemma filter_combine_le {A B : Type} (f : A -> bool) (l : list A) (r : list B) :
  length (filter (fun s => f (fst s)) (combine l r)) <= length (filter f l).
Proof.
  revert r. induction l as [| a l IH]; intros [| b r]; simpl; try lia.
  specialize (IH r). destruct (f a); simpl; lia.
Qed.

Lemma list_sum_le {A : Type} (f : A -> nat) (c : nat) (l : list A) :
  (forall x, In x l -> f x <= c) -> list_sum (map f l) <= c * length l.
Proof.
  induction l as [| a l IH]; intros H; simpl; [lia |].
  assert (f a <= c) by (apply H; now left).
  assert (list_sum (map f l) <= c * length l) by (apply IH; intros; apply H; now right).
  lia.
Qed.

Lemma list_sum_const {A : Type} (f : A -> nat) (c : nat) (l : list A) :
  (forall x, In x l -> f x = c) -> list_sum (map f l) = c * length l.
Proof.
  induction l as [| a l IH]; intros H; simpl; [lia |].
  assert (f a = c) by (apply H; now left).
  assert (list_sum (map f l) = c * length l) by (apply IH; intros; apply H; now right).
  lia.
Qed.

Lemma ranked_pairs2_le y_true y_score :
  ranked_pairs2 y_true y_score <= 2 * positives y_true * negatives y_true.
Proof.
  unfold ranked_pairs2, positives, negatives.
  pose proof (filter_combine_le (fun b : bool => b) y_true y_score) as Hp.
  pose proof (filter_combine_le negb y_true y_score) as Hn.
  simpl in Hp, Hn.
  set (pos := filter (fun s => fst s) (combine y_true y_score)) in *.
  set (neg := filter (fun s => negb (fst s)) (combine y_true y_score)) in *.
  etransitivity.
  - apply (list_sum_le _ (2 * length neg)). intros p _.
    apply list_sum_le. intros n _. destruct (snd p ?= snd n)%Q; lia.
  - assert (Hp' : length pos <= length (filter (fun b : bool => b) y_true))
      by exact Hp.
    assert (Hn' : length neg <= length (filter negb y_true)) by exact Hn.
    nia.
Qed.

Lemma roc_auc_unit y_true scores q :
  roc_auc_score y_true scores = Ok q -> (0 <= q <= 1)%Q.
Proof.
  unfold roc_auc_score.
  destruct (negb (same_length y_true scores)); [discriminate |].
  destruct (_ || _)%bool; [discriminate |].
  intros H. injection H as <-. apply ratio_unit, ranked_pairs2_le.
Qed.

(** X9: whatever the inputs, every metric that [evaluate] reports as a
    number lies between 0 and 1. *)
Theorem evaluate_metrics_in_unit_interval :
  forall (y_true y_pred : list label) (model_name : string)
         (y_score : option (list Q)) (q : Q),
    let m := evaluate y_true y_pred model_name y_score in
    In (Num q) [ Accuracy m; Precision m; Recall m; F1_Score m; ROC_AUC m; FNR m ] ->
    (0 <= q <= 1)%Q.
Proof.
  intros y_true y_pred model_name y_score q m.
  destruct (same_length y_true y_pred) eqn:Hlen.
  2: { subst m. rewrite evaluate_degenerate by now left. simpl.
       intros H. repeat (destruct H as [H | H]; [discriminate |]). destruct H. }
  destruct (Nat.eq_dec (length (unique_labels y_true y_pred)) 2) as [Htwo | Htwo].
  2: { subst m. rewrite evaluate_degenerate by now right. simpl.
       intros H. repeat (destruct H as [H | H]; [discriminate |]). destruct H. }
  subst m. rewrite (evaluate_values _ _ _ _ Hlen Htwo). simpl.
  intros [H | [H | [H | [H | [H | [H | []]]]]]].
  - injection H as <-. apply ratio_unit, count_pairs_diagonal_le.
  - injection H as <-.
    destruct (_ =? 0); [apply zero_unit | apply ratio_unit; lia].
  - injection H as <-.
    destruct (_ =? 0); [apply zero_unit | apply ratio_unit; lia].
  - injection H as <-.
    destruct (_ =? 0); [apply zero_unit | apply ratio_unit; lia].
  - destruct y_score as [scores |].
    + destruct (roc_auc_score y_true scores) as [auc |] eqn:E; simpl in H;
        [| discriminate].
      injection H as ->. now apply roc_auc_unit in E.
    + destruct (roc_auc_score y_true (map score_of_label y_pred)) as [auc |] eqn:E;
        simpl in H; [| discriminate].
      injection H as ->. now apply roc_auc_unit in E.
  - destruct (0 <? _); injection H as <-; [apply ratio_unit; lia | apply zero_unit].
Qed.

Lemma evaluate_metrics_in_unit_interval_witness :
  Accuracy (evaluate [true; false; true] [true; true; false] "model" None)
    = Num (ratio 1 3)
  /\ (0 <= ratio 1 3 <= 1)%Q.
Proof.
  split; [reflexivity |].
  apply (evaluate_metrics_in_unit_interval
           [true; false; true] [true; true; false] "model" None (ratio 1 3)).
  left. reflexivity.
Defined.

Lemma count_pairs_true_sum y_true y_pred :
  same_length y_true y_pred = true ->
  count_pairs true true y_true y_pred + count_pairs true false y_true y_pred
  = positives y_true.
Proof.
  unfold same_length, count_pairs, positives.
  revert y_pred. induction y_true as [| t y_true IH]; intros [| q y_pred]; simpl;
    try discriminate; [reflexivity |].
  intros H. specialize (IH y_pred H). destruct t, q; simpl; lia.
Qed.

Lemma ratio_complement a b :
  0 < a + b -> (ratio a (a + b) + ratio b (b + a) == 1)%Q.
Proof.
  intros H. unfold ratio.
  rewrite (Nat.add_comm b a), Nat2Z.inj_add, inject_Z_plus.
  assert (Hne : ~ (inject_Z (Z.of_nat a) + inject_Z (Z.of_nat b) == 0)%Q).
  { rewrite <- inject_Z_plus. change 0%Q with (inject_Z 0).
    rewrite inject_Z_injective. lia. }
  field. exact Hne.
Qed.

(** X10: as soon as the two vectors have equal length and [y_true] holds
    a positive, the reported false-negative rate is the complement of the
    reported recall. *)
Theorem fnr_complements_recall :
  forall (y_true y_pred : list label) (model_name : string)
         (y_score : option (list Q)),
    same_length y_true y_pred = true ->
    length (unique_labels y_true y_pred) = 2 ->
    0 < positives y_true ->
    let m := evaluate y_true y_pred model_name y_score in
    exists recall fnr,
      Recall m = Num recall /\ FNR m = Num fnr /\ (recall + fnr == 1)%Q.
Proof.
  intros y_true y_pred model_name y_score Hlen Htwo Hpos m.
  subst m. rewrite (evaluate_values _ _ _ _ Hlen Htwo). simpl.
  set (TP := count_pairs true true y_true y_pred).
  set (FN := count_pairs true false y_true y_pred).
  assert (Hsum : TP + FN = positives y_true)
    by exact (count_pairs_true_sum y_true y_pred Hlen).
  assert (E1 : (TP + FN =? 0) = false) by (apply Nat.eqb_neq; lia).
  assert (E2 : (0 <? FN + TP) = true) by (apply Nat.ltb_lt; lia).
  rewrite E1, E2. do 2 eexists. split; [reflexivity |]. split; [reflexivity |].
  apply ratio_complement. lia.
Qed.

Lemma fnr_complements_recall_witness :
  exists recall fnr,
    Recall (evaluate [true; false; true] [true; true; false] "model" None) = Num recall
    /\ FNR (evaluate [true; false; true] [true; true; false] "model" None) = Num fnr
    /\ (recall + fnr == 1)%Q.
Proof.
  apply (fnr_complements_recall [true; false; true] [true; true; false] "model" None);
    [reflexivity | reflexivity | unfold positives; simpl; lia].
Defined.

(** X11: the scores enter the ROC-AUC alone: the other five metrics and
    the model name are the same whatever [y_score] is, and scores of the
    wrong length cost nothing but the ROC-AUC, which is then NaN. *)
Theorem y_score_affects_roc_auc_only :
  forall (y_true y_pred : list label) (model_name : string)
         (y_score y_score' : option (list Q)),
    let m := evaluate y_true y_pred model_name y_score in
    let m' := evaluate y_true y_pred model_name y_score' in
    (Model m = Model m' /\ Accuracy m = Accuracy m' /\ Precision m = Precision m'
     /\ Recall m = Recall m' /\ F1_Score m = F1_Score m' /\ FNR m = FNR m')
    /\ (forall scores, y_score = Some scores ->
          same_length y_true scores = false -> ROC_AUC m = NaN).
Proof.
  intros y_true y_pred model_name y_score y_score' m m'.
  destruct (same_length y_true y_pred) eqn:Hlen.
  2: { subst m m'. rewrite !evaluate_degenerate by now left. simpl.
       repeat split; reflexivity. }
  destruct (Nat.eq_dec (length (unique_labels y_true y_pred)) 2) as [Htwo | Htwo].
  2: { subst m m'. rewrite !evaluate_degenerate by now right. simpl.
       repeat split; reflexivity. }
  subst m m'. rewrite !(evaluate_values _ _ _ _ Hlen Htwo). simpl.
  repeat split.
  intros scores -> Hs. unfold roc_auc_score. rewrite Hs. reflexivity.
Qed.

Lemma count_pairs_same t p y :
  count_pairs t p y y = if Bool.eqb t p then length (filter (Bool.eqb t) y) else 0.
Proof.
  unfold count_pairs. induction y as [| b y IH]; simpl.
  - now destruct (Bool.eqb t p).
  - destruct t, p, b; simpl in *; lia.
Qed.

Lemma positives_negatives y : positives y + negatives y = length y.
Proof.
  unfold positives, negatives. induction y as [| [] y IH]; simpl; lia.
Qed.

Lemma ratio_same n : 0 < n -> (ratio n n == 1)%Q.
Proof.
  intros H. unfold ratio. apply Qmult_inv_r.
  change 0%Q with (inject_Z 0). rewrite inject_Z_injective. lia.
Qed.

Lemma ratio_zero n : (ratio 0 n == 0)%Q.
Proof. unfold ratio. simpl. apply Qmult_0_l. Qed.

Lemma ranked_pairs2_perfect y :
  ranked_pairs2 y (map score_of_label y) = 2 * positives y * negatives y.
Proof.
  unfold ranked_pairs2, positives, negatives.
  assert (Hs : forall s, In s (combine y (map score_of_label y)) ->
                 snd s = score_of_label (fst s)).
  { induction y as [| b y IH]; simpl; [intros s [] |].
    intros s [<- | H]; [reflexivity | now apply IH]. }
  assert (Hp : length (filter (fun s => fst s) (combine y (map score_of_label y)))
               = length (filter (fun b => b) y)).
  { clear Hs. induction y as [| [] y IH]; simpl; lia. }
  assert (Hn : length (filter (fun s => negb (fst s)) (combine y (map score_of_label y)))
               = length (filter negb y)).
  { clear Hs Hp. induction y as [| [] y IH]; simpl; lia. }
  rewrite <- Hp, <- Hn.
  set (pos := filter (fun s => fst s) (combine y (map score_of_label y))) in *.
  set (neg := filter (fun s => negb (fst s)) (combine y (map score_of_label y))) in *.
  rewrite (list_sum_const _ (2 * length neg)); [lia |].
  intros p Hin. apply filter_In in Hin as [Hin Hfst].
  apply list_sum_const. intros n Hin'. apply filter_In in Hin' as [Hin' Hfst'].
  pose proof (Hs p Hin) as Ep. pose proof (Hs n Hin') as En.
  destruct p as [bp sp], n as [bn sn]. simpl in *. subst bp sp sn.
  destruct bn; [discriminate | reflexivity].
Qed.

(** X12: predictions that agree with the labels everywhere, on labels
    holding both classes, score 1 on accuracy, precision, recall, F1 and
    (with the predictions standing in for the scores) ROC-AUC, and 0 on
    the false-negative rate. *)
Theorem evaluate_perfect_predictions :
  forall (y : list label) (model_name : string),
    0 < positives y -> 0 < negatives y ->
    let m := evaluate y y model_name None in
    exists accuracy precision recall f1 auc fnr,
      Accuracy m = Num accuracy /\ Precision m = Num precision
      /\ Recall m = Num recall /\ F1_Score m = Num f1
      /\ ROC_AUC m = Num auc /\ FNR m = Num fnr
      /\ (accuracy == 1 /\ precision == 1 /\ recall == 1 /\ f1 == 1
          /\ auc == 1 /\ fnr == 0)%Q.
Proof.
  intros y model_name Hpos Hneg m.
  assert (Hlen : same_length y y = true) by apply Nat.eqb_refl.
  assert (Htwo : length (unique_labels y y) = 2).
  { apply unique_labels_two. unfold positives, negatives in *.
    split; apply existsb_exists.
    - destruct (filter negb y) as [| b l] eqn:E; [simpl in Hneg; lia |].
      assert (Hin : In b (filter negb y)) by (rewrite E; now left).
      apply filter_In in Hin as [Hin Hb]. exists b. split; [| exact Hb].
      apply in_or_app. now left.
    - destruct (filter (fun b => b) y) as [| b l] eqn:E; [simpl in Hpos; lia |].
      assert (Hin : In b (filter (fun b => b) y)) by (rewrite E; now left).
      apply filter_In in Hin as [Hin Hb]. exists b. split; [| exact Hb].
      apply in_or_app. now left. }
  subst m. rewrite (evaluate_values _ _ _ _ Hlen Htwo).
  rewrite !count_pairs_same. cbn [Bool.eqb].
  assert (Ep : length (filter (Bool.eqb true) y) = positives y).
  { unfold positives. apply f_equal, filter_ext. now intros []. }
  assert (En : length (filter (Bool.eqb false) y) = negatives y).
  { unfold negatives. apply f_equal, filter_ext. now intros []. }
  rewrite Ep, En, positives_negatives.
  pose proof (positives_negatives y) as Hsum.
  cbn [Model Accuracy Precision Recall F1_Score ROC_AUC FNR].
  unfold roc_auc_score.
  assert (same_length y (map score_of_label y) = true) as ->.
  { unfold same_length. rewrite length_map. apply Nat.eqb_refl. }
  assert ((positives y =? 0) = false) as -> by (apply Nat.eqb_neq; lia).
  assert ((negatives y =? 0) = false) as -> by (apply Nat.eqb_neq; lia).
  rewrite ranked_pairs2_perfect. cbn [negb orb bind try_except].
  rewrite !Nat.add_0_r.
  assert ((positives y =? 0) = false) as -> by (apply Nat.eqb_neq; lia).
  assert ((2 * positives y =? 0) = false) as -> by (apply Nat.eqb_neq; lia).
  rewrite !Nat.add_0_l.
  assert ((0 <? positives y) = true) as -> by (apply Nat.ltb_lt; lia).
  do 6 eexists. repeat (split; [reflexivity |]).
  repeat split; first [apply ratio_same; nia | apply ratio_zero].
Qed.

Lemma evaluate_perfect_predictions_witness :
  exists accuracy auc fnr,
    Accuracy (evaluate [true; false; true] [true; false; true] "model" None)
      = Num accuracy
    /\ ROC_AUC (evaluate [true; false; true] [true; false; true] "model" None)
      = Num auc
    /\ FNR (evaluate [true; false; true] [true; false; true] "model" None) = Num fnr
    /\ (accuracy == 1 /\ auc == 1 /\ fnr == 0)%Q.
Proof.
  destruct (evaluate_perfect_predictions [true; false; true] "model")
    as (accuracy & precision & recall & f1 & auc & fnr
        & Ha & _ & _ & _ & Hr & Hf & Hacc & _ & _ & _ & Hauc & Hfnr);
    [unfold positives; simpl; lia | unfold negatives; simpl; lia |].
  exists accuracy, auc, fnr. repeat split; assumption.
Defined.

End MetricFacts.

(** ** The feature table, column by column *)

Section FeatureFacts.

Local Open Scope list_scope.

Import State Pandas Preprocessor.

Context {R : Runtime}.

Implicit Types (c : string) (s : series) (d : DataFrame).

Lemma float_cols_NoDup : NoDup float_cols.
Proof. apply distinct_NoDup. reflexivity. Qed.

(** The loop of step 3, with what it leaves in every column. *)
Lemma float_loop_exact (cs : list string) : forall d,
  NoDup cs ->
  exists d',
    for_each cs (fun col =>
      (cols <- get_columns ;;
       if mem col cols then
         s <- getitem col ;;
         s' <- lift (Series_astype_float (to_numeric_coerce s)) ;;
         setitem col s'
       else ret tt)%py) d
    = (Ok tt, d')
    /\ (forall c, find_column c (columns d') =
                  if mem c cs then option_map (map as_float) (find_column c (columns d))
                  else find_column c (columns d)).
Proof.
  induction cs as [| a cs IH]; intros d Hnd.
  - exists d. simpl. unfold ret. split; auto.
  - inversion Hnd as [| ? ? Ha Hnd']; subst. apply mem_false_iff in Ha.
    simpl for_each. unfold bind at 1. unfold bind at 1. unfold get_columns at 1.
    destruct (mem a (column_names d)) eqn:M.
    + destruct (proj1 (find_column_mem a (columns d)) M) as [s Hs].
      unfold bind at 1. unfold getitem at 1. rewrite Hs.
      unfold bind at 1. unfold lift at 1. rewrite astype_float_coerce.
      unfold setitem at 1.
      set (d1 := {| nrows := nrows d;
                    columns := set_column a (map as_float s) (columns d) |}).
      destruct (IH d1 Hnd') as (d' & Hrun & Hfind).
      exists d'. split; [exact Hrun |].
      intros c. rewrite Hfind. unfold d1. cbn [columns]. rewrite find_set_column.
      change (mem c (a :: cs)) with (orb (String.eqb c a) (mem c cs)).
      destruct (String.eqb_spec c a) as [-> | Hca]; cbn [orb].
      * rewrite String.eqb_refl, Ha, Hs. reflexivity.
      * assert (String.eqb a c = false) as -> by (apply String.eqb_neq; congruence).
        reflexivity.
    + unfold ret at 1.
      destruct (IH d Hnd') as (d' & Hrun & Hfind).
      exists d'. split; [exact Hrun |].
      intros c. rewrite Hfind.
      change (mem c (a :: cs)) with (orb (String.eqb c a) (mem c cs)).
      destruct (String.eqb_spec c a) as [-> | Hca]; cbn [orb]; [| reflexivity].
      rewrite Ha. apply find_column_None in M. now rewrite M.
Qed.

Lemma float_conversion_exact d :
  exists d',
    float_conversion d = (Ok tt, d')
    /\ (forall c, find_column c (columns d') =
                  if mem c float_cols
                  then option_map (map as_float) (find_column c (columns d))
                  else find_column c (columns d)).
Proof. apply float_loop_exact, float_cols_NoDup. Qed.

(** Steps 1 to 3, with what they leave in every column. *)
Lemma in_place_steps_exact t :
  exists d3,
    in_place_steps t = ordinal_encoding d3
    /\ (forall c, find_column c (columns d3) =
          if String.eqb c "policy_id" then None
          else if mem c boolean_cols
               then option_map (map is_yes) (find_column c (columns t))
          else if mem c float_cols
               then option_map (map as_float) (find_column c (columns t))
          else find_column c (columns t)).
Proof.
  set (d1 := {| nrows := nrows t;
                columns := remove_columns [ "policy_id" ] (columns t) |}).
  destruct (boolean_conversion_run d1) as (d2 & Hrun2 & _ & Hfind2 & _).
  destruct (float_conversion_exact d2) as (d3 & Hrun3 & Hfind3).
  exists d3. split.
  - unfold in_place_steps, bind. rewrite drop_identifiers_run. fold d1.
    now rewrite Hrun2, Hrun3.
  - intros c. rewrite Hfind3, Hfind2. unfold d1. cbn [columns].
    rewrite find_remove_columns.
    assert (mem c [ "policy_id" ] = String.eqb c "policy_id") as ->
      by (unfold mem; cbn [existsb]; apply orb_false_r).
    destruct (String.eqb_spec c "policy_id") as [E | Hc]; [rewrite E; reflexivity |].
    destruct (mem c boolean_cols) eqn:B; [| reflexivity].
    apply mem_true_iff in B. destruct (boolean_cols_apart c B) as (_ & F & _).
    now rewrite F.
Qed.

Lemma encode_ranks s : forall codes,
  traverse (encode_value ncap_categories) (Series_astype_str s) = Ok codes ->
  Forall2 is_rank s codes.
Proof.
  induction s as [| v s IH]; intros codes.
  - simpl. intros [= <-]. constructor.
  - change (Series_astype_str (v :: s))
      with (CStr (py_str v) :: Series_astype_str s).
    cbn [traverse encode_value].
    destruct (index_of (py_str v) ncap_categories) as [i |] eqn:E; [| discriminate].
    destruct (traverse (encode_value ncap_categories) (Series_astype_str s))
      as [cs |]; [| discriminate].
    intros [= <-]. constructor; [| now apply IH].
    exists i. split; [exact E | reflexivity].
Qed.

(** Step 4, when it returns, with what it leaves in every column. *)
Lemma ordinal_encoding_exact d d4 :
  ordinal_encoding d = (Ok tt, d4) ->
  find_column "ncap_rating" (columns d4) = None
  /\ (forall c, String.eqb c "ncap_rating" = false ->
                String.eqb c "NCAP_Rating" = false ->
                find_column c (columns d4) = find_column c (columns d))
  /\ match find_column "ncap_rating" (columns d) with
     | None =>
         find_column "NCAP_Rating" (columns d4) = find_column "NCAP_Rating" (columns d)
     | Some s =>
         exists codes,
           find_column "NCAP_Rating" (columns d4) = Some codes
           /\ Forall2 is_rank s codes
     end.
Proof.
  destruct (find_column "ncap_rating" (columns d)) as [s |] eqn:Hs.
  - pose proof (ordinal_encoding_present d s Hs) as Hrun. cbv zeta in Hrun.
    rewrite Hrun.
    destruct (nrows d =? 0)%nat; [discriminate |].
    destruct (traverse (encode_value ncap_categories) (Series_astype_str s))
      as [codes | e] eqn:Et; [| discriminate].
    intros [= <-]. cbn [columns]. split; [| split].
    + rewrite find_remove_columns. reflexivity.
    + intros c H1 H2. rewrite find_remove_columns. unfold mem. cbn [existsb].
      rewrite H1. cbn [orb]. rewrite !find_set_column.
      rewrite (String.eqb_sym "NCAP_Rating" c), H2.
      now rewrite (String.eqb_sym "ncap_rating" c), H1.
    + exists codes. split; [| now apply encode_ranks].
      rewrite find_remove_columns. cbn. now rewrite find_set_column, String.eqb_refl.
  - intros H. rewrite ordinal_encoding_absent in H by exact Hs.
    injection H as <-. auto.
Qed.

Lemma float_cols_apart c :
  In c float_cols ->
  String.eqb c "policy_id" = false /\ mem c boolean_cols = false
  /\ String.eqb c "ncap_rating" = false /\ String.eqb c "NCAP_Rating" = false
  /\ mem c categorical_cols = false /\ indicator_label c = false
  /\ String.eqb c target_col = false.
Proof.
  intros H.
  assert (Hall : forallb (fun c =>
            andb (negb (String.eqb c "policy_id"))
           (andb (negb (mem c boolean_cols))
           (andb (negb (String.eqb c "ncap_rating"))
           (andb (negb (String.eqb c "NCAP_Rating"))
           (andb (negb (mem c categorical_cols))
           (andb (negb (indicator_label c))
                 (negb (String.eqb c target_col)))))))) float_cols = true)
    by (vm_compute; reflexivity).
  rewrite forallb_forall in Hall. specialize (Hall c H).
  repeat (apply andb_prop in Hall as [?H Hall]).
  repeat split; now apply negb_true_iff.
Qed.

Lemma categorical_cols_apart c :
  In c categorical_cols ->
  String.eqb c "policy_id" = false /\ mem c boolean_cols = false
  /\ mem c float_cols = false
  /\ String.eqb c "ncap_rating" = false /\ String.eqb c "NCAP_Rating" = false
  /\ indicator_label c = false
  /\ String.eqb c target_col = false.
Proof.
  intros H.
  assert (Hall : forallb (fun c =>
            andb (negb (String.eqb c "policy_id"))
           (andb (negb (mem c boolean_cols))
           (andb (negb (mem c float_cols))
           (andb (negb (String.eqb c "ncap_rating"))
           (andb (negb (String.eqb c "NCAP_Rating"))
           (andb (negb (indicator_label c))
                 (negb (String.eqb c target_col)))))))) categorical_cols = true)
    by (vm_compute; reflexivity).
  rewrite forallb_forall in Hall. specialize (Hall c H).
  repeat (apply andb_prop in Hall as [?H Hall]).
  repeat split; now apply negb_true_iff.
Qed.

(** The indicator columns of one column, read forwards and backwards. *)
Lemma dummies_columns_iff (data : series) (prefix : string) n s :
  In (n, s) (columns (get_dummies_1d data prefix "_" true)) <->
  exists level,
    In level (tl (categories_of data))
    /\ n = (prefix ++ "_" ++ py_str level)%string
    /\ s = map (fun v => CBool (py_eq v level)) data.
Proof.
  unfold get_dummies_1d.
  destruct (categories_of data) as [| l0 [| l1 ls]]; cbn [length Nat.eqb andb tl columns get_empty_frame].
  - split; [intros [] | intros (level & [] & _)].
  - split; [intros [] | intros (level & [] & _)].
  - rewrite in_map_iff. split.
    + intros (level & [= <- <-] & Hin). now exists level.
    + intros (level & Hin & -> & ->). now exists level.
Qed.

(** Step 5, when it returns: the frame it makes is what is left of the
    columns that are not encoded, followed by the indicator columns of
    the encoded ones. *)
Lemma get_dummies_shape d d5 :
  get_dummies_frame d (encoded_columns d) true = Ok d5 ->
  exists enc rest,
    map fst enc = encoded_columns d
    /\ (forall l s, In (l, s) enc -> find_column l (columns d) = Some s)
    /\ columns d5 =
       rest ++ concat (map columns
                 (map (fun col => get_dummies_1d (snd col) (fst col) "_" true) enc))
    /\ (forall x, In x rest -> In x (columns d))
    /\ (forall c, mem c (encoded_columns d) = true -> find_column c rest = None).
Proof.
  intros H.
  assert (Hpresent : forall l, In l (encoded_columns d) -> mem l (column_names d) = true)
    by (intros l Hl; now apply filter_In in Hl).
  destruct (select_frame_present _ d Hpresent) as (enc & Hsel & Hnames & Hfind).
  unfold get_dummies_frame in H. rewrite Hsel in H. cbn [columns] in H.
  destruct (length enc =? length (columns d))%nat.
  - cbn [app] in H.
    destruct enc as [| e enc']; [discriminate H |].
    cbn [map concat_columns] in H. injection H as <-. cbn [columns].
    exists (e :: enc'), []. cbn [app map]. repeat split; auto. intros x [].
  - rewrite (drop_frame_present _ d Hpresent) in H.
    cbn [app concat_columns map concat columns] in H. injection H as <-.
    exists enc, (remove_columns (encoded_columns d) (columns d)). cbn [columns].
    repeat split; auto.
    + intros x. apply In_remove_columns.
    + intros c Hc. now rewrite find_remove_columns, Hc.
Qed.

Lemma In_dummies (enc : list (string * series)) n s :
  In (n, s) (concat (map columns
     (map (fun col => get_dummies_1d (snd col) (fst col) "_" true) enc))) <->
  exists l data level,
    In (l, data) enc
    /\ In level (tl (categories_of data))
    /\ n = (l ++ "_" ++ py_str level)%string
    /\ s = map (fun v => CBool (py_eq v level)) data.
Proof.
  rewrite in_concat. split.
  - intros (cols & Hcols & Hin).
    apply in_map_iff in Hcols as (f & <- & Hf).
    apply in_map_iff in Hf as ([l data] & <- & Hl). cbn [fst snd] in Hin.
    apply dummies_columns_iff in Hin as (level & H1 & H2 & H3).
    now exists l, data, level.
  - intros (l & data & level & Hl & Hlevel & -> & ->).
    exists (columns (get_dummies_1d data l "_" true)). split.
    + apply in_map. apply (in_map (fun col => get_dummies_1d (snd col) (fst col) "_" true)) in Hl.
      exact Hl.
    + apply dummies_columns_iff. now exists level.
Qed.

Lemma indicator_label_intro l (x : string) :
  In l categorical_cols -> indicator_label (l ++ "_" ++ x)%string = true.
Proof.
  intros H. apply existsb_exists. exists l. split; [exact H |].
  exact (startswith_app l "_" x).
Qed.

Lemma get_dummies_keeps d d5 :
  get_dummies_frame d (encoded_columns d) true = Ok d5 ->
  forall c, mem c categorical_cols = false -> indicator_label c = false ->
            find_column c (columns d5) = find_column c (columns d).
Proof.
  intros H.
  assert (Hne : columns d <> []).
  { intros E. rewrite (get_dummies_empty d E) in H. discriminate. }
  destruct (get_dummies_run d Hne) as (d5' & H' & Hk & _).
  rewrite H in H'. injection H' as <-. exact Hk.
Qed.

Lemma get_dummies_removes d d5 :
  get_dummies_frame d (encoded_columns d) true = Ok d5 ->
  forall c, mem c categorical_cols = true -> find_column c (columns d5) = None.
Proof.
  intros H c Hc.
  destruct (get_dummies_shape d d5 H) as (enc & rest & Hnames & Hfind & Hcols & Hrest & Henc).
  assert (Hcat : forall l data, In (l, data) enc -> In l categorical_cols).
  { intros l data Hl.
    assert (In l (encoded_columns d)) as Hin
      by (rewrite <- Hnames; apply in_map_iff; now exists (l, data)).
    now apply filter_In in Hin. }
  apply mem_true_iff in Hc as Hin.
  destruct (categorical_cols_apart c Hin) as (_ & _ & _ & _ & _ & Hind & _).
  rewrite Hcols, find_column_app.
  assert (find_column c rest = None) as ->.
  { destruct (mem c (column_names d)) eqn:M.
    - apply Henc. unfold encoded_columns. rewrite mem_filter, Hc, M. reflexivity.
    - apply find_column_not_in. intros n s Hn ->.
      apply Hrest in Hn. apply mem_false_iff in M. apply M.
      apply in_map_iff. now exists (c, s). }
  apply find_column_not_in. intros n s Hn ->.
  apply In_dummies in Hn as (l & data & level & Hl & _ & -> & _).
  rewrite (indicator_label_intro l (py_str level) (Hcat l data Hl)) in Hind.
  discriminate.
Qed.

(** What [process] returns, traced back through the six steps: the
    frame step 4 leaves, the frame step 5 makes of it, and the feature
    table. *)
Lemma process_trace (h : heap) df t X y h' :
  nth_error h df = Some (ODataFrame t) ->
  process df h = (Ok (X, y), h') ->
  exists d4 d5 features,
    nth_error h' X = Some (ODataFrame features)
    /\ columns features = remove_columns [ target_col ] (columns d5)
    /\ get_dummies_frame d4 (encoded_columns d4) true = Ok d5
    /\ find_column "ncap_rating" (columns d4) = None
    /\ (forall c, String.eqb c "ncap_rating" = false ->
                  String.eqb c "NCAP_Rating" = false ->
                  find_column c (columns d4) =
                  if String.eqb c "policy_id" then None
                  else if mem c boolean_cols
                       then option_map (map is_yes) (find_column c (columns t))
                  else if mem c float_cols
                       then option_map (map as_float) (find_column c (columns t))
                  else find_column c (columns t))
    /\ match find_column "ncap_rating" (columns t) with
       | None =>
           find_column "NCAP_Rating" (columns d4) = find_column "NCAP_Rating" (columns t)
       | Some s =>
           exists codes,
             find_column "NCAP_Rating" (columns d4) = Some codes
             /\ Forall2 is_rank s codes
       end.
Proof.
  intros Ht Hp. pose proof (process_run h df t Ht) as Hrun.
  destruct (process_frame t) as [[Xf yf] | e] eqn:Hf.
  2: { destruct Hrun as [g Hg]. rewrite Hg in Hp. discriminate. }
  destruct Hrun as (o4 & o5 & Hrun). rewrite Hrun in Hp. injection Hp as <- <- <-.
  unfold process_frame in Hf.
  destruct (in_place_steps_exact t) as (d3 & Hsteps & Hfind3). rewrite Hsteps in Hf.
  destruct (ordinal_encoding d3) as [[[] | e] d4] eqn:Ho; [| discriminate].
  destruct (get_dummies_frame d4 (encoded_columns d4) true) as [d5 | e] eqn:Hd;
    [| discriminate].
  rewrite split_target_run in Hf.
  destruct (find_column target_col (columns d5)) as [labels |]; [| discriminate].
  destruct (Series_astype_int labels) as [zs |]; [| discriminate].
  injection Hf as <- <-.
  destruct (ordinal_encoding_exact d3 d4 Ho) as (Hn & Hother & Hcodes).
  exists d4, d5,
    {| nrows := nrows d5; columns := remove_columns [ target_col ] (columns d5) |}.
  split; [rewrite nth_error_after; reflexivity |].
  split; [reflexivity |]. split; [exact Hd |]. split; [exact Hn |]. split.
  - intros c H1 H2. rewrite (Hother c H1 H2). apply Hfind3.
  - assert (E1 : find_column "ncap_rating" (columns d3)
                 = find_column "ncap_rating" (columns t))
      by (rewrite Hfind3; reflexivity).
    assert (E2 : find_column "NCAP_Rating" (columns d3)
                 = find_column "NCAP_Rating" (columns t))
      by (rewrite Hfind3; reflexivity).
    rewrite E1, E2 in Hcodes. exact Hcodes.
Qed.

Lemma features_find (features d5 : DataFrame) c :
  columns features = remove_columns [ target_col ] (columns d5) ->
  find_column c (columns features) =
  if String.eqb c target_col then None else find_column c (columns d5).
Proof.
  intros ->. rewrite find_remove_columns.
  assert (mem c [ target_col ] = String.eqb c target_col) as ->
    by (unfold mem; cbn [existsb]; apply orb_false_r).
  reflexivity.
Qed.

End FeatureFacts.

Section FeatureTable.

Local Open Scope list_scope.

Import State Pandas Preprocessor.

Context {R : Runtime}.

Lemma index_of_nth (x : string) (cats : list string) i :
  index_of x cats = Some i -> nth_error cats i = Some x.
Proof.
  revert i. induction cats as [| c cats IH]; intros i; simpl; [discriminate |].
  destruct (String.eqb_spec c x) as [-> | Hne].
  - intros [= <-]. reflexivity.
  - destruct (index_of x cats) as [j |]; simpl; [| discriminate].
    intros [= <-]. simpl. now apply IH.
Qed.

(** X13: the feature table has no column under the identifier's label,
    under the rating's original label, or under the label of any of the
    fourteen one-hot encoded columns. *)
Theorem process_drops_encoded_inputs :
  forall (h : heap) (df : ref) (t : DataFrame) (X y : ref) (h' : heap),
    nth_error h df = Some (ODataFrame t) ->
    well_formed t ->
    process df h = (Ok (X, y), h') ->
    exists features,
      nth_error h' X = Some (ODataFrame features)
      /\ forall c, In c ("policy_id" :: "ncap_rating" :: categorical_cols) ->
                   mem c (column_names features) = false.
Proof.
  intros h df t X y h' Ht _ Hp.
  destruct (process_trace h df t X y h' Ht Hp)
    as (d4 & d5 & features & HX & Hcols & Hd & Hn & Hother & _).
  exists features. split; [exact HX |].
  intros c Hc. apply find_column_None. rewrite (features_find features d5 c Hcols).
  destruct (String.eqb c target_col); [reflexivity |].
  destruct Hc as [<- | [<- | Hc]].
  - rewrite (get_dummies_keeps d4 d5 Hd) by reflexivity.
    rewrite Hother by reflexivity. reflexivity.
  - rewrite (get_dummies_keeps d4 d5 Hd) by reflexivity. exact Hn.
  - apply (get_dummies_removes d4 d5 Hd). now apply mem_true_iff.
Qed.

(** X14: a column of the float list that the input has is, in the
    feature table, the input column with every value made a double: a
    number is converted, a text that reads as a number is parsed, and
    everything else, nulls included, becomes NaN. *)
Theorem process_float_columns :
  forall (h : heap) (df : ref) (t : DataFrame) (col : string) (s : series)
         (X y : ref) (h' : heap),
    nth_error h df = Some (ODataFrame t) ->
    well_formed t ->
    In col float_cols ->
    find_column col (columns t) = Some s ->
    process df h = (Ok (X, y), h') ->
    (exists features,
       nth_error h' X = Some (ODataFrame features)
       /\ find_column col (columns features) = Some (map as_float s))
    /\ (forall v, as_float v = CNaN \/ exists f, as_float v = CFloat f)
    /\ (forall v, isna v = true -> as_float v = CNaN)
    /\ (forall z, as_float (CInt z) = CFloat (f64_of_Z z))
    /\ (forall f, as_float (CFloat f) = CFloat f)
    /\ (forall x, as_float (CStr x) =
                  match f64_of_str x with Some f => CFloat f | None => CNaN end).
Proof.
  intros h df t col s X y h' Ht _ Hcol Hs Hp.
  destruct (process_trace h df t X y h' Ht Hp)
    as (d4 & d5 & features & HX & Hcols & Hd & _ & Hother & _).
  destruct (float_cols_apart col Hcol) as (H1 & H2 & H3 & H4 & H5 & H6 & H7).
  split; [| repeat split].
  - exists features. split; [exact HX |].
    rewrite (features_find features d5 col Hcols), H7.
    rewrite (get_dummies_keeps d4 d5 Hd col H5 H6), (Hother col H3 H4), H1, H2.
    apply mem_true_iff in Hcol. rewrite Hcol, Hs. reflexivity.
  - intros [| | b | z | f | x]; cbv [as_float coerce_numeric]; eauto.
    destruct (f64_of_str x); eauto.
  - intros [| | b | z | f | x]; try discriminate; reflexivity.
  - intros x. cbv [as_float coerce_numeric]. now destruct (f64_of_str x).
Qed.

(** X15: when the input has the rating column, the feature table holds
    its codes under the label NCAP_Rating: row by row, the position of the
    rating's text in the list "0" to "5", as a double. *)
Theorem process_encodes_ncap_rating :
  forall (h : heap) (df : ref) (t : DataFrame) (s : series)
         (X y : ref) (h' : heap),
    nth_error h df = Some (ODataFrame t) ->
    well_formed t ->
    find_column "ncap_rating" (columns t) = Some s ->
    process df h = (Ok (X, y), h') ->
    exists features codes,
      nth_error h' X = Some (ODataFrame features)
      /\ find_column "NCAP_Rating" (columns features) = Some codes
      /\ Forall2 is_rank s codes
      /\ (forall v code, is_rank v code ->
            exists i, nth_error [ "0"; "1"; "2"; "3"; "4"; "5" ] i = Some (py_str v)
                      /\ code = CFloat (f64_of_Z (Z.of_nat i))).
Proof.
  intros h df t s X y h' Ht _ Hs Hp.
  destruct (process_trace h df t X y h' Ht Hp)
    as (d4 & d5 & features & HX & Hcols & Hd & _ & _ & Hcodes).
  rewrite Hs in Hcodes. destruct Hcodes as (codes & Hfind & Hrank).
  exists features, codes. split; [exact HX |]. split; [| split; [exact Hrank |]].
  - rewrite (features_find features d5 "NCAP_Rating" Hcols).
    change (String.eqb "NCAP_Rating" target_col) with false. cbv iota.
    rewrite (get_dummies_keeps d4 d5 Hd) by reflexivity. exact Hfind.
  - intros v code (i & Hi & ->). exists i. split; [| reflexivity].
    now apply index_of_nth in Hi.
Qed.

(** X16: a column under a label that no step names (not the identifier,
    not in the boolean, float or one-hot lists, neither form of the rating
    label, no indicator label) and that is not the label column is in the
    feature table exactly as it is in the input; and no column appears
    under such a label if the input has none. *)
Theorem process_keeps_other_columns :
  forall (h : heap) (df : ref) (t : DataFrame) (c : string)
         (X y : ref) (h' : heap),
    nth_error h df = Some (ODataFrame t) ->
    well_formed t ->
    passes_through c = true ->
    c <> target_col ->
    process df h = (Ok (X, y), h') ->
    exists features,
      nth_error h' X = Some (ODataFrame features)
      /\ find_column c (columns features) = find_column c (columns t).
Proof.
  intros h df t c X y h' Ht _ Hc Hne Hp.
  destruct (process_trace h df t X y h' Ht Hp)
    as (d4 & d5 & features & HX & Hcols & Hd & _ & Hother & _).
  exists features. split; [exact HX |].
  unfold passes_through in Hc. apply negb_true_iff in Hc.
  do 6 (apply orb_false_elim in Hc as [?H Hc]).
  apply String.eqb_neq in Hne.
  rewrite (features_find features d5 c Hcols), Hne.
  rewrite (get_dummies_keeps d4 d5 Hd c) by assumption.
  rewrite Hother by assumption.
  now rewrite H, H0, H1.
Qed.

(** X17: the feature table invents no column: each of its labels is a
    label of the input, or NCAP_Rating when the input has the rating
    column, or the label of an encoded column of the input followed by an
    underscore and one of that column's categories other than the first. *)
Theorem process_invents_no_column :
  forall (h : heap) (df : ref) (t : DataFrame) (X y : ref) (h' : heap),
    nth_error h df = Some (ODataFrame t) ->
    well_formed t ->
    process df h = (Ok (X, y), h') ->
    exists features,
      nth_error h' X = Some (ODataFrame features)
      /\ forall c, mem c (column_names features) = true ->
           mem c (column_names t) = true
           \/ (c = "NCAP_Rating" /\ mem "ncap_rating" (column_names t) = true)
           \/ (exists col s level,
                 In col categorical_cols
                 /\ find_column col (columns t) = Some s
                 /\ In level (tl (categories_of s))
                 /\ c = (col ++ "_" ++ py_str level)%string).
Proof.
  intros h df t X y h' Ht _ Hp.
  destruct (process_trace h df t X y h' Ht Hp)
    as (d4 & d5 & features & HX & Hcols & Hd & Hn & Hother & Hcodes).
  exists features. split; [exact HX |].
  intros c Hc. apply mem_true_iff, in_map_iff in Hc as ([c' s'] & Hc' & Hin).
  cbn [fst] in Hc'. subst c'. rewrite Hcols in Hin. apply In_remove_columns in Hin.
  destruct (get_dummies_shape d4 d5 Hd)
    as (enc & rest & Hnames & Hfind & Hshape & Hrest & _).
  assert (Hfrom : forall x o,
            (if String.eqb x "policy_id" then None
             else if mem x boolean_cols
                  then option_map (map is_yes) (find_column x (columns t))
             else if mem x float_cols
                  then option_map (map as_float) (find_column x (columns t))
             else find_column x (columns t)) = Some o ->
            exists o', find_column x (columns t) = Some o').
  { intros x o. destruct (String.eqb x "policy_id"); [discriminate |].
    destruct (find_column x (columns t)) as [o' |]; [eauto |].
    destruct (mem x boolean_cols); [discriminate |].
    destruct (mem x float_cols); discriminate. }
  rewrite Hshape in Hin. apply in_app_or in Hin as [Hin | Hin].
  - apply Hrest in Hin.
    assert (Hsome : exists o, find_column c (columns d4) = Some o).
    { apply find_column_mem, mem_true_iff, in_map_iff. now exists (c, s'). }
    destruct Hsome as [o Ho].
    destruct (String.eqb_spec c "ncap_rating") as [-> | H1]; [congruence |].
    destruct (String.eqb_spec c "NCAP_Rating") as [-> | H2].
    + destruct (find_column "ncap_rating" (columns t)) as [s |] eqn:Hs.
      * right. left. split; [reflexivity |]. apply find_column_mem. eauto.
      * left. apply find_column_mem. rewrite <- Hcodes. eauto.
    + left. apply find_column_mem.
      apply String.eqb_neq in H1, H2. rewrite (Hother c H1 H2) in Ho.
      now apply Hfrom in Ho.
  - right. right.
    apply In_dummies in Hin as (l & data & level & Hl & Hlevel & -> & _).
    assert (Hcat : In l categorical_cols).
    { assert (In l (encoded_columns d4)) as Hmem
        by (rewrite <- Hnames; apply in_map_iff; now exists (l, data)).
      now apply filter_In in Hmem. }
    exists l, data, level. split; [exact Hcat |]. split; [| split; auto].
    destruct (categorical_cols_apart l Hcat) as (H1 & H2 & H3 & H4 & H5 & _).
    pose proof (Hfind l data Hl) as Hdata.
    rewrite (Hother l H4 H5), H1, H2, H3 in Hdata. exact Hdata.
Qed.

(** X18: for a one-hot encoded column of the input and each of its
    categories but the first, the feature table has the indicator column
    labelled by the column, an underscore and the category, which tells
    row by row whether the value is that category. *)
Theorem process_indicator_columns :
  forall (h : heap) (df : ref) (t : DataFrame) (col : string) (s : series)
         (level : value) (X y : ref) (h' : heap),
    nth_error h df = Some (ODataFrame t) ->
    well_formed t ->
    In col categorical_cols ->
    find_column col (columns t) = Some s ->
    In level (tl (categories_of s)) ->
    process df h = (Ok (X, y), h') ->
    exists features,
      nth_error h' X = Some (ODataFrame features)
      /\ In ((col ++ "_" ++ py_str level)%string,
             map (fun v => CBool (py_eq v level)) s) (columns features).
Proof.
  intros h df t col s level X y h' Ht _ Hcol Hs Hlevel Hp.
  destruct (process_trace h df t X y h' Ht Hp)
    as (d4 & d5 & features & HX & Hcols & Hd & _ & Hother & _).
  exists features. split; [exact HX |].
  destruct (categorical_cols_apart col Hcol) as (H1 & H2 & H3 & H4 & H5 & _).
  assert (Hs4 : find_column col (columns d4) = Some s)
    by (rewrite (Hother col H4 H5), H1, H2, H3; exact Hs).
  destruct (get_dummies_shape d4 d5 Hd)
    as (enc & rest & Hnames & Hfind & Hshape & _ & _).
  assert (Henc : In (col, s) enc).
  { assert (In col (map fst enc)) as Hin.
    { rewrite Hnames. apply filter_In. split; [exact Hcol |].
      apply find_column_mem. eauto. }
    apply in_map_iff in Hin as ([l data] & Hl & Hin). cbn [fst] in Hl. subst l.
    pose proof (Hfind col data Hin) as Hdata. rewrite Hs4 in Hdata.
    injection Hdata as <-. exact Hin. }
  rewrite Hcols. apply filter_In. split.
  - rewrite Hshape. apply in_or_app. right. apply In_dummies.
    now exists col, s, level.
  - cbn [fst]. apply negb_true_iff. apply mem_false_iff. intros [E | []].
    pose proof (indicator_label_intro col (py_str level) Hcol) as Hind.
    rewrite <- E in Hind. discriminate Hind.
Qed.

End FeatureTable.

Section FeatureExamples.

Local Open Scope list_scope.

Import State Pandas Preprocessor.

(** The example of the specification: X has none of [policy_id],
    [ncap_rating] and [transmission_type]. *)
Lemma process_drops_encoded_inputs_witness :
  exists features,
    nth_error (snd (@process integral_runtime O [ ODataFrame example_table ])) 3 =
      Some (ODataFrame features)
    /\ mem "policy_id" (column_names features) = false
    /\ mem "ncap_rating" (column_names features) = false
    /\ mem "transmission_type" (column_names features) = false.
Proof.
  destruct (@process_drops_encoded_inputs integral_runtime
              [ ODataFrame example_table ] O example_table 3%nat 4%nat
              (snd (@process integral_runtime O [ ODataFrame example_table ])))
    as (features & HX & Hnone).
  - reflexivity.
  - split; reflexivity.
  - reflexivity.
  - exists features. split; [exact HX |].
    repeat split; apply Hnone; simpl; tauto.
Defined.

(** The example of the specification: [length] becomes [4000.0, 4200.0]. *)
Lemma process_float_columns_witness :
  exists features,
    nth_error (snd (@process integral_runtime O [ ODataFrame example_table ])) 3 =
      Some (ODataFrame features)
    /\ find_column "length" (columns features) =
       Some [ CFloat 4000%Z; CFloat 4200%Z ].
Proof.
  destruct (@process_float_columns integral_runtime
              [ ODataFrame example_table ] O example_table
              "length" [ CStr "4000"; CStr "4200" ] 3%nat 4%nat
              (snd (@process integral_runtime O [ ODataFrame example_table ])))
    as [Hfeatures _].
  - reflexivity.
  - split; reflexivity.
  - simpl. tauto.
  - reflexivity.
  - reflexivity.
  - exact Hfeatures.
Defined.

(** The example of the specification: the ratings "3" and "5" are coded
    3.0 and 5.0. *)
Lemma process_encodes_ncap_rating_witness :
  exists features codes,
    nth_error (snd (@process integral_runtime O [ ODataFrame example_table ])) 3 =
      Some (ODataFrame features)
    /\ find_column "NCAP_Rating" (columns features) = Some codes
    /\ Forall2 is_rank [ CStr "3"; CStr "5" ] codes.
Proof.
  destruct (@process_encodes_ncap_rating integral_runtime
              [ ODataFrame example_table ] O example_table
              [ CStr "3"; CStr "5" ] 3%nat 4%nat
              (snd (@process integral_runtime O [ ODataFrame example_table ])))
    as (features & codes & HX & Hfind & Hrank & _).
  - reflexivity.
  - split; reflexivity.
  - reflexivity.
  - reflexivity.
  - exists features, codes. repeat split; assumption.
Defined.

(** A column [age], which no step names, comes out as it went in. *)
Lemma process_keeps_other_columns_witness :
  let t : @DataFrame integral_runtime :=
    {| nrows := 2;
       columns := [ ("age", [ CInt 31; CNone ]); ("is_claim", [ CInt 0; CInt 1 ]) ] |} in
  exists features,
    nth_error (snd (process O [ ODataFrame t ])) 3 = Some (ODataFrame features)
    /\ find_column "age" (columns features) = Some [ CInt 31; CNone ].
Proof.
  intros t.
  destruct (@process_keeps_other_columns integral_runtime
              [ ODataFrame t ] O t "age" 3%nat 4%nat
              (snd (process O [ ODataFrame t ])))
    as (features & HX & Hfind).
  - reflexivity.
  - split; reflexivity.
  - reflexivity.
  - discriminate.
  - reflexivity.
  - exists features. split; [exact HX | exact Hfind].
Defined.

(** The example of the specification: every label of X is accounted
    for. *)
Lemma process_invents_no_column_witness :
  exists features,
    nth_error (snd (@process integral_runtime O [ ODataFrame example_table ])) 3 =
      Some (ODataFrame features)
    /\ forall c, mem c (column_names features) = true ->
         mem c (column_names example_table) = true
         \/ (c = "NCAP_Rating" /\ mem "ncap_rating" (column_names example_table) = true)
         \/ (exists col s level,
               In col categorical_cols
               /\ find_column col (columns example_table) = Some s
               /\ In level (tl (@categories_of integral_runtime s))
               /\ c = (col ++ "_" ++ py_str level)%string).
Proof.
  apply (@process_invents_no_column integral_runtime
           [ ODataFrame example_table ] O example_table 3%nat 4%nat
           (snd (@process integral_runtime O [ ODataFrame example_table ]))).
  - reflexivity.
  - split; reflexivity.
  - reflexivity.
Defined.

(** The example of the specification: the categories of
    [transmission_type] are Automatic and Manual, the first is dropped, and
    the indicator of Manual is [true, false]. *)
Lemma process_indicator_columns_witness :
  exists features,
    nth_error (snd (@process integral_runtime O [ ODataFrame example_table ])) 3 =
      Some (ODataFrame features)
    /\ In ("transmission_type_Manual", [ CBool true; CBool false ])
          (columns features).
Proof.
  apply (@process_indicator_columns integral_runtime
           [ ODataFrame example_table ] O example_table
           "transmission_type" [ CStr "Manual"; CStr "Automatic" ] (CStr "Manual")
           3%nat 4%nat
           (snd (@process integral_runtime O [ ODataFrame example_table ]))).
  - reflexivity.
  - split; reflexivity.
  - simpl. tauto.
  - reflexivity.
  - simpl. tauto.
  - reflexivity.
Defined.

End FeatureExamples.
